(** * vital-scan-web: the diabetes risk inference core

    A shallow embedding of the risk-inference code of the repository:

    - [src/utils/diabetesPrediction.ts]  the additive rule engine
      ([calculateDiabetesRisk]);
    - [src/utils/modelPrediction.ts]     the orchestrator
      ([predictDiabetesRisk], [useRuleBasedModel], [generateFactors],
      [generateRecommendations]) and the client-side feature encoding of
      [useTrainedModel];
    - the client-side [DatasetProcessor] class (its code tables);
    - the serving script (code tables, [processData], the encoding of
      [/api/predict]).

    JavaScript numbers are IEEE-754 doubles and are modelled by Rocq's
    primitive binary64 floats, so comparisons, [NaN] and rounding behave as
    they do in the engine.  Quantities that the code only ever builds from
    small integer constants (the running [riskScore], list lengths) are kept
    in [Z]: doubles represent them exactly. *)

From Stdlib Require Import ZArith Lia QArith.QArith_base QArith.Qround.
From Stdlib Require Import Floats.PrimFloat Floats.FloatOps Floats.SpecFloat.
From Stdlib Require Import Floats.FloatAxioms.
From Stdlib Require Import Numbers.Cyclic.Int63.Uint63.
From stdpp Require Import base option strings list gmap.

Local Open Scope Z_scope.

(** ** JavaScript numbers *)

Module JS.

Definition number : Set := float.

(** [a >= b], [a <= b], [a > b] on doubles; every comparison with [NaN]
    is [false]. *)
Definition ge (a b : number) : bool := PrimFloat.leb b a.
Definition le (a b : number) : bool := PrimFloat.leb a b.
Definition lt (a b : number) : bool := PrimFloat.ltb a b.

(** [isNaN(x)]: [NaN] is the only double that differs from itself. *)
Definition isNaN (x : number) : bool := negb (PrimFloat.eqb x x).

(** The double of an integer (exact below 2^53). *)
Definition of_Z (z : Z) : number := PrimFloat.of_uint63 (Uint63.of_Z z).

(** [Math.round(x)]: the integer closest to [x], a tie going towards
    +infinity, that is floor(x + 1/2) computed without rounding error.
    A finite double is [±m·2^e]; [NaN] and the infinities (which
    [Math.round] returns unchanged) have no integer value and never reach
    this function from the score computation: the default [0] is for
    totality only. *)
Definition Math_round (x : number) : Z :=
  match Prim2SF x with
  | S754_finite s m e =>
      let sm := if s then Z.neg m else Z.pos m in
      if 0 <=? e then sm * 2 ^ e
      else (2 * sm + 2 ^ (- e)) / 2 ^ (- e + 1)
  | _ => 0
  end.

(** [Math.min] on integers. *)
Definition Math_min (a b : Z) : Z := Z.min a b.

(** A template literal, kept as its parts: literal text and interpolated
    numbers.  The engine renders [Interp x] with Number::toString and
    [Fixed d x] with [x.toFixed(d)]; two literals with the same parts
    render to the same string. *)
Inductive segment : Set :=
| Text (s : string)
| Interp (x : number)
| Fixed (digits : Z) (x : number).

Definition template : Set := list segment.

(** The double nearest to an integer (exact below 2^53). *)
Definition number_of_Z (z : Z) : number :=
  SF2Prim (binary_normalize prec emax z 0 false).

(** [Math.floor(x)] of a finite double, as an integer; as for
    [Math_round], the default [0] is for totality only. *)
Definition Math_floor (x : number) : Z :=
  match Prim2SF x with
  | S754_finite s m e =>
      let sm := if s then Z.neg m else Z.pos m in
      if 0 <=? e then sm * 2 ^ e else sm / 2 ^ (- e)
  | _ => 0
  end.

(** [Math.round(x)] as the number it returns: [NaN], the infinities and
    the zeros are returned as they are, and a result of zero keeps the
    sign of [x]. *)
Definition Math_round_number (x : number) : number :=
  match Prim2SF x with
  | S754_finite s _ _ =>
      if Math_round x =? 0 then (if s then (-0)%float else 0%float)
      else number_of_Z (Math_round x)
  | _ => x
  end.

(** [isFinite(x)] *)
Definition isFinite (x : number) : bool :=
  match Prim2SF x with
  | S754_zero _ | S754_finite _ _ _ => true
  | _ => false
  end.

(** [xs[i]] read as a number in arithmetic: past the end of the array the
    read gives [undefined], which arithmetic turns into [NaN]. *)
Definition at_index (xs : list number) (i : nat) : number :=
  nth i xs PrimFloat.nan.

(** What [table[key]] finds, on an object literal whose values are
    numbers, when it finds something: one of the numbers or, for a key
    that names a property of [Object.prototype], the function found there
    (for ["__proto__"] the prototype itself).  What is inherited is not a
    number, is truthy and is not nullish. *)
Inductive entry : Set :=
| num (x : number)
| inherited (key : string).

Definition prototypeKeys : list string :=
  ["constructor"; "hasOwnProperty"; "isPrototypeOf"; "propertyIsEnumerable";
   "toLocaleString"; "toString"; "valueOf"; "__proto__"; "__defineGetter__";
   "__defineSetter__"; "__lookupGetter__"; "__lookupSetter__"].

Definition isPrototypeKey (key : string) : bool :=
  existsb (String.eqb key) prototypeKeys.

(** [table[key]]; [None] is [undefined]. *)
Definition read (table : gmap string number) (key : string) : option entry :=
  match table !! key with
  | Some x => Some (num x)
  | None => if isPrototypeKey key then Some (inherited key) else None
  end.

(** ToNumber, which the arithmetic operators [*], [-] and [/] apply to
    their operands: a function or an object without a numeric value
    gives [NaN]. *)
Definition toNumber (v : entry) : number :=
  match v with
  | num x => x
  | inherited _ => PrimFloat.nan
  end.

(** A number is truthy unless it is a zero or [NaN]. *)
Definition truthy (x : number) : bool :=
  negb (PrimFloat.eqb x 0%float) && negb (isNaN x).

(** [table[key] || 0] and [table[key] ?? 0] *)
Definition orZero (found : option entry) : entry :=
  match found with
  | Some (num x) => if truthy x then num x else num 0%float
  | Some (inherited key) => inherited key
  | None => num 0%float
  end.
Definition nullishZero (found : option entry) : entry :=
  default (num 0%float) found.

(** What [map[key] || key] gives on a map from form values to CSV
    words: a word, or what the key inherits when it names a property of
    [Object.prototype]. *)
Inductive remapped : Set :=
| word (s : string)
| notAWord (key : string).

(** [table[r]] for such an [r]: used as a key, a function or the
    prototype is turned into its text (the source of the function,
    "[object Object]"), which is no key of a table of this program and
    no property of [Object.prototype]. *)
Definition readAt (table : gmap string number) (r : remapped) : option entry :=
  match r with
  | word s => read table s
  | notAWord _ => None
  end.

End JS.

Import JS.

Declare Scope js_scope.
Delimit Scope js_scope with js.
Notation "a >=? b" := (JS.ge a b) (at level 70, no associativity) : js_scope.
Notation "a <=? b" := (JS.le a b) (at level 70, no associativity) : js_scope.
Notation "a === s" := (String.eqb a s) (at level 70, no associativity) : js_scope.

(** ** The health profile (src/pages/DiabetesAssessment.tsx)

    The categorical fields are the strings the form stores; the TypeScript
    union types are not checked at run time, and every function below is
    total on arbitrary strings. *)

Record HealthData : Set := {
  age : number;
  gender : string;
  height : number;
  weight : number;
  bmi : number;
  familyHistory : string;
  physicalActivity : string;
  dietType : string;
  smokingStatus : string;
  alcoholIntake : string;
  stressLevel : string;
  hypertension : string
}.

Inductive Impact : Set := impact_positive | impact_negative | impact_neutral.

Record RiskFactor : Set := {
  name : string;
  impact : Impact;
  description : template
}.

(** ** The rule engine (src/utils/diabetesPrediction.ts) *)

Module DiabetesPrediction.

Inductive RiskLevel : Set := Low | Medium | High.

Record RiskResult : Set := {
  riskLevel : RiskLevel;
  riskPercentage : Z;
  factors : list RiskFactor;
  recommendations : list string
}.

(** The three locals the function mutates: [riskScore], [factors],
    [recommendations]. *)
Record Locals : Set := {
  riskScore : Z;
  l_factors : list RiskFactor;
  l_recommendations : list string
}.

Definition init : Locals :=
  {| riskScore := 0; l_factors := []; l_recommendations := [] |}.

(** A statement transforms the locals; [;;] runs two in order. *)
Definition stmt : Set := Locals -> Locals.

Definition seq (c1 c2 : stmt) : stmt := fun st => c2 (c1 st).
Definition skip : stmt := fun st => st.

(** [riskScore += n] *)
Definition score_add (n : Z) : stmt := fun st =>
  {| riskScore := riskScore st + n;
     l_factors := l_factors st;
     l_recommendations := l_recommendations st |}.

(** [factors.push(f)] *)
Definition factors_push (f : RiskFactor) : stmt := fun st =>
  {| riskScore := riskScore st;
     l_factors := l_factors st ++ [f];
     l_recommendations := l_recommendations st |}.

(** [recommendations.push(r)] *)
Definition recommendations_push (r : string) : stmt := fun st =>
  {| riskScore := riskScore st;
     l_factors := l_factors st;
     l_recommendations := l_recommendations st ++ [r] |}.

(** [recommendations.unshift(r)] *)
Definition recommendations_unshift (r : string) : stmt := fun st =>
  {| riskScore := riskScore st;
     l_factors := l_factors st;
     l_recommendations := r :: l_recommendations st |}.

Notation "c1 ;; c2" := (seq c1 c2) (at level 100, c2 at level 200, right associativity).

Local Open Scope js_scope.

Definition mkFactor (n : string) (i : Impact) (d : template) : RiskFactor :=
  {| name := n; impact := i; description := d |}.

(** Age factor *)
Definition ageFactor (data : HealthData) : stmt :=
  if age data >=? 45%float then
    score_add 15 ;;
    factors_push (mkFactor "Age Factor" impact_negative
      [Text "Age "; Interp (age data);
       Text " increases diabetes risk significantly after 45"])
  else if age data >=? 35%float then
    score_add 8 ;;
    factors_push (mkFactor "Age Factor" impact_negative
      [Text "Age "; Interp (age data); Text " shows moderate increased risk"])
  else
    factors_push (mkFactor "Age Factor" impact_positive
      [Text "Age "; Interp (age data);
       Text " is associated with lower diabetes risk"]).

(** BMI factor *)
Definition bmiFactor (data : HealthData) : stmt :=
  if bmi data >=? 30%float then
    score_add 25 ;;
    factors_push (mkFactor "BMI (Obesity)" impact_negative
      [Text "BMI of "; Interp (bmi data);
       Text " indicates obesity, a major diabetes risk factor"]) ;;
    recommendations_push "Work with a healthcare provider to develop a sustainable weight management plan" ;;
    recommendations_push "Consider consulting with a registered dietitian for personalized nutrition guidance"
  else if bmi data >=? 25%float then
    score_add 15 ;;
    factors_push (mkFactor "BMI (Overweight)" impact_negative
      [Text "BMI of "; Interp (bmi data);
       Text " indicates overweight status, increasing diabetes risk"]) ;;
    recommendations_push "Aim for gradual weight loss through balanced diet and regular exercise"
  else if bmi data >=? 18.5%float then
    factors_push (mkFactor "BMI (Healthy)" impact_positive
      [Text "BMI of "; Interp (bmi data);
       Text " is in the healthy range, reducing diabetes risk"])
  else
    factors_push (mkFactor "BMI (Underweight)" impact_neutral
      [Text "BMI of "; Interp (bmi data); Text " is below normal range"]).

(** Family History *)
Definition familyHistoryFactor (data : HealthData) : stmt :=
  if familyHistory data === "Yes" then
    score_add 20 ;;
    factors_push (mkFactor "Family History" impact_negative
      [Text "Family history of diabetes significantly increases your risk"]) ;;
    recommendations_push "Schedule regular diabetes screenings with your healthcare provider"
  else
    factors_push (mkFactor "Family History" impact_positive
      [Text "No family history of diabetes reduces your overall risk"]).

(** Physical Activity *)
Definition physicalActivityFactor (data : HealthData) : stmt :=
  if physicalActivity data === "Low" then
    score_add 15 ;;
    factors_push (mkFactor "Physical Activity" impact_negative
      [Text "Low physical activity increases diabetes risk"]) ;;
    recommendations_push "Aim for at least 150 minutes of moderate-intensity exercise per week" ;;
    recommendations_push "Start with short walks and gradually increase activity level"
  else if physicalActivity data === "Moderate" then
    score_add 5 ;;
    factors_push (mkFactor "Physical Activity" impact_neutral
      [Text "Moderate activity level provides some protection against diabetes"]) ;;
    recommendations_push "Consider increasing to high activity level for maximum health benefits"
  else
    factors_push (mkFactor "Physical Activity" impact_positive
      [Text "High physical activity significantly reduces diabetes risk"]).

(** Diet Type *)
Definition dietFactor (data : HealthData) : stmt :=
  if dietType data === "Unhealthy" then
    score_add 15 ;;
    factors_push (mkFactor "Diet Quality" impact_negative
      [Text "Unhealthy diet with high sugar and processed foods increases risk"]) ;;
    recommendations_push "Focus on whole foods: vegetables, lean proteins, whole grains, and healthy fats" ;;
    recommendations_push "Limit sugary drinks, processed foods, and refined carbohydrates"
  else if dietType data === "Balanced" then
    score_add 3 ;;
    factors_push (mkFactor "Diet Quality" impact_neutral
      [Text "Balanced diet provides moderate protection against diabetes"]) ;;
    recommendations_push "Continue maintaining a balanced diet with plenty of vegetables and whole grains"
  else
    factors_push (mkFactor "Diet Quality" impact_positive
      [Text "Very healthy diet significantly reduces diabetes risk"]).

(** Smoking Status *)
Definition smokingFactor (data : HealthData) : stmt :=
  if smokingStatus data === "Smoker" then
    score_add 12 ;;
    factors_push (mkFactor "Smoking Status" impact_negative
      [Text "Current smoking increases diabetes risk and complications"]) ;;
    recommendations_push "Consider smoking cessation programs - quitting reduces diabetes risk within years"
  else if smokingStatus data === "Former Smoker" then
    score_add 3 ;;
    factors_push (mkFactor "Smoking Status" impact_neutral
      [Text "Former smoking status has reduced impact on current diabetes risk"])
  else
    factors_push (mkFactor "Smoking Status" impact_positive
      [Text "Non-smoking status reduces diabetes and cardiovascular risks"]).

(** Alcohol Intake *)
Definition alcoholFactor (data : HealthData) : stmt :=
  if alcoholIntake data === "Yes" then
    score_add 8 ;;
    factors_push (mkFactor "Alcohol Consumption" impact_negative
      [Text "Regular alcohol consumption can affect blood sugar control"]) ;;
    recommendations_push "Consider reducing alcohol intake to moderate levels or eliminating entirely"
  else if alcoholIntake data === "Occasional" then
    score_add 2 ;;
    factors_push (mkFactor "Alcohol Consumption" impact_neutral
      [Text "Occasional alcohol consumption has minimal impact on diabetes risk"])
  else
    factors_push (mkFactor "Alcohol Consumption" impact_positive
      [Text "No alcohol consumption reduces diabetes risk factors"]).

(** Stress Level *)
Definition stressFactor (data : HealthData) : stmt :=
  if stressLevel data === "High" then
    score_add 10 ;;
    factors_push (mkFactor "Stress Level" impact_negative
      [Text "High chronic stress can affect blood sugar regulation"]) ;;
    recommendations_push "Practice stress management techniques like meditation, yoga, or deep breathing" ;;
    recommendations_push "Consider counseling or therapy if stress feels overwhelming"
  else if stressLevel data === "Medium" then
    score_add 4 ;;
    factors_push (mkFactor "Stress Level" impact_neutral
      [Text "Medium stress levels have moderate impact on diabetes risk"]) ;;
    recommendations_push "Implement regular stress-reduction activities in your routine"
  else
    factors_push (mkFactor "Stress Level" impact_positive
      [Text "Low stress levels support healthy blood sugar regulation"]).

(** Hypertension *)
Definition hypertensionFactor (data : HealthData) : stmt :=
  if hypertension data === "Yes" then
    score_add 15 ;;
    factors_push (mkFactor "Hypertension" impact_negative
      [Text "High blood pressure significantly increases diabetes risk"]) ;;
    recommendations_push "Work closely with your healthcare provider to manage blood pressure" ;;
    recommendations_push "Follow a DASH diet (low sodium, high potassium) for blood pressure control"
  else
    factors_push (mkFactor "Blood Pressure" impact_positive
      [Text "Normal blood pressure reduces diabetes and cardiovascular risks"]).

(** Gender factor (slight adjustment) *)
Definition genderFactor (data : HealthData) : stmt :=
  if gender data === "Male" then score_add 2 else skip.

(** The ten factor blocks, in the order the function runs them. *)
Definition factorBlocks : list (HealthData -> stmt) :=
  [ageFactor; bmiFactor; familyHistoryFactor; physicalActivityFactor;
   dietFactor; smokingFactor; alcoholFactor; stressFactor;
   hypertensionFactor; genderFactor].

Definition scoreFactors (data : HealthData) : stmt :=
  ageFactor data ;; bmiFactor data ;; familyHistoryFactor data ;;
  physicalActivityFactor data ;; dietFactor data ;; smokingFactor data ;;
  alcoholFactor data ;; stressFactor data ;; hypertensionFactor data ;;
  genderFactor data.

(** General recommendations based on risk level. *)
Definition generalRecommendations : stmt := fun st =>
  if (riskScore st <=? 30)%Z then
    (recommendations_unshift "Maintain your current healthy lifestyle habits" ;;
     recommendations_push "Continue regular health check-ups every 2-3 years") st
  else if (riskScore st <=? 60)%Z then
    (recommendations_unshift "Schedule a consultation with your healthcare provider within 6 months" ;;
     recommendations_push "Consider annual diabetes screening") st
  else
    (recommendations_unshift "Schedule an urgent consultation with your healthcare provider" ;;
     recommendations_push "Request comprehensive diabetes screening including HbA1c and fasting glucose tests") st.

(** [Math.min(Math.round((riskScore / 120) * 100), 95)]: the quotient
    and the product are double operations, in this order. *)
Definition percentageOf (score : Z) : Z :=
  Math_min (Math_round (PrimFloat.mul (PrimFloat.div (of_Z score) 120%float) 100%float)) 95.

Definition levelOf (score : Z) : RiskLevel :=
  if (score <=? 30)%Z then Low
  else if (score <=? 60)%Z then Medium
  else High.

(** The value of the local [riskScore] once the ten factor blocks have
    run: the raw score. *)
Definition rawScore (data : HealthData) : Z :=
  riskScore (scoreFactors data init).

Definition calculateDiabetesRisk (data : HealthData) : RiskResult :=
  let st := (scoreFactors data ;; generalRecommendations) init in
  {| riskLevel := levelOf (riskScore st);
     riskPercentage := percentageOf (riskScore st);
     factors := l_factors st;
     recommendations := l_recommendations st |}.

End DiabetesPrediction.


(** ** The client-side dataset processor (class [DatasetProcessor]) *)

Module DatasetProcessor.

Record DiabetesData : Set := {
  Age : number;
  Gender : string;
  BMI : number;
  Family_History : string;
  Physical_Activity : string;
  Diet_Type : string;
  Smoking_Status : string;
  Alcohol_Intake : string;
  Stress_Level : string;
  Hypertension : string;
  Diabetes : string
}.

(** Feature encoding maps (matching CSV values and backend) *)
Definition genderMap : gmap string number := {[ "Male" := 1%float; "Female" := 0%float ]}.
Definition binaryMap : gmap string number := {[ "Yes" := 1%float; "No" := 0%float ]}.
Definition activityMap : gmap string number :=
  {[ "Low" := 0%float; "Moderate" := 1%float; "High" := 2%float ]}.
Definition dietMap : gmap string number :=
  {[ "Non-Vegetarian" := 0%float; "Vegetarian" := 1%float; "Vegan" := 2%float ]}.
Definition smokingMap : gmap string number :=
  {[ "Current" := 2%float; "Former" := 1%float; "Never" := 0%float ]}.
Definition alcoholMap : gmap string number :=
  {[ "High" := 2%float; "Moderate" := 1%float; "None" := 0%float ]}.
Definition stressMap : gmap string number :=
  {[ "High" := 2%float; "Medium" := 1%float; "Low" := 0%float ]}.

(** [map[key] ?? 0] *)
Definition code (m : gmap string number) (key : string) : entry :=
  nullishZero (read m key).

(** The [feature] array [processData] builds for one row. *)
Definition feature (row : DiabetesData) : list entry :=
  [ num (Age row);
    code genderMap (Gender row);
    num (BMI row);
    code binaryMap (Family_History row);
    code activityMap (Physical_Activity row);
    code dietMap (Diet_Type row);
    code smokingMap (Smoking_Status row);
    code alcoholMap (Alcohol_Intake row);
    code stressMap (Stress_Level row);
    code binaryMap (Hypertension row) ].

Definition label (row : DiabetesData) : entry :=
  code binaryMap (Diabetes row).

(** The rest of the class: [processData], [trainModel], [sigmoid],
    [predict]. *)

Record Model : Set := { weights : list number; bias : number }.

Record Stat : Set := { mean : number; std : number }.

Record Statistics : Set := {
  totalSamples : Z;
  diabetesRate : number;
  ageStats : Stat;
  bmiStats : Stat
}.

Record ProcessedData : Set := {
  features : list (list entry);
  labels : list entry;
  featureNames : list string;
  statistics : Statistics
}.

Definition lengthOf {A} (xs : list A) : number := of_Z (Z.of_nat (length xs)).

(** [xs.reduce((s, a) => s + a, 0)] *)
Definition total (xs : list number) : number :=
  fold_left PrimFloat.add xs 0%float.

(** [labels.reduce((sum, label) => sum + label, 0)]: [+] adds numbers,
    and with an operand that is not a number it concatenates texts; from
    the first label that is not a number on, the sum is a text with the
    text of that label in it ([None]). *)
Definition plus (sum : option number) (label : entry) : option number :=
  match sum, label with
  | Some x, num y => Some (PrimFloat.add x y)
  | _, _ => None
  end.
Definition labelSum (labels : list entry) : option number :=
  fold_left plus labels (Some 0%float).

(** [diabetesCount / labels.length]: a text with the source of a
    function (or "[object Object]") in it is no numeral, and [/] reads
    it as [NaN]. *)
Definition rateOf (diabetesCount : option number) (n : number) : number :=
  PrimFloat.div (default PrimFloat.nan diabetesCount) n.

(** [features[i].reduce((sum, feature, idx) => sum + feature * weights[idx], 0)],
    from the index [idx] and the partial sum [sum] on. *)
Fixpoint weightedSum (idx : nat) (sum : number) (features weights : list number)
  : number :=
  match features with
  | [] => sum
  | feature :: rest =>
      weightedSum (S idx)
        (PrimFloat.add sum (PrimFloat.mul feature (at_index weights idx)))
        rest weights
  end.

Section WithMath.

(** [Math.pow] and [Math.exp], which ECMAScript lets an engine
    approximate. *)
Variable Math_pow : number -> number -> number.
Variable Math_exp : number -> number.

(** [{ mean: ..., std: Math.sqrt(xs.reduce((sum, x) =>
      sum + Math.pow(x - xs.reduce(...) / xs.length, 2), 0) / xs.length) }] *)
Definition statOf (xs : list number) : Stat :=
  {| mean := PrimFloat.div (total xs) (lengthOf xs);
     std :=
       PrimFloat.sqrt
         (PrimFloat.div
            (fold_left
               (fun sum x =>
                  PrimFloat.add sum
                    (Math_pow
                       (PrimFloat.sub x (PrimFloat.div (total xs) (lengthOf xs)))
                       2%float))
               xs 0%float)
            (lengthOf xs)) |}.

(** One turn of the loop over the rows: [features.push(feature);
    labels.push(label)]. *)
Definition processRow (acc : list (list entry) * list entry)
    (row : DiabetesData) : list (list entry) * list entry :=
  (acc.1 ++ [feature row], acc.2 ++ [label row]).

(** [processData]; [None] is the thrown [Error('No data loaded')]. *)
Definition processData (data : list DiabetesData) : option ProcessedData :=
  if (Z.of_nat (length data) =? 0)%Z then None
  else
    let fl := fold_left processRow data ([], []) in
    let ages := map Age data in
    let bmis := map BMI data in
    let diabetesCount := labelSum fl.2 in
    Some
      {| features := fl.1;
         labels := fl.2;
         featureNames :=
           ["Age"; "Gender"; "BMI"; "Family_History"; "Physical_Activity";
            "Diet_Type"; "Smoking_Status"; "Alcohol_Intake"; "Stress_Level";
            "Hypertension"];
         statistics :=
           {| totalSamples := Z.of_nat (length data);
              diabetesRate := rateOf diabetesCount (lengthOf fl.2);
              ageStats := statOf ages;
              bmiStats := statOf bmis |} |}.

(** [1 / (1 + Math.exp(-x))] *)
Definition sigmoid (x : number) : number :=
  PrimFloat.div 1%float (PrimFloat.add 1%float (Math_exp (PrimFloat.opp x))).

Definition predict (features : list number) (model : Model) : number :=
  sigmoid
    (PrimFloat.add (weightedSum 0 0%float features (weights model)) (bias model)).

(** The locals of one iteration of [trainModel]. *)
Record Gradient : Set := {
  totalError : number;
  gradientWeights : list number;
  gradientBias : number
}.

(** The body of the loop over the samples, for the sample [i]. *)
Definition sampleStep (numFeatures : nat) (features : list (list number))
    (labels : list number) (model : Model) (g : Gradient) (i : nat)
  : Gradient :=
  let row := nth i features [] in
  let prediction :=
    sigmoid
      (PrimFloat.add (weightedSum 0 0%float row (weights model)) (bias model)) in
  let error := PrimFloat.sub prediction (at_index labels i) in
  {| totalError := PrimFloat.add (totalError g) (PrimFloat.mul error error);
     gradientWeights :=
       map (fun j =>
              PrimFloat.add (at_index (gradientWeights g) j)
                (PrimFloat.mul error (at_index row j)))
         (seq 0 numFeatures);
     gradientBias := PrimFloat.add (gradientBias g) error |}.

(** One iteration: the gradients over all samples, then the update of
    the weights and of the bias. *)
Definition iteration (numFeatures : nat) (features : list (list number))
    (labels : list number) (learningRate : number) (model : Model) : Model :=
  let g :=
    fold_left (sampleStep numFeatures features labels model)
      (seq 0 (length features))
      {| totalError := 0%float;
         gradientWeights := replicate numFeatures 0%float;
         gradientBias := 0%float |} in
  {| weights :=
       map (fun j =>
              PrimFloat.sub (at_index (weights model) j)
                (PrimFloat.div
                   (PrimFloat.mul learningRate (at_index (gradientWeights g) j))
                   (lengthOf features)))
         (seq 0 numFeatures);
     bias :=
       PrimFloat.sub (bias model)
         (PrimFloat.div (PrimFloat.mul learningRate (gradientBias g))
            (lengthOf features)) |}.

(** [trainModel(features, labels, learningRate, iterations)], with
    [iterations] the number of turns of the outer loop; [None] is the
    TypeError of [features[0].length] on an empty array. *)
Definition trainModel (features : list (list number)) (labels : list number)
    (learningRate : number) (iterations : nat) : option Model :=
  match features with
  | [] => None
  | first :: _ =>
      let numFeatures := length first in
      Some
        (Nat.iter iterations (iteration numFeatures features labels learningRate)
           {| weights := replicate numFeatures 0%float; bias := 0%float |})
  end.

End WithMath.

End DatasetProcessor.

(** ** The orchestrator (src/utils/modelPrediction.ts) *)

Module ModelPrediction.

Module DP := DiabetesPrediction.

(** What [response.json()] can produce. *)
#[warnings="-register-all"]
Inductive json : Set :=
| JNull
| JBool (b : bool)
| JNumber (x : number)
| JString (s : string)
| JArray (items : list json)
| JObject (members : list (string * json)).

(** A JavaScript value read from the body: [None] is [undefined]. *)
Definition value : Set := option json.

(** The member of an object literal under [key]; [JSON.parse] keeps the
    last of several members with the same key. *)
Fixpoint member (members : list (string * json)) (key : string) : value :=
  match members with
  | [] => None
  | (k, v) :: rest =>
      match member rest key with
      | Some w => Some w
      | None => if String.eqb k key then Some v else None
      end
  end.

(** [result.key] for the two keys the orchestrator reads.  On [null] the
    access throws a TypeError ([None]); booleans, numbers, strings and
    arrays have no such property and give [undefined]. *)
Definition prop (result : json) (key : string) : option value :=
  match result with
  | JNull => None
  | JObject members => Some (member members key)
  | _ => Some None
  end.

(** [v === 'literal'] *)
Definition is_string (v : value) (s : string) : bool :=
  match v with
  | Some (JString t) => String.eqb t s
  | _ => false
  end.

Inductive ModelUsed : Set := trained | rule_based.

Record RiskResult : Set := {
  riskLevel : value;
  riskPercentage : value;
  factors : list RiskFactor;
  recommendations : list string;
  modelUsed : ModelUsed
}.

Local Open Scope js_scope.

Definition generateFactors (data : HealthData) : list RiskFactor :=
  let factors : list RiskFactor := [] in
  (* Age factor *)
  let factors :=
    if age data >=? 45%float then
      factors ++ [DP.mkFactor "Age Factor" impact_negative
        [Text "Age "; Interp (age data);
         Text " increases diabetes risk significantly after 45"]]
    else if age data >=? 35%float then
      factors ++ [DP.mkFactor "Age Factor" impact_negative
        [Text "Age "; Interp (age data); Text " shows moderate increased risk"]]
    else
      factors ++ [DP.mkFactor "Age Factor" impact_positive
        [Text "Age "; Interp (age data);
         Text " is associated with lower diabetes risk"]] in
  (* BMI factor *)
  let factors :=
    if bmi data >=? 30%float then
      factors ++ [DP.mkFactor "BMI (Obesity)" impact_negative
        [Text "BMI of "; Interp (bmi data);
         Text " indicates obesity, a major diabetes risk factor"]]
    else if bmi data >=? 25%float then
      factors ++ [DP.mkFactor "BMI (Overweight)" impact_negative
        [Text "BMI of "; Interp (bmi data);
         Text " indicates overweight status, increasing diabetes risk"]]
    else if bmi data >=? 18.5%float then
      factors ++ [DP.mkFactor "BMI (Healthy)" impact_positive
        [Text "BMI of "; Interp (bmi data);
         Text " is in the healthy range, reducing diabetes risk"]]
    else factors in
  (* Add other factors based on user input *)
  let factors :=
    if familyHistory data === "Yes" then
      factors ++ [DP.mkFactor "Family History" impact_negative
        [Text "Family history of diabetes significantly increases your risk"]]
    else factors in
  let factors :=
    if physicalActivity data === "Low" then
      factors ++ [DP.mkFactor "Physical Activity" impact_negative
        [Text "Low physical activity increases diabetes risk"]]
    else if physicalActivity data === "High" then
      factors ++ [DP.mkFactor "Physical Activity" impact_positive
        [Text "High physical activity significantly reduces diabetes risk"]]
    else factors in
  let factors :=
    if hypertension data === "Yes" then
      factors ++ [DP.mkFactor "Hypertension" impact_negative
        [Text "High blood pressure significantly increases diabetes risk"]]
    else factors in
  factors.

Definition generateRecommendations (data : HealthData) (riskLevel : value)
  : list string :=
  let recommendations : list string := [] in
  (* General recommendations based on risk level *)
  let recommendations :=
    if is_string riskLevel "Low" then
      recommendations
        ++ ["Maintain your current healthy lifestyle habits"]
        ++ ["Continue regular health check-ups every 2-3 years"]
    else if is_string riskLevel "Medium" then
      recommendations
        ++ ["Schedule a consultation with your healthcare provider within 6 months"]
        ++ ["Consider annual diabetes screening"]
    else
      recommendations
        ++ ["Schedule an urgent consultation with your healthcare provider"]
        ++ ["Request comprehensive diabetes screening including HbA1c and fasting glucose tests"] in
  (* Specific recommendations based on risk factors *)
  let recommendations :=
    if bmi data >=? 25%float then
      recommendations ++ ["Work with a healthcare provider to develop a sustainable weight management plan"]
    else recommendations in
  let recommendations :=
    if physicalActivity data === "Low" then
      recommendations ++ ["Aim for at least 150 minutes of moderate-intensity exercise per week"]
    else recommendations in
  let recommendations :=
    if dietType data === "Unhealthy" then
      recommendations ++ ["Focus on whole foods: vegetables, lean proteins, whole grains, and healthy fats"]
    else recommendations in
  let recommendations :=
    if smokingStatus data === "Smoker" then
      recommendations ++ ["Consider smoking cessation programs - quitting reduces diabetes risk within years"]
    else recommendations in
  let recommendations :=
    if stressLevel data === "High" then
      recommendations ++ ["Practice stress management techniques like meditation, yoga, or deep breathing"]
    else recommendations in
  recommendations.

(** The string a [RiskLevel] is at run time. *)
Definition levelName (l : DP.RiskLevel) : string :=
  match l with
  | DP.Low => "Low"
  | DP.Medium => "Medium"
  | DP.High => "High"
  end.

(** [{ ...result, recommendations: [notice, ...result.recommendations],
      modelUsed: 'rule-based' }] *)
Definition useRuleBasedModel (data : HealthData) : RiskResult :=
  let result := DP.calculateDiabetesRisk data in
  {| riskLevel := Some (JString (levelName (DP.riskLevel result)));
     riskPercentage := Some (JNumber (of_Z (DP.riskPercentage result)));
     factors := DP.factors result;
     recommendations :=
       "Prediction made using rule-based algorithm" :: DP.recommendations result;
     modelUsed := rule_based |}.

(** How the awaited [response.json()] ends: with the parsed body, with a
    rejection (the body is not JSON, or the connection breaks), or not at
    all, when the body never completes: the 5000 ms timer is cleared as
    soon as [fetch] has resolved, before the body is read, and nothing
    else bounds that wait. *)
Inductive BodyRead : Set :=
| parsed (body : json)
| unparsable
| stalled.

(** What the awaited [fetch] does: it rejects (network failure, or the
    abort the 5000 ms timer triggers while no response has arrived), or
    it resolves with a response whose [ok] flag is given and whose
    [json()] ends as [body] tells. *)
Inductive Fetch : Set :=
| fetch_rejects
| fetch_resolves (ok : bool) (body : BodyRead).

(** The promise of an [async] function, once nothing more can happen:
    fulfilled with a value, or pending for ever. *)
Inductive Promise (A : Type) : Type :=
| fulfilled (a : A)
| pending.
Arguments fulfilled {A} a.
Arguments pending {A}.

(** What a reader of the promise sees of a part [f] of its value. *)
#[global] Instance Promise_fmap : FMap Promise :=
  fun A B f p =>
    match p with
    | fulfilled a => fulfilled (f a)
    | pending => pending
    end.

(** How the [try] block ends: an exception reaches [catch], the block
    returns a result, control leaves it normally because the response is
    not ok, or an [await] inside it never resumes. *)
Inductive Completion : Set :=
| throws
| returns (r : RiskResult)
| falls_through
| never_resumes.

(** The [return] statement of the [try] block on the parsed body;
    [None] is a TypeError of [result.riskLevel] or
    [result.riskPercentage]. *)
Definition accepted (data : HealthData) (result : json) : option RiskResult :=
  level ← prop result "riskLevel";
  percentage ← prop result "riskPercentage";
  let factors := generateFactors data in
  level' ← prop result "riskLevel";
  Some {| riskLevel := level;
          riskPercentage := percentage;
          factors := factors;
          recommendations := generateRecommendations data level';
          modelUsed := trained |}.

Definition tryBlock (data : HealthData) (remote : Fetch) : Completion :=
  match remote with
  | fetch_rejects => throws
  | fetch_resolves ok body =>
      if ok then
        match body with
        | parsed result =>
            match accepted data result with
            | Some r => returns r
            | None => throws
            end
        | unparsable => throws
        | stalled => never_resumes
        end
      else falls_through
  end.

(** [predictDiabetesRisk]: a result of the [try] block is returned; after
    [catch] (which only logs) or a response that is not ok, the function
    falls back to the rule-based model; while the [try] block waits, the
    function has not returned. *)
Definition predictDiabetesRisk (data : HealthData) (remote : Fetch)
  : Promise RiskResult :=
  match tryBlock data remote with
  | returns r => fulfilled r
  | never_resumes => pending
  | throws | falls_through => fulfilled (useRuleBasedModel data)
  end.

(** *** The feature encoding of [useTrainedModel] *)

Definition formToCsvMap_dietType : gmap string string :=
  {[ "Very Healthy" := "Vegan"; "Balanced" := "Vegetarian";
     "Unhealthy" := "Non-Vegetarian" ]}.
Definition formToCsvMap_smokingStatus : gmap string string :=
  {[ "Smoker" := "Current"; "Former Smoker" := "Former";
     "Non-Smoker" := "Never" ]}.
Definition formToCsvMap_alcoholIntake : gmap string string :=
  {[ "Yes" := "High"; "Occasional" := "Moderate"; "No" := "None" ]}.

(** [map[key] || key]: the table's strings are not empty, so a word of
    the table is kept; a key that is not in the table falls through,
    unless it names a property of [Object.prototype], which is found and
    is truthy. *)
Definition remap (m : gmap string string) (key : string) : remapped :=
  match m !! key with
  | Some csv => word csv
  | None => if isPrototypeKey key then notAWord key else word key
  end.

(** The three fields that [csvData] overrides; the others are those of
    [data] ([...data]). *)
Record CsvData : Set := {
  csv_dietType : remapped;
  csv_smokingStatus : remapped;
  csv_alcoholIntake : remapped
}.

Definition csvData (data : HealthData) : CsvData :=
  {| csv_dietType := remap formToCsvMap_dietType (dietType data);
     csv_smokingStatus := remap formToCsvMap_smokingStatus (smokingStatus data);
     csv_alcoholIntake := remap formToCsvMap_alcoholIntake (alcoholIntake data) |}.

Definition genderMap : gmap string number := {[ "Male" := 1%float; "Female" := 0%float ]}.
Definition binaryMap : gmap string number := {[ "Yes" := 1%float; "No" := 0%float ]}.
Definition activityMap : gmap string number :=
  {[ "Low" := 0%float; "Moderate" := 1%float; "High" := 2%float ]}.
Definition dietMap : gmap string number :=
  {[ "Non-Vegetarian" := 0%float; "Vegetarian" := 1%float; "Vegan" := 2%float ]}.
Definition smokingMap : gmap string number :=
  {[ "Current" := 2%float; "Former" := 1%float; "Never" := 0%float ]}.
Definition alcoholMap : gmap string number :=
  {[ "High" := 2%float; "Moderate" := 1%float; "None" := 0%float ]}.
Definition stressMap : gmap string number :=
  {[ "High" := 2%float; "Medium" := 1%float; "Low" := 0%float ]}.

(** [map[key] ?? 0] *)
Definition code (m : gmap string number) (key : string) : entry :=
  nullishZero (read m key).
Definition codeAt (m : gmap string number) (r : remapped) : entry :=
  nullishZero (readAt m r).

(** The [features] array of [useTrainedModel]. *)
Definition useTrainedModel_features (data : HealthData) : list entry :=
  let csvData := csvData data in
  [ num (age data);
    code genderMap (gender data);
    num (bmi data);
    code binaryMap (familyHistory data);
    code activityMap (physicalActivity data);
    codeAt dietMap (csv_dietType csvData);
    codeAt smokingMap (csv_smokingStatus csvData);
    codeAt alcoholMap (csv_alcoholIntake csvData);
    code stressMap (stressLevel data);
    code binaryMap (hypertension data) ].

(** *** [useTrainedModel] *)

Section WithMath.

Variable Math_exp : number -> number.

(** The text of [parseFloat(accuracy).toFixed(1)]. *)
Variable accuracyText : string -> string.

(** The tier of a probability. *)
#[warnings="-inexact-float"]
Definition levelOfProbability (riskProbability : number) : string :=
  if PrimFloat.ltb riskProbability 0.3%float then "Low"
  else if PrimFloat.ltb riskProbability 0.7%float then "Medium"
  else "High".

(** [useTrainedModel(data, model, accuracy)]; [accuracy] is a string or
    [null] ([None]), and the empty string is falsy as [null] is.
    [predict] reads each feature as an operand of [*], that is through
    ToNumber. *)
Definition useTrainedModel (data : HealthData) (model : DatasetProcessor.Model)
    (accuracy : option string) : RiskResult :=
  let features := useTrainedModel_features data in
  let riskProbability :=
    DatasetProcessor.predict Math_exp (map toNumber features) model in
  let riskPercentage :=
    Math_round_number (PrimFloat.mul riskProbability 100%float) in
  let riskLevel := levelOfProbability riskProbability in
  let factors := generateFactors data in
  let recommendations :=
    generateRecommendations data (Some (JString riskLevel)) in
  {| riskLevel := Some (JString riskLevel);
     riskPercentage := Some (JNumber riskPercentage);
     factors := factors;
     recommendations :=
       ("Prediction made using trained ML model ("
        +:+ match accuracy with
            | Some text =>
                if String.eqb text "" then "accuracy unknown"
                else accuracyText text +:+ "% accuracy"
            | None => "accuracy unknown"
            end
        +:+ ")")
       :: recommendations;
     modelUsed := trained |}.

End WithMath.

End ModelPrediction.

(** ** The serving script: code tables, [processData], [/api/predict] *)

Module Server.

(** A row of the CSV dataset as [processData] reads it.  The seven
    numeric cells are held as the double [parseFloat] returns on them
    ([NaN] when the cell is missing, empty or not numeric); the
    categorical cells are the cell text, [""] when the cell is empty or
    the column is missing (both are falsy). *)
Record Row : Set := {
  Age : number;
  BMI : number;
  Cholesterol_Level : number;
  Fasting_Blood_Sugar : number;
  HBA1C : number;
  Heart_Rate : number;
  Waist_Hip_Ratio : number;
  Gender : string;
  Family_History : string;
  Physical_Activity : string;
  Diet_Type : string;
  Smoking_Status : string;
  Alcohol_Intake : string;
  Stress_Level : string;
  Hypertension : string;
  Diabetes : string
}.

(** Feature encoding maps (matching CSV values) *)
Definition genderMap : gmap string number :=
  {[ "Male" := 1%float; "Female" := 0%float; "Other" := 0.5%float ]}.
Definition binaryMap : gmap string number := {[ "Yes" := 1%float; "No" := 0%float ]}.
Definition activityMap : gmap string number :=
  {[ "Low" := 0%float; "Medium" := 1%float; "High" := 2%float ]}.
Definition dietMap : gmap string number :=
  {[ "Non-Vegetarian" := 0%float; "Vegetarian" := 1%float; "Vegan" := 2%float ]}.
Definition smokingMap : gmap string number :=
  {[ "Never" := 0%float; "Current" := 2%float; "Former" := 1%float ]}.
Definition alcoholMap : gmap string number :=
  {[ "None" := 0%float; "Moderate" := 1%float; "High" := 2%float ]}.
Definition stressMap : gmap string number :=
  {[ "Low" := 0%float; "Medium" := 1%float; "High" := 2%float ]}.

(** [map[key] || 0]: a missing key gives [undefined], and both
    [undefined] and the code [0] are falsy.  The tables are object
    literals: a key that names a property every object inherits
    ("constructor", "toString", ...) finds that property, which is
    truthy. *)
Definition code (m : gmap string number) (key : string) : entry :=
  orZero (read m key).
Definition codeAt (m : gmap string number) (r : remapped) : entry :=
  orZero (readAt m r).

(** [!row.Field] *)
Definition missing (cell : string) : bool := String.eqb cell "".

Local Open Scope js_scope.

(** [isNaN(age) || isNaN(bmi) || age <= 0 || bmi <= 0] *)
Definition invalidAgeOrBmi (row : Row) : bool :=
  isNaN (Age row) || isNaN (BMI row)
  || (Age row <=? 0%float) || (BMI row <=? 0%float).

Definition missingField (row : Row) : bool :=
  missing (Gender row) || missing (Family_History row)
  || missing (Physical_Activity row) || missing (Diet_Type row)
  || missing (Smoking_Status row) || missing (Alcohol_Intake row)
  || missing (Stress_Level row) || missing (Hypertension row)
  || missing (Diabetes row).

(** The arrays the first pass fills. *)
Record Samples : Set := {
  ages : list number;
  bmis : list number;
  cholesterols : list number;
  fastingSugars : list number;
  hba1cs : list number;
  heartRates : list number;
  waistHipRatios : list number
}.

Definition noSamples : Samples :=
  {| ages := []; bmis := []; cholesterols := []; fastingSugars := [];
     hba1cs := []; heartRates := []; waistHipRatios := [] |}.

(** [if (!isNaN(x)) xs.push(x)] *)
Definition pushNumber (xs : list number) (x : number) : list number :=
  if negb (isNaN x) then xs ++ [x] else xs.

(** One iteration of the first loop; [continue] leaves the arrays as
    they are. *)
Definition firstPassRow (acc : Samples) (row : Row) : Samples :=
  if invalidAgeOrBmi row then acc
  else if missingField row then acc
  else
    {| ages := ages acc ++ [Age row];
       bmis := bmis acc ++ [BMI row];
       cholesterols := pushNumber (cholesterols acc) (Cholesterol_Level row);
       fastingSugars := pushNumber (fastingSugars acc) (Fasting_Blood_Sugar row);
       hba1cs := pushNumber (hba1cs acc) (HBA1C row);
       heartRates := pushNumber (heartRates acc) (Heart_Rate row);
       waistHipRatios := pushNumber (waistHipRatios acc) (Waist_Hip_Ratio row) |}.

Definition firstPass (dataset : list Row) : Samples :=
  fold_left firstPassRow dataset noSamples.

Record Stats : Set := {
  ageMean : number; ageStd : number;
  bmiMean : number; bmiStd : number;
  cholesterolMean : number; cholesterolStd : number;
  fastingSugarMean : number; fastingSugarStd : number;
  hba1cMean : number; hba1cStd : number;
  heartRateMean : number; heartRateStd : number;
  waistHipRatioMean : number; waistHipRatioStd : number
}.

Record Processed : Set := {
  features : list (list entry);
  labels : list entry;
  stats : Stats
}.

Definition lengthOf {A} (xs : list A) : number := of_Z (Z.of_nat (length xs)).

Section WithPow.

(** [Math.pow], which ECMAScript lets an engine approximate. *)
Variable Math_pow : number -> number -> number.

(** [xs.reduce((a, b) => a + b, 0) / xs.length] *)
Definition mean (xs : list number) : number :=
  PrimFloat.div (fold_left PrimFloat.add xs 0%float) (lengthOf xs).

(** [Math.sqrt(xs.reduce((sum, val) => sum + Math.pow(val - m, 2), 0) / xs.length)] *)
Definition std (xs : list number) (m : number) : number :=
  PrimFloat.sqrt
    (PrimFloat.div
       (fold_left
          (fun sum val => PrimFloat.add sum (Math_pow (PrimFloat.sub val m) 2%float))
          xs 0%float)
       (lengthOf xs)).

(** [xs.length > 0 ? mean : 0] and [xs.length > 0 ? std : 1] *)
Definition meanOr0 (xs : list number) : number :=
  if (0 <? Z.of_nat (length xs))%Z then mean xs else 0%float.
Definition stdOr1 (xs : list number) (m : number) : number :=
  if (0 <? Z.of_nat (length xs))%Z then std xs m else 1%float.

(** Calculate mean and std for normalization *)
Definition statsOf (s : Samples) : Stats :=
  let ageMean := mean (ages s) in
  let ageStd := std (ages s) ageMean in
  let bmiMean := mean (bmis s) in
  let bmiStd := std (bmis s) bmiMean in
  let cholesterolMean := meanOr0 (cholesterols s) in
  let cholesterolStd := stdOr1 (cholesterols s) cholesterolMean in
  let fastingSugarMean := meanOr0 (fastingSugars s) in
  let fastingSugarStd := stdOr1 (fastingSugars s) fastingSugarMean in
  let hba1cMean := meanOr0 (hba1cs s) in
  let hba1cStd := stdOr1 (hba1cs s) hba1cMean in
  let heartRateMean := meanOr0 (heartRates s) in
  let heartRateStd := stdOr1 (heartRates s) heartRateMean in
  let waistHipRatioMean := meanOr0 (waistHipRatios s) in
  let waistHipRatioStd := stdOr1 (waistHipRatios s) waistHipRatioMean in
  {| ageMean := ageMean; ageStd := ageStd;
     bmiMean := bmiMean; bmiStd := bmiStd;
     cholesterolMean := cholesterolMean; cholesterolStd := cholesterolStd;
     fastingSugarMean := fastingSugarMean; fastingSugarStd := fastingSugarStd;
     hba1cMean := hba1cMean; hba1cStd := hba1cStd;
     heartRateMean := heartRateMean; heartRateStd := heartRateStd;
     waistHipRatioMean := waistHipRatioMean;
     waistHipRatioStd := waistHipRatioStd |}.

(** [(x - mean) / std] *)
Definition normalize (x m sd : number) : number :=
  PrimFloat.div (PrimFloat.sub x m) sd.

(** [!isNaN(x) ? (x - mean) / std : 0] *)
Definition normalizeOr0 (x m sd : number) : number :=
  if negb (isNaN x) then normalize x m sd else 0%float.

(** The [feature] array of the second loop. *)
Definition feature (st : Stats) (row : Row) : list entry :=
  [ num (normalize (Age row) (ageMean st) (ageStd st));
    code genderMap (Gender row);
    num (normalize (BMI row) (bmiMean st) (bmiStd st));
    code binaryMap (Family_History row);
    code activityMap (Physical_Activity row);
    code dietMap (Diet_Type row);
    code smokingMap (Smoking_Status row);
    code alcoholMap (Alcohol_Intake row);
    code stressMap (Stress_Level row);
    code binaryMap (Hypertension row);
    num (normalizeOr0 (Cholesterol_Level row) (cholesterolMean st)
           (cholesterolStd st));
    num (normalizeOr0 (Fasting_Blood_Sugar row) (fastingSugarMean st)
           (fastingSugarStd st));
    num (normalizeOr0 (HBA1C row) (hba1cMean st) (hba1cStd st));
    num (normalizeOr0 (Heart_Rate row) (heartRateMean st) (heartRateStd st));
    num (normalizeOr0 (Waist_Hip_Ratio row) (waistHipRatioMean st)
           (waistHipRatioStd st)) ].

Definition label (row : Row) : entry := code binaryMap (Diabetes row).

(** One iteration of the second loop, on the pair ([features],
    [labels]). *)
Definition secondPassRow (st : Stats)
    (acc : list (list entry) * list entry) (row : Row)
  : list (list entry) * list entry :=
  if invalidAgeOrBmi row then acc
  else if missingField row then acc
  else (acc.1 ++ [feature st row], acc.2 ++ [label row]).

Definition secondPass (st : Stats) (dataset : list Row)
  : list (list entry) * list entry :=
  fold_left (secondPassRow st) dataset ([], []).

(** [processData]: its return value and the lines it writes with
    [console.log]. *)
Definition processData (dataset : list Row) : Processed * list template :=
  let st := statsOf (firstPass dataset) in
  let fl := secondPass st dataset in
  ({| features := fl.1; labels := fl.2; stats := st |},
   [ [Text "Processed "; Interp (lengthOf fl.1);
      Text " valid records out of "; Interp (lengthOf dataset)];
     [Text "Age mean: "; Fixed 2 (ageMean st); Text ", std: "; Fixed 2 (ageStd st)];
     [Text "BMI mean: "; Fixed 2 (bmiMean st); Text ", std: "; Fixed 2 (bmiStd st)] ]).

End WithPow.

(** *** The encoding of [/api/predict] *)

Definition formToCsvMap_dietType : gmap string string :=
  {[ "Very Healthy" := "Vegan"; "Balanced" := "Vegetarian";
     "Unhealthy" := "Non-Vegetarian" ]}.
Definition formToCsvMap_smokingStatus : gmap string string :=
  {[ "Smoker" := "Current"; "Former Smoker" := "Former";
     "Non-Smoker" := "Never" ]}.
Definition formToCsvMap_alcoholIntake : gmap string string :=
  {[ "Yes" := "High"; "Occasional" := "Moderate"; "No" := "None" ]}.

(** [map[key] || key]: a word of the table, or the key itself; a key
    that names a property of [Object.prototype] finds that property,
    which is truthy. *)
Definition remap (m : gmap string string) (key : string) : remapped :=
  match m !! key with
  | Some csv => word csv
  | None => if isPrototypeKey key then notAWord key else word key
  end.

(** The [features] array the handler builds from the request body and
    the statistics of training. *)
Definition predictFeatures (normalizationStats : Stats) (userData : HealthData)
  : list entry :=
  let dietType := remap formToCsvMap_dietType (dietType userData) in
  let smokingStatus := remap formToCsvMap_smokingStatus (smokingStatus userData) in
  let alcoholIntake := remap formToCsvMap_alcoholIntake (alcoholIntake userData) in
  [ num (normalize (age userData) (ageMean normalizationStats)
           (ageStd normalizationStats));
    code genderMap (gender userData);
    num (normalize (bmi userData) (bmiMean normalizationStats)
           (bmiStd normalizationStats));
    code binaryMap (familyHistory userData);
    code activityMap (physicalActivity userData);
    codeAt dietMap dietType;
    codeAt smokingMap smokingStatus;
    codeAt alcoholMap alcoholIntake;
    code stressMap (stressLevel userData);
    code binaryMap (hypertension userData);
    num 0%float; num 0%float; num 0%float; num 0%float; num 0%float ].

(** *** The classifier: [trainLogisticRegression], [sigmoid], [predict]

    The three functions use the features and the labels only as operands
    of [*] and [-], which apply ToNumber: they are written on the numbers
    these operators see, and their callers pass [map toNumber]. *)

Record Model : Set := { weights : list number; bias : number }.

(** [features.reduce((sum, feature, idx) => sum + feature * weights[idx], 0)],
    from the index [idx] and the partial sum [sum] on. *)
Fixpoint weightedSum (idx : nat) (sum : number) (features weights : list number)
  : number :=
  match features with
  | [] => sum
  | feature :: rest =>
      weightedSum (S idx)
        (PrimFloat.add sum (PrimFloat.mul feature (at_index weights idx)))
        rest weights
  end.

(** The locals of one iteration of [trainLogisticRegression]. *)
Record Gradient : Set := {
  totalError : number;
  gradientWeights : list number;
  gradientBias : number
}.

(** The state of the process: the four variables at the top of the
    script. *)
Record State : Set := {
  dataset : list Row;
  trainedModel : option Model;
  modelAccuracy : option number;
  normalizationStats : option Stats
}.

Definition initialState : State :=
  {| dataset := []; trainedModel := None; modelAccuracy := None;
     normalizationStats := None |}.

(** How [loadDataset] ends.  Its listener for ['error'] is attached to
    the csv parser (what [pipe] returns), not to the stream that reads
    the file: an error of the parser rejects the promise; an error of the
    read stream (a missing or unreadable file) has no listener, and Node
    ends the process on it. *)
Inductive Load : Set :=
| load_resolves (rows : list Row)
| load_rejects
| read_error.

(** What a handler sends: [res.json(...)] or [res.status(500).json(...)]. *)
Inductive Body : Set :=
| Prediction (riskLevel : string) (riskPercentage : number)
    (modelUsed : string) (accuracy : option number)
| Failure (error : string).

Record Response : Set := { status : Z; body : Body }.

Section WithMath.

Variable Math_pow : number -> number -> number.
Variable Math_exp : number -> number.

(** [1 / (1 + Math.exp(-x))] *)
Definition sigmoid (x : number) : number :=
  PrimFloat.div 1%float (PrimFloat.add 1%float (Math_exp (PrimFloat.opp x))).

Definition predict (features : list number) (model : Model) : number :=
  let logits :=
    PrimFloat.add (weightedSum 0 0%float features (weights model)) (bias model) in
  sigmoid logits.

(** The body of the loop over the samples, for the sample [i]. *)
Definition sampleStep (numFeatures : nat) (features : list (list number))
    (labels : list number) (model : Model) (g : Gradient) (i : nat)
  : Gradient :=
  let row := nth i features [] in
  let z :=
    PrimFloat.add (weightedSum 0 0%float row (weights model)) (bias model) in
  let prediction := sigmoid z in
  let error := PrimFloat.sub prediction (at_index labels i) in
  {| totalError := PrimFloat.add (totalError g) (PrimFloat.mul error error);
     gradientWeights :=
       map (fun j =>
              PrimFloat.add (at_index (gradientWeights g) j)
                (PrimFloat.mul error (at_index row j)))
         (seq 0 numFeatures);
     gradientBias := PrimFloat.add (gradientBias g) error |}.

(** One iteration: the gradients over all samples, then the update of
    the weights and of the bias. *)
Definition iteration (numFeatures : nat) (features : list (list number))
    (labels : list number) (learningRate : number) (model : Model) : Model :=
  let g :=
    fold_left (sampleStep numFeatures features labels model)
      (seq 0 (length features))
      {| totalError := 0%float;
         gradientWeights := replicate numFeatures 0%float;
         gradientBias := 0%float |} in
  {| weights :=
       map (fun j =>
              PrimFloat.sub (at_index (weights model) j)
                (PrimFloat.div
                   (PrimFloat.mul learningRate (at_index (gradientWeights g) j))
                   (lengthOf features)))
         (seq 0 numFeatures);
     bias :=
       PrimFloat.sub (bias model)
         (PrimFloat.div (PrimFloat.mul learningRate (gradientBias g))
            (lengthOf features)) |}.

(** [trainLogisticRegression(features, labels, learningRate, iterations)],
    with [iterations] the number of turns of the outer loop; [None] is the
    TypeError of [features[0].length] on an empty array. *)
Definition trainLogisticRegression (features : list (list number))
    (labels : list number) (learningRate : number) (iterations : nat)
  : option Model :=
  match features with
  | [] => None
  | first :: _ =>
      let numFeatures := length first in
      Some
        (Nat.iter iterations (iteration numFeatures features labels learningRate)
           {| weights := replicate numFeatures 0%float; bias := 0%float |})
  end.

(** [predictedLabel === testLabels[i]]: a number is strictly equal to
    an equal number only. *)
Definition strictlyEqual (x : number) (v : option entry) : bool :=
  match v with
  | Some (num y) => PrimFloat.eqb x y
  | _ => false
  end.

(** The loop that counts the correct predictions on the test set. *)
Definition countCorrect (model : Model) (testFeatures : list (list entry))
    (testLabels : list entry) : Z :=
  fold_left
    (fun correct i =>
       let prediction :=
         predict (map toNumber (nth i testFeatures [])) model in
       let predictedLabel :=
         if PrimFloat.ltb 0.5%float prediction then 1%float else 0%float in
       if strictlyEqual predictedLabel (testLabels !! i)
       then (correct + 1)%Z else correct)
    (seq 0 (length testFeatures)) 0%Z.

(** [trainModel], run at start-up, on how [loadDataset] ended; [None]:
    the process has ended.  An exception inside the [try] is logged and
    leaves the variables assigned so far. *)
#[warnings="-inexact-float"]
Definition trainModel (loaded : Load) (s : State) : option State :=
  match loaded with
  | read_error => None
  | load_rejects => Some s
  | load_resolves rows =>
      let p := (processData Math_pow rows).1 in
      let splitIndex :=
        Z.to_nat (Math_floor (PrimFloat.mul (lengthOf (features p)) 0.8%float)) in
      let trainFeatures := take splitIndex (features p) in
      let trainLabels := take splitIndex (labels p) in
      let testFeatures := drop splitIndex (features p) in
      let testLabels := drop splitIndex (labels p) in
      match trainLogisticRegression (map (map toNumber) trainFeatures)
              (map toNumber trainLabels) 0.01%float 2000 with
      | None =>
          Some
            {| dataset := rows; trainedModel := trainedModel s;
               modelAccuracy := modelAccuracy s;
               normalizationStats := Some (stats p) |}
      | Some model =>
          let correct := countCorrect model testFeatures testLabels in
          Some
            {| dataset := rows; trainedModel := Some model;
               modelAccuracy :=
                 Some (PrimFloat.mul
                         (PrimFloat.div (of_Z correct) (lengthOf testFeatures))
                         100%float);
               normalizationStats := Some (stats p) |}
      end
  end.

(** The tier of a probability. *)
#[warnings="-inexact-float"]
Definition levelOfProbability (riskProbability : number) : string :=
  if PrimFloat.ltb riskProbability 0.3%float then "Low"
  else if PrimFloat.ltb riskProbability 0.7%float then "Medium"
  else "High".

(** The handler of [POST /api/predict] on a request body that is a
    profile.  Reading [normalizationStats.ageMean] while the variable is
    [null] throws, and the [catch] answers 500. *)
Definition predictHandler (s : State) (userData : HealthData) : Response :=
  match normalizationStats s with
  | None => {| status := 500; body := Failure "Prediction failed" |}
  | Some st =>
      let features := predictFeatures st userData in
      match trainedModel s with
      | None => {| status := 500; body := Failure "Model not trained yet" |}
      | Some model =>
          let riskProbability := predict (map toNumber features) model in
          let riskPercentage :=
            Math_round_number (PrimFloat.mul riskProbability 100%float) in
          let riskLevel := levelOfProbability riskProbability in
          {| status := 200;
             body := Prediction riskLevel riskPercentage "trained"
                       (modelAccuracy s) |}
      end
  end.

End WithMath.

End Server.

(** ** The wire between the serving script and the orchestrator

    How a response of the handler reaches [fetch]: [response.ok] is
    true for the statuses 200..299, and the body is the JSON text of the
    object sent.  [JSON.stringify] writes [NaN] and the infinities as
    [null] and both zeros as [0]; every other double is read back as it
    was written. *)

Module Wire.

Import ModelPrediction.

Definition jsonOfNumber (x : number) : json :=
  match Prim2SF x with
  | S754_zero _ => JNumber 0%float
  | S754_finite _ _ _ => JNumber x
  | _ => JNull
  end.

Definition jsonOfBody (b : Server.Body) : json :=
  match b with
  | Server.Prediction riskLevel riskPercentage modelUsed accuracy =>
      JObject
        [("riskLevel", JString riskLevel);
         ("riskPercentage", jsonOfNumber riskPercentage);
         ("modelUsed", JString modelUsed);
         ("accuracy",
          match accuracy with
          | Some a => jsonOfNumber a
          | None => JNull
          end)]
  | Server.Failure error => JObject [("error", JString error)]
  end.

Definition delivered (r : Server.Response) : Fetch :=
  fetch_resolves
    ((200 <=? Server.status r) && (Server.status r <? 300))
    (parsed (jsonOfBody (Server.body r))).

(** What [fetch] gets from the serving script after its start-up: the
    answer of the handler, delivered, or a refused connection when the
    process has ended ([None]). *)
Definition answered (handler : Server.State -> HealthData -> Server.Response)
    (service : option Server.State) (data : HealthData) : Fetch :=
  match service with
  | Some s => delivered (handler s data)
  | None => fetch_rejects
  end.

End Wire.

(** ** Profiles and responses used in the examples *)

Module Examples.

(** The profile of the spec's worked example: every factor at its
    riskiest value. *)
Definition maxed : HealthData :=
  {| age := 50%float; gender := "Male"; height := 170%float;
     weight := 92.5%float; bmi := 32%float;
     familyHistory := "Yes"; physicalActivity := "Low";
     dietType := "Unhealthy"; smokingStatus := "Smoker";
     alcoholIntake := "Yes"; stressLevel := "High"; hypertension := "Yes" |}.

(** No factor raises the score. *)
Definition healthy : HealthData :=
  {| age := 28%float; gender := "Female"; height := 165%float;
     weight := 60%float; bmi := 22%float;
     familyHistory := "No"; physicalActivity := "High";
     dietType := "Very Healthy"; smokingStatus := "Non-Smoker";
     alcoholIntake := "No"; stressLevel := "Low"; hypertension := "No" |}.

Definition withAge (x : number) (d : HealthData) : HealthData :=
  {| age := x; gender := gender d; height := height d; weight := weight d;
     bmi := bmi d; familyHistory := familyHistory d;
     physicalActivity := physicalActivity d; dietType := dietType d;
     smokingStatus := smokingStatus d; alcoholIntake := alcoholIntake d;
     stressLevel := stressLevel d; hypertension := hypertension d |}.

Definition withBmi (x : number) (d : HealthData) : HealthData :=
  {| age := age d; gender := gender d; height := height d; weight := weight d;
     bmi := x; familyHistory := familyHistory d;
     physicalActivity := physicalActivity d; dietType := dietType d;
     smokingStatus := smokingStatus d; alcoholIntake := alcoholIntake d;
     stressLevel := stressLevel d; hypertension := hypertension d |}.

Definition withCategories (fam act alc str hyp : string) (d : HealthData)
  : HealthData :=
  {| age := age d; gender := gender d; height := height d; weight := weight d;
     bmi := bmi d; familyHistory := fam; physicalActivity := act;
     dietType := dietType d; smokingStatus := smokingStatus d;
     alcoholIntake := alcoholIntake d; stressLevel := str;
     hypertension := hyp |}.

(** Profiles whose raw scores are 30, 31, 60, 61 and 69. *)
Definition score30 : HealthData :=         (* 15 + 15 *)
  withCategories "No" "High" "No" "Low" "Yes" (withAge 50%float healthy).
Definition score31 : HealthData :=         (* 8 + 15 + 8 *)
  {| age := 40%float; gender := "Female"; height := 165%float;
     weight := 75%float; bmi := 27.5%float;
     familyHistory := "No"; physicalActivity := "High";
     dietType := "Very Healthy"; smokingStatus := "Non-Smoker";
     alcoholIntake := "Yes"; stressLevel := "Low"; hypertension := "No" |}.
Definition score60 : HealthData :=         (* 25 + 20 + 15 *)
  withCategories "Yes" "High" "No" "Low" "Yes" (withBmi 31%float healthy).
Definition score61 : HealthData :=         (* 8 + 25 + 20 + 8 *)
  {| age := 40%float; gender := "Female"; height := 165%float;
     weight := 86%float; bmi := 31.5%float;
     familyHistory := "Yes"; physicalActivity := "High";
     dietType := "Very Healthy"; smokingStatus := "Non-Smoker";
     alcoholIntake := "Yes"; stressLevel := "Low"; hypertension := "No" |}.
Definition score69 : HealthData :=         (* 15 + 25 + 20 + 5 + 4 *)
  withCategories "Yes" "Moderate" "No" "Medium" "No"
    (withAge 50%float (withBmi 31%float healthy)).

(** A male profile with a moderate activity. *)
Definition score71 : HealthData :=         (* 15 + 25 + 20 + 5 + 4 + 2 *)
  {| age := 50%float; gender := "Male"; height := 178%float;
     weight := 98%float; bmi := 31%float;
     familyHistory := "Yes"; physicalActivity := "Moderate";
     dietType := "Very Healthy"; smokingStatus := "Non-Smoker";
     alcoholIntake := "No"; stressLevel := "Medium"; hypertension := "No" |}.

(** A response body whose two fields are outside the ranges the result
    type promises. *)
Definition oddBody : ModelPrediction.json :=
  ModelPrediction.JObject
    [("riskLevel", ModelPrediction.JString "Extreme");
     ("riskPercentage", ModelPrediction.JNumber 250%float);
     ("modelUsed", ModelPrediction.JString "trained")].


End Examples.

(** * Properties *)

Import DiabetesPrediction Examples.

(** ** The rule engine: statements that only add *)

Section Additive.

(** [merge st d]: the locals [st] after the additions recorded in [d]. *)
Definition merge (st d : Locals) : Locals :=
  {| riskScore := riskScore st + riskScore d;
     l_factors := l_factors st ++ l_factors d;
     l_recommendations := l_recommendations st ++ l_recommendations d |}.

(** A statement is additive when running it from any locals adds what it
    adds from the initial ones. *)
Definition additive (c : stmt) : Prop := forall st, c st = merge st (c init).

Lemma merge_init_r st : merge st init = st.
Proof.
  destruct st; unfold merge; simpl.
  by rewrite Z.add_0_r, !app_nil_r.
Qed.

Lemma merge_init_l d : merge init d = d.
Proof. destruct d; unfold merge; simpl. done. Qed.

Lemma merge_assoc a b c : merge (merge a b) c = merge a (merge b c).
Proof.
  unfold merge; simpl. by rewrite Z.add_assoc, <- !app_assoc.
Qed.

Lemma additive_skip : additive skip.
Proof. intros st. unfold skip. by rewrite merge_init_r. Qed.

Lemma additive_score_add n : additive (score_add n).
Proof.
  intros st. unfold score_add, merge; simpl. by rewrite !app_nil_r.
Qed.

Lemma additive_factors_push f : additive (factors_push f).
Proof.
  intros st. unfold factors_push, merge; simpl.
  by rewrite Z.add_0_r, app_nil_r.
Qed.

Lemma additive_recommendations_push r : additive (recommendations_push r).
Proof.
  intros st. unfold recommendations_push, merge; simpl.
  by rewrite Z.add_0_r, app_nil_r.
Qed.

Lemma additive_seq c1 c2 : additive c1 -> additive c2 -> additive (seq c1 c2).
Proof.
  intros H1 H2 st. unfold seq.
  rewrite (H2 (c1 st)), (H1 st), merge_assoc.
  by rewrite <- (H2 (c1 init)).
Qed.

End Additive.

Create HintDb additive.
#[export] Hint Resolve additive_skip additive_score_add additive_factors_push
  additive_recommendations_push additive_seq : additive.

Ltac additive_block :=
  intros;
  repeat match goal with
         | |- additive (if ?b then _ else _) => destruct b
         end;
  auto 20 with additive.

Section Blocks.

Variable data : HealthData.

Lemma additive_ageFactor : additive (ageFactor data).
Proof. unfold ageFactor. additive_block. Qed.

Lemma additive_bmiFactor : additive (bmiFactor data).
Proof. unfold bmiFactor. additive_block. Qed.

Lemma additive_familyHistoryFactor : additive (familyHistoryFactor data).
Proof. unfold familyHistoryFactor. additive_block. Qed.

Lemma additive_physicalActivityFactor : additive (physicalActivityFactor data).
Proof. unfold physicalActivityFactor. additive_block. Qed.

Lemma additive_dietFactor : additive (dietFactor data).
Proof. unfold dietFactor. additive_block. Qed.

Lemma additive_smokingFactor : additive (smokingFactor data).
Proof. unfold smokingFactor. additive_block. Qed.

Lemma additive_alcoholFactor : additive (alcoholFactor data).
Proof. unfold alcoholFactor. additive_block. Qed.

Lemma additive_stressFactor : additive (stressFactor data).
Proof. unfold stressFactor. additive_block. Qed.

Lemma additive_hypertensionFactor : additive (hypertensionFactor data).
Proof. unfold hypertensionFactor. additive_block. Qed.

Lemma additive_genderFactor : additive (genderFactor data).
Proof. unfold genderFactor. additive_block. Qed.

(** Every block of the list is additive. *)
Lemma additive_factorBlocks : Forall (fun b => additive (b data)) factorBlocks.
Proof.
  unfold factorBlocks.
  repeat constructor;
    auto using additive_ageFactor, additive_bmiFactor,
      additive_familyHistoryFactor, additive_physicalActivityFactor,
      additive_dietFactor, additive_smokingFactor, additive_alcoholFactor,
      additive_stressFactor, additive_hypertensionFactor,
      additive_genderFactor.
Qed.

(** [scoreFactors] runs the blocks of [factorBlocks], each once, in
    order. *)
Lemma scoreFactors_blocks st :
  scoreFactors data st = fold_left (fun st b => b data st) factorBlocks st.
Proof. reflexivity. Qed.

(** What the blocks add, block by block. *)
Lemma fold_blocks_additive (bs : list (HealthData -> stmt)) st :
  Forall (fun b => additive (b data)) bs ->
  fold_left (fun st b => b data st) bs st
  = fold_left (fun st b => merge st (b data init)) bs st.
Proof.
  intros H. revert st.
  induction H as [|b bs Hb _ IH]; intros st; simpl; [done|].
  by rewrite (Hb st), IH.
Qed.

Lemma scoreFactors_merge st :
  scoreFactors data st
  = fold_left (fun st b => merge st (b data init)) factorBlocks st.
Proof.
  rewrite scoreFactors_blocks.
  apply fold_blocks_additive, additive_factorBlocks.
Qed.

(** The points a block adds. *)
Definition points (b : HealthData -> stmt) : Z := riskScore (b data init).

(** The records a block appends. *)
Definition records (b : HealthData -> stmt) : list RiskFactor :=
  l_factors (b data init).

Lemma rawScore_sum :
  rawScore data
  = points ageFactor + points bmiFactor + points familyHistoryFactor
    + points physicalActivityFactor + points dietFactor
    + points smokingFactor + points alcoholFactor + points stressFactor
    + points hypertensionFactor + points genderFactor.
Proof.
  unfold rawScore. rewrite scoreFactors_merge. unfold points. simpl. lia.
Qed.

Lemma factors_concat :
  l_factors (scoreFactors data init)
  = records ageFactor ++ records bmiFactor ++ records familyHistoryFactor
    ++ records physicalActivityFactor ++ records dietFactor
    ++ records smokingFactor ++ records alcoholFactor
    ++ records stressFactor ++ records hypertensionFactor
    ++ records genderFactor.
Proof.
  rewrite scoreFactors_merge. unfold records. simpl.
  by rewrite <- !app_assoc.
Qed.

(** The table of points. *)
Ltac by_cases def :=
  unfold points, def;
  repeat match goal with
         | |- context [if ?b then _ else _] => destruct b
         end;
  simpl; tauto.

Lemma points_ageFactor :
  points ageFactor = 15 \/ points ageFactor = 8 \/ points ageFactor = 0.
Proof. by_cases ageFactor. Qed.

Lemma points_bmiFactor :
  points bmiFactor = 25 \/ points bmiFactor = 15 \/ points bmiFactor = 0.
Proof. by_cases bmiFactor. Qed.

Lemma points_familyHistoryFactor :
  points familyHistoryFactor = 20 \/ points familyHistoryFactor = 0.
Proof. by_cases familyHistoryFactor. Qed.

Lemma points_physicalActivityFactor :
  points physicalActivityFactor = 15 \/ points physicalActivityFactor = 5
  \/ points physicalActivityFactor = 0.
Proof. by_cases physicalActivityFactor. Qed.

Lemma points_dietFactor :
  points dietFactor = 15 \/ points dietFactor = 3 \/ points dietFactor = 0.
Proof. by_cases dietFactor. Qed.

Lemma points_smokingFactor :
  points smokingFactor = 12 \/ points smokingFactor = 3
  \/ points smokingFactor = 0.
Proof. by_cases smokingFactor. Qed.

Lemma points_alcoholFactor :
  points alcoholFactor = 8 \/ points alcoholFactor = 2
  \/ points alcoholFactor = 0.
Proof. by_cases alcoholFactor. Qed.

Lemma points_stressFactor :
  points stressFactor = 10 \/ points stressFactor = 4
  \/ points stressFactor = 0.
Proof. by_cases stressFactor. Qed.

Lemma points_hypertensionFactor :
  points hypertensionFactor = 15 \/ points hypertensionFactor = 0.
Proof. by_cases hypertensionFactor. Qed.

Lemma points_genderFactor :
  points genderFactor = 2 \/ points genderFactor = 0.
Proof. by_cases genderFactor. Qed.

(** The raw score lies between 0 and 137. *)
Lemma rawScore_range : 0 <= rawScore data <= 137.
Proof.
  rewrite rawScore_sum.
  assert (0 <= points ageFactor <= 15)
    by (destruct points_ageFactor as [->|[->| ->]]; lia).
  assert (0 <= points bmiFactor <= 25)
    by (destruct points_bmiFactor as [->|[->| ->]]; lia).
  assert (0 <= points familyHistoryFactor <= 20)
    by (destruct points_familyHistoryFactor as [->| ->]; lia).
  assert (0 <= points physicalActivityFactor <= 15)
    by (destruct points_physicalActivityFactor as [->|[->| ->]]; lia).
  assert (0 <= points dietFactor <= 15)
    by (destruct points_dietFactor as [->|[->| ->]]; lia).
  assert (0 <= points smokingFactor <= 12)
    by (destruct points_smokingFactor as [->|[->| ->]]; lia).
  assert (0 <= points alcoholFactor <= 8)
    by (destruct points_alcoholFactor as [->|[->| ->]]; lia).
  assert (0 <= points stressFactor <= 10)
    by (destruct points_stressFactor as [->|[->| ->]]; lia).
  assert (0 <= points hypertensionFactor <= 15)
    by (destruct points_hypertensionFactor as [->| ->]; lia).
  assert (0 <= points genderFactor <= 2)
    by (destruct points_genderFactor as [->| ->]; lia).
  generalize dependent (points ageFactor).
  generalize dependent (points bmiFactor).
  generalize dependent (points familyHistoryFactor).
  generalize dependent (points physicalActivityFactor).
  generalize dependent (points dietFactor).
  generalize dependent (points smokingFactor).
  generalize dependent (points alcoholFactor).
  generalize dependent (points stressFactor).
  generalize dependent (points hypertensionFactor).
  generalize dependent (points genderFactor).
  intros; lia.
Qed.

(** The general recommendations leave the score and the factors alone. *)
Lemma generalRecommendations_score st :
  riskScore (generalRecommendations st) = riskScore st.
Proof.
  unfold generalRecommendations.
  destruct (riskScore st <=? 30); [done|].
  by destruct (riskScore st <=? 60).
Qed.

Lemma generalRecommendations_factors st :
  l_factors (generalRecommendations st) = l_factors st.
Proof.
  unfold generalRecommendations.
  destruct (riskScore st <=? 30); [done|].
  by destruct (riskScore st <=? 60).
Qed.

Lemma calculateDiabetesRisk_level :
  riskLevel (calculateDiabetesRisk data) = levelOf (rawScore data).
Proof.
  unfold calculateDiabetesRisk, rawScore, seq; simpl.
  by rewrite generalRecommendations_score.
Qed.

Lemma calculateDiabetesRisk_percentage :
  riskPercentage (calculateDiabetesRisk data) = percentageOf (rawScore data).
Proof.
  unfold calculateDiabetesRisk, rawScore, seq; simpl.
  by rewrite generalRecommendations_score.
Qed.

Lemma calculateDiabetesRisk_factors :
  factors (calculateDiabetesRisk data) = l_factors (scoreFactors data init).
Proof.
  unfold calculateDiabetesRisk, seq; simpl.
  by rewrite generalRecommendations_factors.
Qed.

End Blocks.

(** ** The rule engine: score, tier and percentage *)

(** Every factor at its riskiest value, as the claim lists them. *)
Definition maxed_out (data : HealthData) : Prop :=
  JS.ge (age data) 45%float = true /\ JS.ge (bmi data) 30%float = true
  /\ familyHistory data = "Yes" /\ physicalActivity data = "Low"
  /\ dietType data = "Unhealthy" /\ smokingStatus data = "Smoker"
  /\ alcoholIntake data = "Yes" /\ stressLevel data = "High"
  /\ hypertension data = "Yes" /\ gender data = "Male".

Lemma maxed_out_score data : maxed_out data -> rawScore data = 137.
Proof.
  destruct data as [a g h w b fh pa dt ss ai sl ht].
  unfold maxed_out; simpl.
  intros (Ha & Hb & -> & -> & -> & -> & -> & -> & -> & ->).
  unfold rawScore, scoreFactors, ageFactor, bmiFactor; simpl.
  rewrite Ha, Hb. reflexivity.
Qed.

(** C1, as stated, fails: the profile of the spec's own worked example has
    every factor maxed and its raw score is 137, not 120. *)
Lemma maxed_profile_score_not_120 :
  maxed_out maxed /\ rawScore maxed <> 120.
Proof.
  split.
  - unfold maxed_out. repeat split; reflexivity.
  - rewrite maxed_out_score; [lia|]. unfold maxed_out. repeat split; reflexivity.
Qed.

(** C1 (amended): for every profile with every risk-increasing factor
    maxed, the raw score is 137, which no profile exceeds (it is the
    maximum attainable score, above the divisor 120), and the result has
    riskPercentage 95 and tier High. *)
Theorem maxed_profile_result data :
  maxed_out data ->
  rawScore data = 137
  /\ (forall other, rawScore other <= 137)
  /\ riskPercentage (calculateDiabetesRisk data) = 95
  /\ riskLevel (calculateDiabetesRisk data) = High.
Proof.
  intros H. pose proof (maxed_out_score data H) as Hs.
  split; [exact Hs|]. split; [intros other; apply rawScore_range|].
  rewrite calculateDiabetesRisk_percentage, calculateDiabetesRisk_level, Hs.
  split; reflexivity.
Qed.

Lemma maxed_profile_result_witness :
  rawScore maxed = 137
  /\ (forall other, rawScore other <= 137)
  /\ riskPercentage (calculateDiabetesRisk maxed) = 95
  /\ riskLevel (calculateDiabetesRisk maxed) = High.
Proof.
  apply (maxed_profile_result maxed).
  unfold maxed_out. repeat split; reflexivity.
Defined.

Lemma levelOf_Low s : levelOf s = Low <-> s <= 30.
Proof.
  unfold levelOf.
  destruct (Z.leb_spec s 30); [tauto|].
  destruct (Z.leb_spec s 60); split; (discriminate || lia).
Qed.

Lemma levelOf_Medium s : levelOf s = Medium <-> 30 < s <= 60.
Proof.
  unfold levelOf.
  destruct (Z.leb_spec s 30); [split; (discriminate || lia)|].
  destruct (Z.leb_spec s 60); split; (discriminate || lia || tauto).
Qed.

Lemma levelOf_High s : levelOf s = High <-> 60 < s.
Proof.
  unfold levelOf.
  destruct (Z.leb_spec s 30); [split; (discriminate || lia)|].
  destruct (Z.leb_spec s 60); split; (discriminate || lia || tauto).
Qed.

(** C2: for every profile the tier is Low iff the raw score is at most 30,
    Medium iff it is above 30 and at most 60, High iff it is above 60; the
    profiles [score30], [score31], [score60], [score61] reach the raw
    scores 30, 31, 60, 61 and get Low, Medium, Medium, High. *)
Theorem tier_thresholds data :
  (riskLevel (calculateDiabetesRisk data) = Low <-> rawScore data <= 30)
  /\ (riskLevel (calculateDiabetesRisk data) = Medium
      <-> 30 < rawScore data <= 60)
  /\ (riskLevel (calculateDiabetesRisk data) = High <-> 60 < rawScore data)
  /\ (rawScore score30 = 30 /\ riskLevel (calculateDiabetesRisk score30) = Low)
  /\ (rawScore score31 = 31 /\ riskLevel (calculateDiabetesRisk score31) = Medium)
  /\ (rawScore score60 = 60 /\ riskLevel (calculateDiabetesRisk score60) = Medium)
  /\ (rawScore score61 = 61 /\ riskLevel (calculateDiabetesRisk score61) = High).
Proof.
  rewrite calculateDiabetesRisk_level.
  split; [apply levelOf_Low|]. split; [apply levelOf_Medium|].
  split; [apply levelOf_High|].
  repeat split; reflexivity.
Qed.

(** Checking a property of the scores 0..137 by running it on each. *)
Lemma by_enumeration (P : Z -> bool) :
  forallb P (seqZ 0 138) = true -> forall s, 0 <= s <= 137 -> P s = true.
Proof.
  intros H s Hs.
  rewrite forallb_forall in H. apply H.
  apply list_elem_of_In, elem_of_seqZ. lia.
Qed.

Lemma percentageOf_range s : 0 <= s <= 137 -> 0 <= percentageOf s <= 95.
Proof.
  intros Hs. split.
  - apply Z.leb_le.
    apply (by_enumeration (fun s => 0 <=? percentageOf s)); [|exact Hs].
    vm_compute. reflexivity.
  - unfold percentageOf, Math_min. apply Z.le_min_r.
Qed.

(** The same percentage in exact arithmetic: floor(100 s / 120 + 1/2),
    capped at 95. *)
Definition percentageExact (s : Z) : Z := Z.min ((200 * s + 120) / 240) 95.

(** The formula of the specification, read as it is written:
    min(round(rawScore / 120 * 100), 95) over the rationals, round taking
    a half upwards as [Math.round] does. *)
Definition roundQ (q : Q) : Z := Qfloor (Qplus q (Qmake 1 2)).
Definition percentageBySpec (rawScore : Z) : Z :=
  Z.min (roundQ (Qmult (Qdiv (inject_Z rawScore) (inject_Z 120)) (inject_Z 100)))
    95.

(** The double computation agrees with the exact one on every attainable
    score but 69, where 69 / 120 * 100 is 57.49999999999999 in doubles and
    rounds down, while the exact 57.5 rounds up. *)
Lemma percentageOf_exact s :
  0 <= s <= 137 -> s <> 69 -> percentageOf s = percentageExact s.
Proof.
  intros Hs Hne.
  pose proof (by_enumeration
    (fun s => (s =? 69) || (percentageOf s =? percentageExact s))) as H.
  specialize (H ltac:(vm_compute; reflexivity) s Hs).
  apply orb_true_iff in H as [H|H]; [apply Z.eqb_eq in H; lia|].
  by apply Z.eqb_eq.
Qed.

Lemma percentageOf_bySpec s :
  0 <= s <= 137 ->
  percentageOf s = if s =? 69 then 57 else percentageBySpec s.
Proof.
  intros Hs. apply Z.eqb_eq.
  apply (by_enumeration
    (fun s => percentageOf s =? if s =? 69 then 57 else percentageBySpec s));
    [|exact Hs].
  vm_compute. reflexivity.
Qed.

(** C3, as stated, fails: the profile [score69] has raw score 69, for
    which the formula gives min(round(57.5), 95) = 58, and the rule engine
    reports 57: in doubles 69 / 120 * 100 is 57.49999999999999. *)
Lemma percentage_formula_fails_at_69 :
  rawScore score69 = 69
  /\ percentageBySpec 69 = 58
  /\ riskPercentage (calculateDiabetesRisk score69) = 57
  /\ riskPercentage (calculateDiabetesRisk score69)
     <> percentageBySpec (rawScore score69).
Proof.
  split; [reflexivity|]. split; [reflexivity|]. split; [reflexivity|].
  vm_compute. discriminate.
Qed.

(** C3 (amended): for every profile the reported percentage is
    min(round(rawScore / 120 * 100), 95) as the formula reads over the
    rationals, except at raw score 69, where it is 57 and not 58; it never
    exceeds 95 (and is never negative). *)
Theorem percentage_formula data :
  riskPercentage (calculateDiabetesRisk data)
  = (if rawScore data =? 69 then 57 else percentageBySpec (rawScore data))
  /\ 0 <= riskPercentage (calculateDiabetesRisk data) <= 95.
Proof.
  rewrite calculateDiabetesRisk_percentage.
  split; [apply percentageOf_bySpec, rawScore_range|].
  apply percentageOf_range, rawScore_range.
Qed.

(** ** The rule engine: one record per factor *)

(** What C7 asks of one block on a profile, read as weakly as its words
    allow: the block appends exactly one record, and the record is
    negative exactly when the block raises the score. *)
Definition one_matching_record (data : HealthData) (b : HealthData -> stmt)
  : Prop :=
  exists f, records data b = [f]
            /\ (impact f = impact_negative <-> 0 < points data b).

Definition one_matching_record_each (data : HealthData) : Prop :=
  Forall (one_matching_record data) factorBlocks.

(** The impact the code gives a record, from the points of its block:
    negative from 8 points on, neutral from 1 to 7 points, positive with
    no points; [neutralAtZero] marks the one record that is neutral with
    no points. *)
Definition impactOf (neutralAtZero : bool) (p : Z) : Impact :=
  if 8 <=? p then impact_negative
  else if (1 <=? p) || neutralAtZero then impact_neutral
  else impact_positive.

(** The records that are neutral with no points, in the order of the
    nine blocks that have a record: only that of a bmi that is not at
    least 18.5. *)
Definition neutralAtZero (data : HealthData) : list bool :=
  [false; negb (JS.ge (bmi data) 18.5%float); false; false; false; false;
   false; false; false].

(** The points each block can add, in the order of [factorBlocks]. *)
Definition pointTable : list (list Z) :=
  [[15; 8; 0]; [25; 15; 0]; [20; 0]; [15; 5; 0]; [15; 3; 0]; [12; 3; 0];
   [8; 2; 0]; [10; 4; 0]; [15; 0]; [2; 0]].

Section Records.

Variable data : HealthData.

Definition one_fitting_record (b : HealthData -> stmt) (atZero : bool) : Prop :=
  exists f, records data b = [f] /\ impact f = impactOf atZero (points data b).

Ltac by_record def :=
  unfold one_fitting_record, records, points, def;
  repeat match goal with
         | |- context [if ?b then _ else _] => destruct b
         end;
  eexists; (split; reflexivity).

Lemma record_ageFactor : one_fitting_record ageFactor false.
Proof. by_record ageFactor. Qed.
Lemma record_bmiFactor :
  one_fitting_record bmiFactor (negb (JS.ge (bmi data) 18.5%float)).
Proof. by_record bmiFactor. Qed.
Lemma record_familyHistoryFactor : one_fitting_record familyHistoryFactor false.
Proof. by_record familyHistoryFactor. Qed.
Lemma record_physicalActivityFactor :
  one_fitting_record physicalActivityFactor false.
Proof. by_record physicalActivityFactor. Qed.
Lemma record_dietFactor : one_fitting_record dietFactor false.
Proof. by_record dietFactor. Qed.
Lemma record_smokingFactor : one_fitting_record smokingFactor false.
Proof. by_record smokingFactor. Qed.
Lemma record_alcoholFactor : one_fitting_record alcoholFactor false.
Proof. by_record alcoholFactor. Qed.
Lemma record_stressFactor : one_fitting_record stressFactor false.
Proof. by_record stressFactor. Qed.
Lemma record_hypertensionFactor : one_fitting_record hypertensionFactor false.
Proof. by_record hypertensionFactor. Qed.

Lemma record_genderFactor : records data genderFactor = [].
Proof.
  unfold records, genderFactor.
  by destruct (String.eqb (gender data) "Male").
Qed.

Lemma points_in_table :
  Forall2 (fun b row => points data b ∈ row) factorBlocks pointTable.
Proof.
  unfold factorBlocks, pointTable.
  repeat match goal with
         | |- Forall2 _ (_ :: _) (_ :: _) => constructor
         | |- Forall2 _ [] [] => constructor
         end.
  - destruct (points_ageFactor data) as [->|[->| ->]]; set_solver.
  - destruct (points_bmiFactor data) as [->|[->| ->]]; set_solver.
  - destruct (points_familyHistoryFactor data) as [->| ->]; set_solver.
  - destruct (points_physicalActivityFactor data) as [->|[->| ->]]; set_solver.
  - destruct (points_dietFactor data) as [->|[->| ->]]; set_solver.
  - destruct (points_smokingFactor data) as [->|[->| ->]]; set_solver.
  - destruct (points_alcoholFactor data) as [->|[->| ->]]; set_solver.
  - destruct (points_stressFactor data) as [->|[->| ->]]; set_solver.
  - destruct (points_hypertensionFactor data) as [->| ->]; set_solver.
  - destruct (points_genderFactor data) as [->| ->]; set_solver.
Qed.

(** The point table, row by row: what each factor adds for this
    profile. *)
Definition tablePoints : list Z :=
  [ if JS.ge (age data) 45%float then 15
    else if JS.ge (age data) 35%float then 8 else 0;
    if JS.ge (bmi data) 30%float then 25
    else if JS.ge (bmi data) 25%float then 15 else 0;
    if String.eqb (familyHistory data) "Yes" then 20 else 0;
    if String.eqb (physicalActivity data) "Low" then 15
    else if String.eqb (physicalActivity data) "Moderate" then 5 else 0;
    if String.eqb (dietType data) "Unhealthy" then 15
    else if String.eqb (dietType data) "Balanced" then 3 else 0;
    if String.eqb (smokingStatus data) "Smoker" then 12
    else if String.eqb (smokingStatus data) "Former Smoker" then 3 else 0;
    if String.eqb (alcoholIntake data) "Yes" then 8
    else if String.eqb (alcoholIntake data) "Occasional" then 2 else 0;
    if String.eqb (stressLevel data) "High" then 10
    else if String.eqb (stressLevel data) "Medium" then 4 else 0;
    if String.eqb (hypertension data) "Yes" then 15 else 0;
    if String.eqb (gender data) "Male" then 2 else 0 ].

Lemma points_table : map (points data) factorBlocks = tablePoints.
Proof.
  unfold factorBlocks, tablePoints. cbn [map].
  repeat match goal with |- _ :: _ = _ :: _ => f_equal end;
    unfold points, ageFactor, bmiFactor, familyHistoryFactor,
      physicalActivityFactor, dietFactor, smokingFactor, alcoholFactor,
      stressFactor, hypertensionFactor, genderFactor;
    repeat match goal with
           | |- context [if ?b then _ else _] => destruct b
           end;
    reflexivity.
Qed.

End Records.

(** The result of the rule engine always carries nine records. *)
Lemma calculateDiabetesRisk_nine_factors data :
  length (factors (calculateDiabetesRisk data)) = 9%nat.
Proof.
  rewrite calculateDiabetesRisk_factors, factors_concat, record_genderFactor.
  destruct (record_ageFactor data) as [? [-> _]].
  destruct (record_bmiFactor data) as [? [-> _]].
  destruct (record_familyHistoryFactor data) as [? [-> _]].
  destruct (record_physicalActivityFactor data) as [? [-> _]].
  destruct (record_dietFactor data) as [? [-> _]].
  destruct (record_smokingFactor data) as [? [-> _]].
  destruct (record_alcoholFactor data) as [? [-> _]].
  destruct (record_stressFactor data) as [? [-> _]].
  destruct (record_hypertensionFactor data) as [? [-> _]].
  reflexivity.
Qed.

(** The impacts of the nine records of a result, from the points of the
    point table. *)
Lemma calculateDiabetesRisk_impacts data :
  map impact (factors (calculateDiabetesRisk data))
  = zip_with impactOf (neutralAtZero data) (take 9 (tablePoints data)).
Proof.
  rewrite calculateDiabetesRisk_factors, factors_concat, record_genderFactor.
  rewrite <- points_table.
  destruct (record_ageFactor data) as [? [-> E1]].
  destruct (record_bmiFactor data) as [? [-> E2]].
  destruct (record_familyHistoryFactor data) as [? [-> E3]].
  destruct (record_physicalActivityFactor data) as [? [-> E4]].
  destruct (record_dietFactor data) as [? [-> E5]].
  destruct (record_smokingFactor data) as [? [-> E6]].
  destruct (record_alcoholFactor data) as [? [-> E7]].
  destruct (record_stressFactor data) as [? [-> E8]].
  destruct (record_hypertensionFactor data) as [? [-> E9]].
  cbn [app map factorBlocks take zip_with neutralAtZero].
  by rewrite E1, E2, E3, E4, E5, E6, E7, E8, E9.
Qed.

(** C7, as stated, fails on the male profile [score71] with a moderate
    activity: the gender block adds its 2 points and appends no record,
    and the activity block raises the score by 5 with a record that is
    neutral, not negative; the result carries nine records. *)
Lemma records_do_not_match_contributions :
  (points score71 genderFactor = 2 /\ records score71 genderFactor = [])
  /\ (points score71 physicalActivityFactor = 5
      /\ map impact (records score71 physicalActivityFactor) = [impact_neutral])
  /\ ~ one_matching_record score71 genderFactor
  /\ ~ one_matching_record score71 physicalActivityFactor
  /\ ~ one_matching_record_each score71
  /\ length (factors (calculateDiabetesRisk score71)) = 9%nat.
Proof.
  assert (Hg : ~ one_matching_record score71 genderFactor).
  { intros [f [Hf _]]. discriminate Hf. }
  assert (Ha : ~ one_matching_record score71 physicalActivityFactor).
  { intros [f [Hf [_ Hi]]]. injection Hf as <-.
    specialize (Hi ltac:(reflexivity)). discriminate Hi. }
  split; [by split|]. split; [by split|].
  split; [exact Hg|]. split; [exact Ha|].
  split; [|reflexivity].
  unfold one_matching_record_each, factorBlocks. rewrite !Forall_cons.
  intros (_ & _ & _ & _ & _ & _ & _ & _ & _ & H & _). by apply Hg.
Qed.

(** C7 (amended): for every profile the rule engine runs the ten factor
    blocks once each, in order, and each only adds to the score and the
    lists; the points of each block are those of its row of the point
    table for the profile; each of the nine blocks before gender appends
    exactly one record, which is negative exactly with at least 8 points,
    neutral exactly with 1 to 7 points (the table has 2 to 5) or with a
    bmi that is not at least 18.5, and positive otherwise; the gender
    block appends no record; so the result carries nine records, whose
    impacts are those of the first nine rows of the table. *)
Theorem factor_blocks_contribution data :
  (forall st,
     scoreFactors data st = fold_left (fun st b => b data st) factorBlocks st)
  /\ length factorBlocks = 10%nat
  /\ Forall (fun b => additive (b data)) factorBlocks
  /\ map (points data) factorBlocks = tablePoints data
  /\ Forall2 (fun b row => points data b ∈ row) factorBlocks pointTable
  /\ Forall2 (one_fitting_record data) (take 9 factorBlocks) (neutralAtZero data)
  /\ drop 9 factorBlocks = [genderFactor]
  /\ records data genderFactor = []
  /\ length (factors (calculateDiabetesRisk data)) = 9%nat
  /\ map impact (factors (calculateDiabetesRisk data))
     = zip_with impactOf (neutralAtZero data) (take 9 (tablePoints data)).
Proof.
  split; [apply scoreFactors_blocks|]. split; [reflexivity|].
  split; [apply additive_factorBlocks|]. split; [apply points_table|].
  split; [apply points_in_table|].
  split.
  { unfold factorBlocks, neutralAtZero.
    change (take 9 ?l) with (firstn 9 l). cbn [firstn].
    repeat match goal with
           | |- Forall2 _ (_ :: _) (_ :: _) => constructor
           | |- Forall2 _ [] [] => constructor
           end;
      auto using record_ageFactor, record_bmiFactor,
        record_familyHistoryFactor, record_physicalActivityFactor,
        record_dietFactor, record_smokingFactor, record_alcoholFactor,
        record_stressFactor, record_hypertensionFactor. }
  split; [reflexivity|].
  split; [apply record_genderFactor|].
  split; [apply calculateDiabetesRisk_nine_factors|].
  apply calculateDiabetesRisk_impacts.
Qed.

(** ** The orchestrator *)

Import ModelPrediction.

(** The ways the remote call fails: the awaited [fetch] rejects (network
    failure, or the abort of the 5 second timer), the response is not ok,
    the body is not JSON, or the body is [null]. *)
Inductive remote_failure : Fetch -> Prop :=
| failure_rejected : remote_failure fetch_rejects
| failure_not_ok body : remote_failure (fetch_resolves false body)
| failure_malformed : remote_failure (fetch_resolves true unparsable)
| failure_null : remote_failure (fetch_resolves true (parsed JNull)).

Lemma tryBlock_failure data remote :
  remote_failure remote ->
  tryBlock data remote = throws \/ tryBlock data remote = falls_through.
Proof. intros []; simpl; auto. Qed.

(** When the remote call fails in one of these ways, the orchestrator
    returns the rule engine's result: its tier and percentage, its
    factors, its recommendations behind the notice that names the
    rule-based algorithm, and modelUsed = rule-based.  The failure is
    absorbed: the [try] block ends in [catch] or falls through, and the
    function returns this result. *)
Lemma fallback_on_settled_failure data remote :
  remote_failure remote ->
  predictDiabetesRisk data remote = fulfilled (useRuleBasedModel data)
  /\ modelUsed (useRuleBasedModel data) = rule_based
  /\ ModelPrediction.factors (useRuleBasedModel data)
     = DP.factors (calculateDiabetesRisk data)
  /\ ModelPrediction.recommendations (useRuleBasedModel data)
     = "Prediction made using rule-based algorithm"
       :: DP.recommendations (calculateDiabetesRisk data)
  /\ ModelPrediction.riskLevel (useRuleBasedModel data)
     = Some (JString (levelName (DP.riskLevel (calculateDiabetesRisk data))))
  /\ ModelPrediction.riskPercentage (useRuleBasedModel data)
     = Some (JNumber (of_Z (DP.riskPercentage (calculateDiabetesRisk data)))).
Proof.
  intros H. split; [|repeat split].
  unfold predictDiabetesRisk.
  by destruct (tryBlock_failure data remote H) as [-> | ->].
Qed.

(** The function does not return on one outcome only: an ok response
    whose body never completes. *)
Lemma pending_only_when_stalled data remote :
  predictDiabetesRisk data remote = pending
  <-> remote = fetch_resolves true stalled.
Proof.
  split; [|by intros ->].
  unfold predictDiabetesRisk.
  destruct remote as [|[] [result| |]]; simpl; try discriminate; [|done].
  by destruct (accepted data result).
Qed.

(** C5 fails on the code: the 5 second timer bounds the wait for the
    response only.  It is cleared as soon as [fetch] has resolved, before
    [response.json()] is awaited, so on an ok response whose body never
    completes the call exceeds any wait: the function neither returns
    the rule engine's result nor anything else.  The same silence before
    the response arrives ends in the abort and the fallback, and so does
    a response that is not ok, whose body is never read. *)
Theorem stalled_body_is_not_timed_out data :
  predictDiabetesRisk data (fetch_resolves true stalled) = pending
  /\ predictDiabetesRisk data (fetch_resolves true stalled)
     <> fulfilled (useRuleBasedModel data)
  /\ (forall remote,
        predictDiabetesRisk data remote = pending
        <-> remote = fetch_resolves true stalled)
  /\ predictDiabetesRisk data fetch_rejects
     = fulfilled (useRuleBasedModel data)
  /\ predictDiabetesRisk data (fetch_resolves false stalled)
     = fulfilled (useRuleBasedModel data).
Proof.
  split; [reflexivity|]. split; [discriminate|].
  split; [apply pending_only_when_stalled|by split].
Qed.

(** An ok response with an object body ends the [try] block with a
    result. *)
Lemma predictDiabetesRisk_ok data members :
  predictDiabetesRisk data (fetch_resolves true (parsed (JObject members)))
  = fulfilled
      {| ModelPrediction.riskLevel := member members "riskLevel";
         ModelPrediction.riskPercentage := member members "riskPercentage";
         ModelPrediction.factors := generateFactors data;
         ModelPrediction.recommendations :=
           generateRecommendations data (member members "riskLevel");
         modelUsed := trained |}.
Proof. reflexivity. Qed.

(** C10: on an ok response whose body is an object, the result's
    riskLevel and riskPercentage are the members of the body under these
    keys, whatever they are: nothing checks, clamps or recomputes them.
    A body that carries the level [level] and the percentage [percentage]
    yields exactly these two values, and the body [oddBody], with level
    "Extreme" and percentage 250, yields "Extreme" and 250. *)
Theorem response_fields_pass_through data members :
  ModelPrediction.riskLevel
    <$> predictDiabetesRisk data (fetch_resolves true (parsed (JObject members)))
  = fulfilled (member members "riskLevel")
  /\ ModelPrediction.riskPercentage
       <$> predictDiabetesRisk data
             (fetch_resolves true (parsed (JObject members)))
     = fulfilled (member members "riskPercentage")
  /\ modelUsed
       <$> predictDiabetesRisk data
             (fetch_resolves true (parsed (JObject members)))
     = fulfilled trained
  /\ (forall level percentage,
        let body := JObject [("riskLevel", level); ("riskPercentage", percentage)] in
        ModelPrediction.riskLevel
          <$> predictDiabetesRisk data (fetch_resolves true (parsed body))
        = fulfilled (Some level)
        /\ ModelPrediction.riskPercentage
             <$> predictDiabetesRisk data (fetch_resolves true (parsed body))
           = fulfilled (Some percentage))
  /\ ModelPrediction.riskLevel
       <$> predictDiabetesRisk data (fetch_resolves true (parsed oddBody))
     = fulfilled (Some (JString "Extreme"))
  /\ ModelPrediction.riskPercentage
       <$> predictDiabetesRisk data (fetch_resolves true (parsed oddBody))
     = fulfilled (Some (JNumber 250%float)).
Proof.
  rewrite predictDiabetesRisk_ok. repeat split.
Qed.

(** *** The factors of the trained path *)









(** ** The dataset processor of the serving script *)

(** Doubles above zero: [isNaN(x) || x <= 0] fails exactly when [0 < x]. *)
Lemma positive_number (x : number) :
  (isNaN x || JS.le x 0%float) = false <-> JS.lt 0%float x = true.
Proof.
  unfold isNaN, JS.le, JS.lt.
  rewrite FloatAxioms.eqb_spec, FloatAxioms.leb_spec, FloatAxioms.ltb_spec.
  change (Prim2SF 0%float) with (S754_zero false).
  destruct (Prim2SF x) as [s|s| |s m e]; unfold SFeqb, SFleb, SFltb; simpl.
  - split; discriminate.
  - destruct s; simpl; split; (discriminate || reflexivity).
  - split; discriminate.
  - rewrite Z.compare_refl, Pos.compare_cont_refl.
    destruct s; simpl; split; (discriminate || reflexivity).
Qed.

Lemma positive_number_b (x : number) :
  negb (isNaN x || JS.le x 0%float) = JS.lt 0%float x.
Proof.
  pose proof (positive_number x) as H.
  destruct (isNaN x || JS.le x 0%float), (JS.lt 0%float x);
    simpl; try reflexivity.
  - destruct H as [_ H]. by specialize (H eq_refl).
  - destruct H as [H _]. by specialize (H eq_refl).
Qed.

Section DatasetFacts.

Import Server.

(** [cell] is present: the row has a non-empty text under the column. *)
Definition present (cell : string) : bool := negb (missing cell).

(** A valid row, in the words of the spec: age and bmi parse as numbers
    above zero and every categorical field is present. *)
Definition valid (row : Row) : bool :=
  JS.lt 0%float (Age row) && JS.lt 0%float (BMI row)
  && present (Gender row) && present (Family_History row)
  && present (Physical_Activity row) && present (Diet_Type row)
  && present (Smoking_Status row) && present (Alcohol_Intake row)
  && present (Stress_Level row) && present (Hypertension row)
  && present (Diabetes row).

(** The two [continue] tests of each loop let exactly the valid rows
    through. *)
Lemma valid_code row :
  valid row = negb (invalidAgeOrBmi row) && negb (missingField row).
Proof.
  unfold valid, invalidAgeOrBmi, missingField, present.
  rewrite <- !positive_number_b, !negb_orb, !andb_assoc.
  destruct (isNaN (Age row)), (isNaN (BMI row)),
    (JS.le (Age row) 0%float), (JS.le (BMI row) 0%float); reflexivity.
Qed.

Lemma valid_true row :
  valid row = true -> invalidAgeOrBmi row = false /\ missingField row = false.
Proof.
  rewrite valid_code.
  destruct (invalidAgeOrBmi row), (missingField row); simpl; auto; discriminate.
Qed.

Lemma valid_false row :
  valid row = false -> invalidAgeOrBmi row = true \/ missingField row = true.
Proof.
  rewrite valid_code.
  destruct (invalidAgeOrBmi row), (missingField row); simpl; auto; discriminate.
Qed.

(** The numbers among parsed cells: [NaN] marks a cell that did not
    parse. *)
Definition numbers (xs : list number) : list number :=
  List.filter (fun x => negb (isNaN x)) xs.

Lemma pushNumber_numbers xs x : pushNumber xs x = xs ++ numbers [x].
Proof.
  unfold pushNumber, numbers; simpl.
  destruct (negb (isNaN x)); [done|by rewrite app_nil_r].
Qed.

Lemma numbers_cons x xs : numbers (x :: xs) = numbers [x] ++ numbers xs.
Proof. unfold numbers; simpl. by destruct (negb (isNaN x)). Qed.

(** The first loop, started from any arrays: it appends the cells of the
    valid rows, in order. *)
Lemma firstPass_from dataset : forall acc,
  fold_left firstPassRow dataset acc
  = {| ages := ages acc ++ map Age (List.filter valid dataset);
       bmis := bmis acc ++ map BMI (List.filter valid dataset);
       cholesterols :=
         cholesterols acc
         ++ numbers (map Cholesterol_Level (List.filter valid dataset));
       fastingSugars :=
         fastingSugars acc
         ++ numbers (map Fasting_Blood_Sugar (List.filter valid dataset));
       hba1cs := hba1cs acc ++ numbers (map HBA1C (List.filter valid dataset));
       heartRates :=
         heartRates acc ++ numbers (map Heart_Rate (List.filter valid dataset));
       waistHipRatios :=
         waistHipRatios acc
         ++ numbers (map Waist_Hip_Ratio (List.filter valid dataset)) |}.
Proof.
  induction dataset as [|row rest IH]; intros acc.
  - destruct acc; simpl. unfold numbers; simpl. by rewrite !app_nil_r.
  - simpl fold_left. rewrite IH. unfold firstPassRow.
    change (List.filter valid (row :: rest))
      with (if valid row then row :: List.filter valid rest
            else List.filter valid rest).
    destruct (valid row) eqn:Hv.
    + destruct (valid_true row Hv) as [-> ->].
      cbn [ages bmis cholesterols fastingSugars hba1cs heartRates
           waistHipRatios map].
      rewrite !pushNumber_numbers.
      rewrite (numbers_cons (Cholesterol_Level row) (map _ _)),
        (numbers_cons (Fasting_Blood_Sugar row) (map _ _)),
        (numbers_cons (HBA1C row) (map _ _)),
        (numbers_cons (Heart_Rate row) (map _ _)),
        (numbers_cons (Waist_Hip_Ratio row) (map _ _)).
      by rewrite <- !app_assoc.
    + destruct (valid_false row Hv) as [-> | Hm]; [done|].
      rewrite Hm. by destruct (invalidAgeOrBmi row).
Qed.

(** The second loop, started from any pair of arrays: it appends one
    feature vector and one label per valid row, in order. *)
Lemma secondPass_from st dataset : forall acc,
  fold_left (secondPassRow st) dataset acc
  = (acc.1 ++ map (feature st) (List.filter valid dataset),
     acc.2 ++ map label (List.filter valid dataset)).
Proof.
  induction dataset as [|row rest IH]; intros [fs ls].
  - simpl. by rewrite !app_nil_r.
  - simpl fold_left. rewrite IH. unfold secondPassRow.
    change (List.filter valid (row :: rest))
      with (if valid row then row :: List.filter valid rest
            else List.filter valid rest).
    destruct (valid row) eqn:Hv.
    + destruct (valid_true row Hv) as [-> ->]. cbn [fst snd map].
      by rewrite <- !app_assoc.
    + destruct (valid_false row Hv) as [-> | Hm]; [done|].
      rewrite Hm. by destruct (invalidAgeOrBmi row).
Qed.

Lemma firstPass_valid dataset :
  firstPass dataset
  = {| ages := map Age (List.filter valid dataset);
       bmis := map BMI (List.filter valid dataset);
       cholesterols := numbers (map Cholesterol_Level (List.filter valid dataset));
       fastingSugars :=
         numbers (map Fasting_Blood_Sugar (List.filter valid dataset));
       hba1cs := numbers (map HBA1C (List.filter valid dataset));
       heartRates := numbers (map Heart_Rate (List.filter valid dataset));
       waistHipRatios :=
         numbers (map Waist_Hip_Ratio (List.filter valid dataset)) |}.
Proof. unfold firstPass. by rewrite firstPass_from. Qed.

(** *** What the claim asks of a feature vector and of a label *)

Variable Math_pow : number -> number -> number.

(** The mean and the standard deviation of the values collected for a
    field, and a value normalised with them. *)
Definition average (xs : list number) : number :=
  PrimFloat.div (fold_left PrimFloat.add xs 0%float)
    (of_Z (Z.of_nat (length xs))).
Definition deviation (xs : list number) : number :=
  PrimFloat.sqrt
    (PrimFloat.div
       (fold_left
          (fun sum x =>
             PrimFloat.add sum (Math_pow (PrimFloat.sub x (average xs)) 2%float))
          xs 0%float)
       (of_Z (Z.of_nat (length xs)))).
Definition normalised (xs : list number) (x : number) : number :=
  PrimFloat.div (PrimFloat.sub x (average xs)) (deviation xs).

(** An optional clinical value: 0 when the cell did not parse. *)
Definition normalisedIfPresent (xs : list number) (x : number) : number :=
  if isNaN x then 0%float else normalised xs x.

(** A categorical cell encoded with its table: the code of the cell, 0
    for a cell the table does not have. *)
Definition encoded (table : gmap string number) (cell : string) : entry :=
  num (default 0%float (table !! cell)).

(** The normalised, encoded feature vector of a row among the valid
    [rows]. *)
Definition specFeature (rows : list Row) (row : Row) : list entry :=
  [ num (normalised (map Age rows) (Age row));
    encoded genderMap (Gender row);
    num (normalised (map BMI rows) (BMI row));
    encoded binaryMap (Family_History row);
    encoded activityMap (Physical_Activity row);
    encoded dietMap (Diet_Type row);
    encoded smokingMap (Smoking_Status row);
    encoded alcoholMap (Alcohol_Intake row);
    encoded stressMap (Stress_Level row);
    encoded binaryMap (Hypertension row);
    num (normalisedIfPresent (numbers (map Cholesterol_Level rows))
           (Cholesterol_Level row));
    num (normalisedIfPresent (numbers (map Fasting_Blood_Sugar rows))
           (Fasting_Blood_Sugar row));
    num (normalisedIfPresent (numbers (map HBA1C rows)) (HBA1C row));
    num (normalisedIfPresent (numbers (map Heart_Rate rows)) (Heart_Rate row));
    num (normalisedIfPresent (numbers (map Waist_Hip_Ratio rows))
           (Waist_Hip_Ratio row)) ].

(** The binary label: 1 for "Yes", 0 otherwise. *)
Definition specLabel (row : Row) : entry :=
  if String.eqb (Diabetes row) "Yes" then num 1%float else num 0%float.

(** No categorical cell of the row names a property of
    [Object.prototype]. *)
Definition plainRow (row : Row) : Prop :=
  Forall (fun cell => isPrototypeKey cell = false)
    [Gender row; Family_History row; Physical_Activity row; Diet_Type row;
     Smoking_Status row; Alcohol_Intake row; Stress_Level row;
     Hypertension row].

(** What C9 asks of the labels and of the log: every label is the binary
    label of its row, and a line of the log holds the number of invalid
    rows. *)
Definition binary_labels (dataset : list Row) : Prop :=
  labels (processData Math_pow dataset).1
  = map specLabel (List.filter valid dataset).

Definition mentions (x : number) (line : template) : bool :=
  existsb
    (fun part =>
       match part with
       | Interp y => PrimFloat.eqb x y
       | _ => false
       end)
    line.

Definition invalid_count_reported (dataset : list Row) : bool :=
  existsb
    (mentions (lengthOf (List.filter (fun row => negb (valid row)) dataset)))
    (processData Math_pow dataset).2.

(** *** The code tables on cells that are not inherited names *)

(** A table none of whose codes is falsy without being [0]. *)
Definition plain (table : gmap string number) : Prop :=
  map_Forall
    (fun _ c => truthy c || PrimFloat.Leibniz.eqb c 0%float = true) table.

Lemma code_encoded table cell :
  plain table -> isPrototypeKey cell = false ->
  code table cell = encoded table cell.
Proof.
  intros Hp Hk. unfold code, read, encoded, orZero.
  destruct (table !! cell) as [c|] eqn:E; simpl.
  - specialize (Hp cell c E). simpl in Hp.
    destruct (truthy c); [reflexivity|].
    apply FloatAxioms.Leibniz.eqb_spec in Hp. by rewrite Hp.
  - by rewrite Hk.
Qed.

Ltac plain_table :=
  repeat (apply map_Forall_insert_2; [reflexivity|]);
  apply map_Forall_empty.

Lemma tables_plain :
  plain genderMap /\ plain binaryMap /\ plain activityMap /\ plain dietMap
  /\ plain smokingMap /\ plain alcoholMap /\ plain stressMap.
Proof. repeat split; plain_table. Qed.

(** The label: 1 for "Yes", what is inherited for a name of
    [Object.prototype], 0 for anything else. *)
Lemma label_exact row :
  label row
  = if String.eqb (Diabetes row) "Yes" then num 1%float
    else if isPrototypeKey (Diabetes row) then inherited (Diabetes row)
    else num 0%float.
Proof.
  unfold label, code, read, binaryMap.
  destruct (String.eqb_spec (Diabetes row) "Yes") as [-> | Hy]; [reflexivity|].
  rewrite lookup_insert_ne by congruence.
  destruct (decide (Diabetes row = "No")) as [-> | Hn]; [reflexivity|].
  rewrite lookup_singleton_ne by congruence.
  by destruct (isPrototypeKey (Diabetes row)).
Qed.

Lemma label_by_spec row :
  isPrototypeKey (Diabetes row) = false -> label row = specLabel row.
Proof. intros H. rewrite label_exact. unfold specLabel. by rewrite H. Qed.

(** A value that parsed, in a valid row, is among the collected ones. *)
Lemma present_collected (column : Row -> number) rows row :
  row ∈ rows -> isNaN (column row) = false ->
  (0 <? Z.of_nat (length (numbers (map column rows))))%Z = true.
Proof.
  intros Hr Hn.
  assert (Hin : In (column row) (numbers (map column rows))).
  { unfold numbers. apply filter_In. split.
    - apply in_map. by apply list_elem_of_In.
    - by rewrite Hn. }
  destruct (numbers (map column rows)) as [|x xs]; [destruct Hin|].
  apply Z.ltb_lt. simpl. lia.
Qed.

Lemma normalizeOr0_present (column : Row -> number) rows row :
  row ∈ rows ->
  let xs := numbers (map column rows) in
  normalizeOr0 (column row) (meanOr0 xs) (stdOr1 Math_pow xs (meanOr0 xs))
  = normalisedIfPresent xs (column row).
Proof.
  intros Hr xs. unfold normalizeOr0, normalisedIfPresent.
  destruct (isNaN (column row)) eqn:Hn; simpl; [reflexivity|].
  unfold meanOr0, stdOr1. subst xs.
  by rewrite (present_collected column rows row Hr Hn).
Qed.

(** The feature vector of the second loop is the normalised, encoded
    vector of the claim, for a valid row of the dataset. *)
Lemma feature_by_spec dataset row :
  row ∈ List.filter valid dataset -> plainRow row ->
  feature (statsOf Math_pow (firstPass dataset)) row
  = specFeature (List.filter valid dataset) row.
Proof.
  intros Hr Hp. rewrite firstPass_valid.
  unfold plainRow in Hp. rewrite !Forall_cons in Hp.
  destruct Hp as (Hg & Hf & Ha & Hd & Hs & Hl & Ht & Hh & _).
  destruct tables_plain as (Pg & Pb & Pa & Pd & Ps & Pl & Pt).
  unfold feature, specFeature, statsOf.
  cbn [ages bmis cholesterols fastingSugars hba1cs heartRates waistHipRatios
       ageMean ageStd bmiMean bmiStd cholesterolMean cholesterolStd
       fastingSugarMean fastingSugarStd hba1cMean hba1cStd heartRateMean
       heartRateStd waistHipRatioMean waistHipRatioStd].
  rewrite !code_encoded by assumption.
  rewrite (normalizeOr0_present Cholesterol_Level _ row Hr),
    (normalizeOr0_present Fasting_Blood_Sugar _ row Hr),
    (normalizeOr0_present HBA1C _ row Hr),
    (normalizeOr0_present Heart_Rate _ row Hr),
    (normalizeOr0_present Waist_Hip_Ratio _ row Hr).
  reflexivity.
Qed.

(** What [processData] returns and logs first. *)
Lemma processData_parts dataset :
  features (processData Math_pow dataset).1
  = map (feature (statsOf Math_pow (firstPass dataset)))
      (List.filter valid dataset)
  /\ labels (processData Math_pow dataset).1
     = map label (List.filter valid dataset)
  /\ stats (processData Math_pow dataset).1
     = statsOf Math_pow (firstPass dataset)
  /\ head (processData Math_pow dataset).2
     = Some [Text "Processed "; Interp (lengthOf (List.filter valid dataset));
             Text " valid records out of "; Interp (lengthOf dataset)].
Proof.
  unfold processData, secondPass.
  cbn [fst snd features labels stats head].
  rewrite secondPass_from. cbn [fst snd app].
  unfold lengthOf. by rewrite length_map.
Qed.

(** C9 (amended): [processData] makes two passes over the dataset.  The
    first collects, for the statistics, the age and the bmi of exactly the
    valid rows (age and bmi are numbers above zero, every categorical
    field is present), and the optional clinical values of those rows
    that parsed; the statistics of age and bmi are the mean and the
    standard deviation of what was collected.  The second lets the same
    rows through and emits, for each of them and in order, one vector of
    15 features and one label.  For a row none of whose categorical cells
    names a property of Object.prototype the vector is the normalised,
    encoded one: age and bmi normalised with the statistics of pass 1,
    each categorical cell encoded with its table (0 for a cell the table
    does not have), each optional clinical value normalised with the mean
    and deviation of the parsed values of its column, 0 when it did not
    parse; and the label is 1 when Diabetes is "Yes" and 0 otherwise.
    The other rows are skipped without an error, and the first line of the
    log reports the number of valid rows and the size of the dataset. *)
Theorem processData_two_pass (dataset : list Row) :
  let rows := List.filter valid dataset in
  let result := (processData Math_pow dataset).1 in
  ages (firstPass dataset) = map Age rows
  /\ bmis (firstPass dataset) = map BMI rows
  /\ cholesterols (firstPass dataset) = numbers (map Cholesterol_Level rows)
  /\ fastingSugars (firstPass dataset) = numbers (map Fasting_Blood_Sugar rows)
  /\ hba1cs (firstPass dataset) = numbers (map HBA1C rows)
  /\ heartRates (firstPass dataset) = numbers (map Heart_Rate rows)
  /\ waistHipRatios (firstPass dataset) = numbers (map Waist_Hip_Ratio rows)
  /\ stats result = statsOf Math_pow (firstPass dataset)
  /\ ageMean (stats result) = average (map Age rows)
  /\ ageStd (stats result) = deviation (map Age rows)
  /\ bmiMean (stats result) = average (map BMI rows)
  /\ bmiStd (stats result) = deviation (map BMI rows)
  /\ Forall2
       (fun row f =>
          length f = 15%nat /\ (plainRow row -> f = specFeature rows row))
       rows (features result)
  /\ Forall2
       (fun row l => isPrototypeKey (Diabetes row) = false -> l = specLabel row)
       rows (labels result)
  /\ head (processData Math_pow dataset).2
     = Some [Text "Processed "; Interp (lengthOf rows);
             Text " valid records out of "; Interp (lengthOf dataset)].
Proof.
  intros rows result.
  destruct (processData_parts dataset) as (Ef & El & Es & Eh).
  pose proof (firstPass_valid dataset) as Efp.
  subst result rows. rewrite Ef, El, Es, Eh.
  repeat split; try (rewrite Efp; reflexivity).
  - apply Forall2_fmap_r, Forall_Forall2_diag, Forall_forall.
    intros row Hr; simpl. split; [reflexivity|].
    intros Hp. by apply feature_by_spec.
  - apply Forall2_fmap_r, Forall_Forall2_diag, Forall_forall.
    intros row _; simpl. apply label_by_spec.
Qed.

End DatasetFacts.

(** *** A dataset with an inherited name under Diabetes *)

Definition rowWith (a : number) (diabetes : string) : Server.Row :=
  {| Server.Age := a; Server.BMI := 24%float;
     Server.Cholesterol_Level := 180%float;
     Server.Fasting_Blood_Sugar := PrimFloat.nan;
     Server.HBA1C := PrimFloat.nan;
     Server.Heart_Rate := PrimFloat.nan;
     Server.Waist_Hip_Ratio := PrimFloat.nan;
     Server.Gender := "Male"; Server.Family_History := "Yes";
     Server.Physical_Activity := "Medium"; Server.Diet_Type := "Vegetarian";
     Server.Smoking_Status := "Former"; Server.Alcohol_Intake := "None";
     Server.Stress_Level := "High"; Server.Hypertension := "No";
     Server.Diabetes := diabetes |}.

(** Two valid rows and one whose age did not parse. *)
Definition oddLabels : list Server.Row :=
  [rowWith 40%float "Yes"; rowWith 50%float "constructor";
   rowWith PrimFloat.nan "No"].

(** C9, as stated, fails on [oddLabels]: the label of the second row is
    the function that ["constructor"] names on every object, not 0; and
    the log tells the number of valid rows and the size of the dataset,
    2 and 3, on its first line and the number of invalid rows, 1, on
    none. *)
Lemma labels_and_log_differ :
  Server.labels
    (Server.processData (fun x _ => PrimFloat.mul x x) oddLabels).1
  = [num 1%float; inherited "constructor"]
  /\ ~ binary_labels (fun x _ => PrimFloat.mul x x) oddLabels
  /\ head (Server.processData (fun x _ => PrimFloat.mul x x) oddLabels).2
     = Some [Text "Processed "; Interp 2%float;
             Text " valid records out of "; Interp 3%float]
  /\ length (List.filter (fun row => negb (valid row)) oddLabels) = 1%nat
  /\ invalid_count_reported (fun x _ => PrimFloat.mul x x) oddLabels = false.
Proof.
  split; [reflexivity|]. split; [|by repeat split].
  unfold binary_labels. intros H.
  apply (f_equal (fun ls => ls !! 1%nat)) in H. discriminate H.
Qed.

(** *** A dataset whose rows share one age and one cholesterol level *)

Definition sampleRow (a b : number) : Server.Row :=
  {| Server.Age := a; Server.BMI := b;
     Server.Cholesterol_Level := 180%float;
     Server.Fasting_Blood_Sugar := PrimFloat.nan;
     Server.HBA1C := PrimFloat.nan;
     Server.Heart_Rate := PrimFloat.nan;
     Server.Waist_Hip_Ratio := PrimFloat.nan;
     Server.Gender := "Female"; Server.Family_History := "No";
     Server.Physical_Activity := "High"; Server.Diet_Type := "Vegan";
     Server.Smoking_Status := "Never"; Server.Alcohol_Intake := "None";
     Server.Stress_Level := "Low"; Server.Hypertension := "No";
     Server.Diabetes := "No" |}.

Definition sameAge : list Server.Row :=
  [sampleRow 50%float 22%float; sampleRow 50%float 30%float].

(** The number at a position of a feature vector ([0] when there is
    none). *)
Definition numberAt (i : nat) (f : list entry) : number :=
  match f !! i with
  | Some (num x) => x
  | _ => 0%float
  end.

(** The normalised age and cholesterol of the feature vectors. *)
Definition normalizedAges (p : Server.Processed) : list number :=
  map (numberAt 0) (Server.features p).
Definition normalizedCholesterols (p : Server.Processed) : list number :=
  map (numberAt 10) (Server.features p).

(** C8 fails on the code: on a dataset whose valid rows share one age, the
    computed standard deviation of age is 0, it is used as the divisor as
    it is, and every normalised age is 0/0 = NaN; the same happens to an
    optional field (cholesterol here) whose parsed values are all equal.
    [Math.pow] is only asked to square zero to zero. *)
Theorem zero_std_is_not_replaced (Math_pow : number -> number -> number) :
  Math_pow 0%float 2%float = 0%float ->
  Server.ageStd (Server.stats (Server.processData Math_pow sameAge).1) = 0%float
  /\ Server.cholesterolStd (Server.stats (Server.processData Math_pow sameAge).1)
     = 0%float
  /\ map isNaN (normalizedAges (Server.processData Math_pow sameAge).1)
     = [true; true]
  /\ map isNaN (normalizedCholesterols (Server.processData Math_pow sameAge).1)
     = [true; true].
Proof.
  intros H.
  cbv. rewrite !H. cbv. repeat split.
Qed.

Lemma zero_std_is_not_replaced_witness :
  Server.ageStd
    (Server.stats (Server.processData (fun x _ => PrimFloat.mul x x) sameAge).1)
  = 0%float
  /\ Server.cholesterolStd
       (Server.stats (Server.processData (fun x _ => PrimFloat.mul x x) sameAge).1)
     = 0%float
  /\ map isNaN
       (normalizedAges (Server.processData (fun x _ => PrimFloat.mul x x) sameAge).1)
     = [true; true]
  /\ map isNaN
       (normalizedCholesterols
          (Server.processData (fun x _ => PrimFloat.mul x x) sameAge).1)
     = [true; true].
Proof.
  apply (zero_std_is_not_replaced (fun x _ => PrimFloat.mul x x)).
  reflexivity.
Defined.

(** ** The code tables *)

(** The tables of [useTrainedModel] are those of the client-side
    [DatasetProcessor]; the serving script has the same tables for the
    yes/no fields, diet, smoking, alcohol and stress, one more gender, and
    another key for the middle level of activity. *)
Lemma code_tables_compared :
  ModelPrediction.genderMap = DatasetProcessor.genderMap
  /\ ModelPrediction.binaryMap = DatasetProcessor.binaryMap
  /\ ModelPrediction.activityMap = DatasetProcessor.activityMap
  /\ ModelPrediction.dietMap = DatasetProcessor.dietMap
  /\ ModelPrediction.smokingMap = DatasetProcessor.smokingMap
  /\ ModelPrediction.alcoholMap = DatasetProcessor.alcoholMap
  /\ ModelPrediction.stressMap = DatasetProcessor.stressMap
  /\ Server.binaryMap = ModelPrediction.binaryMap
  /\ Server.dietMap = ModelPrediction.dietMap
  /\ Server.smokingMap = ModelPrediction.smokingMap
  /\ Server.alcoholMap = ModelPrediction.alcoholMap
  /\ Server.stressMap = ModelPrediction.stressMap
  /\ Server.genderMap = <["Other" := 0.5%float]> ModelPrediction.genderMap
  /\ Server.formToCsvMap_dietType = ModelPrediction.formToCsvMap_dietType
  /\ Server.formToCsvMap_smokingStatus
     = ModelPrediction.formToCsvMap_smokingStatus
  /\ Server.formToCsvMap_alcoholIntake
     = ModelPrediction.formToCsvMap_alcoholIntake.
Proof. repeat split; vm_compute; reflexivity. Qed.

(** Away from its middle level, activity has the same code on both
    sides. *)
Lemma activity_code_agrees key :
  key <> "Moderate" -> key <> "Medium" ->
  Server.code Server.activityMap key
  = ModelPrediction.code ModelPrediction.activityMap key.
Proof.
  intros Hmo Hme.
  unfold Server.code, ModelPrediction.code, read, Server.activityMap,
    ModelPrediction.activityMap.
  destruct (decide (key = "Low")) as [-> | Hl]; [reflexivity|].
  destruct (decide (key = "High")) as [-> | Hh]; [reflexivity|].
  rewrite !lookup_insert_ne by congruence.
  rewrite !lookup_singleton_ne by congruence.
  by destruct (isPrototypeKey key).
Qed.

(** C4 fails on the code: the serving script, which scores every request,
    has no key "Moderate" in its activity table (its middle key is
    "Medium") and does not remap the form's value, so the profile
    [score69], whose physicalActivity is "Moderate", gets the activity
    code 0, the code of "Low" (as in [maxed]); the client-side copy of the
    table gives "Moderate" the code 1. *)
Theorem moderate_activity_encodes_as_low (st : Server.Stats) :
  physicalActivity score69 = "Moderate"
  /\ Server.predictFeatures st score69 !! 4%nat = Some (num 0%float)
  /\ physicalActivity maxed = "Low"
  /\ Server.predictFeatures st maxed !! 4%nat = Some (num 0%float)
  /\ useTrainedModel_features score69 !! 4%nat = Some (num 1%float)
  /\ Server.activityMap !! "Moderate" = None
  /\ Server.activityMap !! "Medium" = Some 1%float
  /\ ModelPrediction.activityMap !! "Moderate" = Some 1%float.
Proof. repeat split. Qed.

(** On the client the two encodings are one: [useTrainedModel] encodes a
    profile as [DatasetProcessor] encodes the row with the same cells
    (after the remapping of diet, smoking and alcohol). *)
Definition rowOf (data : HealthData) (diabetes : string)
  : DatasetProcessor.DiabetesData :=
  {| DatasetProcessor.Age := age data;
     DatasetProcessor.Gender := gender data;
     DatasetProcessor.BMI := bmi data;
     DatasetProcessor.Family_History := familyHistory data;
     DatasetProcessor.Physical_Activity := physicalActivity data;
     DatasetProcessor.Diet_Type := dietType data;
     DatasetProcessor.Smoking_Status := smokingStatus data;
     DatasetProcessor.Alcohol_Intake := alcoholIntake data;
     DatasetProcessor.Stress_Level := stressLevel data;
     DatasetProcessor.Hypertension := hypertension data;
     DatasetProcessor.Diabetes := diabetes |}.

Definition csvWords (data : HealthData) : HealthData :=
  {| age := age data; gender := gender data; height := height data;
     weight := weight data; bmi := bmi data;
     familyHistory := familyHistory data;
     physicalActivity := physicalActivity data;
     dietType :=
       default (dietType data)
         (ModelPrediction.formToCsvMap_dietType !! dietType data);
     smokingStatus :=
       default (smokingStatus data)
         (ModelPrediction.formToCsvMap_smokingStatus !! smokingStatus data);
     alcoholIntake :=
       default (alcoholIntake data)
         (ModelPrediction.formToCsvMap_alcoholIntake !! alcoholIntake data);
     stressLevel := stressLevel data;
     hypertension := hypertension data |}.

Lemma client_encoding_agrees data diabetes :
  isPrototypeKey (dietType data) = false ->
  isPrototypeKey (smokingStatus data) = false ->
  isPrototypeKey (alcoholIntake data) = false ->
  useTrainedModel_features data
  = DatasetProcessor.feature (rowOf (csvWords data) diabetes).
Proof.
  intros Hd Hs Ha.
  unfold useTrainedModel_features, DatasetProcessor.feature, csvData, rowOf,
    csvWords, ModelPrediction.remap, ModelPrediction.codeAt.
  cbn [csv_dietType csv_smokingStatus csv_alcoholIntake
       DatasetProcessor.Age DatasetProcessor.Gender DatasetProcessor.BMI
       DatasetProcessor.Family_History DatasetProcessor.Physical_Activity
       DatasetProcessor.Diet_Type DatasetProcessor.Smoking_Status
       DatasetProcessor.Alcohol_Intake DatasetProcessor.Stress_Level
       DatasetProcessor.Hypertension
       age gender bmi familyHistory physicalActivity dietType smokingStatus
       alcoholIntake stressLevel hypertension].
  rewrite Hd, Hs, Ha.
  by destruct (ModelPrediction.formToCsvMap_dietType !! dietType data),
    (ModelPrediction.formToCsvMap_smokingStatus !! smokingStatus data),
    (ModelPrediction.formToCsvMap_alcoholIntake !! alcoholIntake data).
Qed.

(** * Further properties *)

(** ** Comparisons of doubles with constants *)

(** [<=] on doubles is transitive through two positive finite values. *)
Lemma SFleb_trans_positive m1 e1 m2 e2 x :
  SFleb (S754_finite false m1 e1) (S754_finite false m2 e2) = true ->
  SFleb (S754_finite false m2 e2) x = true ->
  SFleb (S754_finite false m1 e1) x = true.
Proof.
  unfold SFleb, SFcompare.
  destruct x as [s|s| |s m e]; try destruct s; simpl; try done.
  change (Pos.compare_cont Eq m1 m2) with (Pos.compare m1 m2).
  change (Pos.compare_cont Eq m2 m) with (Pos.compare m2 m).
  change (Pos.compare_cont Eq m1 m) with (Pos.compare m1 m).
  destruct (Z.compare_spec e1 e2), (Z.compare_spec e2 e),
    (Z.compare_spec e1 e); subst; try lia; try done;
    destruct (Pos.compare_spec m1 m2), (Pos.compare_spec m2 m),
      (Pos.compare_spec m1 m); subst; try lia; done.
Qed.

(** A double that is at least [b] is at least any smaller positive
    constant [a]. *)
Lemma ge_weaken (a b x : number) m1 e1 m2 e2 :
  Prim2SF a = S754_finite false m1 e1 ->
  Prim2SF b = S754_finite false m2 e2 ->
  PrimFloat.leb a b = true ->
  JS.ge x b = true -> JS.ge x a = true.
Proof.
  unfold JS.ge. rewrite !FloatAxioms.leb_spec. intros -> ->.
  apply SFleb_trans_positive.
Qed.

Lemma ge_45_35 x : JS.ge x 45%float = true -> JS.ge x 35%float = true.
Proof. by eapply ge_weaken. Qed.

Lemma ge_30_25 x : JS.ge x 30%float = true -> JS.ge x 25%float = true.
Proof. by eapply ge_weaken. Qed.

Lemma ge_25_18 x : JS.ge x 25%float = true -> JS.ge x 18.5%float = true.
Proof. by eapply ge_weaken. Qed.

(** ** The rule engine: recommendations *)

(** The recommendation the general block puts first, and the one it puts
    last, by tier. *)
Definition opening (l : RiskLevel) : string :=
  match l with
  | Low => "Maintain your current healthy lifestyle habits"
  | Medium => "Schedule a consultation with your healthcare provider within 6 months"
  | High => "Schedule an urgent consultation with your healthcare provider"
  end.

Definition closing (l : RiskLevel) : string :=
  match l with
  | Low => "Continue regular health check-ups every 2-3 years"
  | Medium => "Consider annual diabetes screening"
  | High => "Request comprehensive diabetes screening including HbA1c and fasting glucose tests"
  end.

(** The recommendations a block appends. *)
Definition advice (data : HealthData) (b : HealthData -> stmt) : list string :=
  l_recommendations (b data init).

(** The recommendations the ten factor blocks leave. *)
Definition triggered (data : HealthData) : list string :=
  l_recommendations (scoreFactors data init).

Lemma triggered_concat data :
  triggered data
  = advice data ageFactor ++ advice data bmiFactor
    ++ advice data familyHistoryFactor ++ advice data physicalActivityFactor
    ++ advice data dietFactor ++ advice data smokingFactor
    ++ advice data alcoholFactor ++ advice data stressFactor
    ++ advice data hypertensionFactor ++ advice data genderFactor.
Proof.
  unfold triggered. rewrite scoreFactors_merge. unfold advice. simpl.
  by rewrite <- !app_assoc.
Qed.

Lemma generalRecommendations_layout st :
  l_recommendations (generalRecommendations st)
  = opening (levelOf (riskScore st)) :: l_recommendations st
    ++ [closing (levelOf (riskScore st))].
Proof.
  unfold generalRecommendations, levelOf.
  destruct (riskScore st <=? 30); [done|].
  by destruct (riskScore st <=? 60).
Qed.

Ltac by_advice def :=
  unfold advice, def;
  repeat match goal with
         | |- context [if ?b then _ else _] => destruct b
         end;
  simpl; lia.

Lemma triggered_length data : (length (triggered data) <= 13)%nat.
Proof.
  rewrite triggered_concat, !length_app.
  assert (length (advice data ageFactor) = 0)%nat by by_advice ageFactor.
  assert (length (advice data bmiFactor) <= 2)%nat by by_advice bmiFactor.
  assert (length (advice data familyHistoryFactor) <= 1)%nat
    by by_advice familyHistoryFactor.
  assert (length (advice data physicalActivityFactor) <= 2)%nat
    by by_advice physicalActivityFactor.
  assert (length (advice data dietFactor) <= 2)%nat by by_advice dietFactor.
  assert (length (advice data smokingFactor) <= 1)%nat
    by by_advice smokingFactor.
  assert (length (advice data alcoholFactor) <= 1)%nat
    by by_advice alcoholFactor.
  assert (length (advice data stressFactor) <= 2)%nat by by_advice stressFactor.
  assert (length (advice data hypertensionFactor) <= 2)%nat
    by by_advice hypertensionFactor.
  assert (length (advice data genderFactor) = 0)%nat by by_advice genderFactor.
  lia.
Qed.

Lemma recommendations_layout_aux data :
  DP.recommendations (calculateDiabetesRisk data)
  = opening (levelOf (rawScore data))
    :: triggered data ++ [closing (levelOf (rawScore data))].
Proof.
  unfold calculateDiabetesRisk, rawScore, triggered, seq; simpl.
  by rewrite generalRecommendations_layout.
Qed.

(** X1: the recommendations of the rule engine are the tier's opening
    recommendation, then what the factor blocks appended, block after
    block in the order of evaluation, then the tier's closing
    recommendation: between 2 and 15 entries. *)
Theorem recommendations_layout data :
  DP.recommendations (calculateDiabetesRisk data)
  = opening (DP.riskLevel (calculateDiabetesRisk data))
    :: triggered data ++ [closing (DP.riskLevel (calculateDiabetesRisk data))]
  /\ triggered data
     = advice data ageFactor ++ advice data bmiFactor
       ++ advice data familyHistoryFactor ++ advice data physicalActivityFactor
       ++ advice data dietFactor ++ advice data smokingFactor
       ++ advice data alcoholFactor ++ advice data stressFactor
       ++ advice data hypertensionFactor ++ advice data genderFactor
  /\ (2 <= length (DP.recommendations (calculateDiabetesRisk data)) <= 15)%nat.
Proof.
  assert (E : DP.recommendations (calculateDiabetesRisk data)
              = opening (DP.riskLevel (calculateDiabetesRisk data))
                :: triggered data
                ++ [closing (DP.riskLevel (calculateDiabetesRisk data))]).
  { rewrite calculateDiabetesRisk_level.
    apply recommendations_layout_aux. }
  split; [exact E|]. split; [apply triggered_concat|].
  rewrite E. simpl. rewrite length_app. simpl.
  pose proof (triggered_length data). lia.
Qed.

(** ** The rule engine: profiles without risk *)

(** No condition of the point table holds. *)
Definition no_risk (data : HealthData) : Prop :=
  JS.ge (age data) 35%float = false /\ JS.ge (bmi data) 25%float = false
  /\ familyHistory data <> "Yes"
  /\ physicalActivity data <> "Low" /\ physicalActivity data <> "Moderate"
  /\ dietType data <> "Unhealthy" /\ dietType data <> "Balanced"
  /\ smokingStatus data <> "Smoker" /\ smokingStatus data <> "Former Smoker"
  /\ alcoholIntake data <> "Yes" /\ alcoholIntake data <> "Occasional"
  /\ stressLevel data <> "High" /\ stressLevel data <> "Medium"
  /\ hypertension data <> "Yes" /\ gender data <> "Male".

Lemma ge_false_above (a b x : number) :
  (JS.ge x b = true -> JS.ge x a = true) ->
  JS.ge x a = false -> JS.ge x b = false.
Proof.
  intros H Ha. destruct (JS.ge x b); [|done].
  by rewrite H in Ha.
Qed.

Lemma no_risk_run data :
  no_risk data ->
  scoreFactors data init
  = {| riskScore := 0;
       l_factors := l_factors (scoreFactors data init);
       l_recommendations := [] |}.
Proof.
  intros (Ha & Hb & Hf & Hp1 & Hp2 & Hd1 & Hd2 & Hs1 & Hs2 & Hl1 & Hl2
          & Ht1 & Ht2 & Hh & Hg).
  pose proof (ge_false_above _ _ _ (ge_45_35 (age data)) Ha) as Ha'.
  pose proof (ge_false_above _ _ _ (ge_30_25 (bmi data)) Hb) as Hb'.
  apply String.eqb_neq in Hf, Hp1, Hp2, Hd1, Hd2, Hs1, Hs2, Hl1, Hl2,
    Ht1, Ht2, Hh, Hg.
  unfold scoreFactors, ageFactor, bmiFactor, familyHistoryFactor,
    physicalActivityFactor, dietFactor, smokingFactor, alcoholFactor,
    stressFactor, hypertensionFactor, genderFactor.
  rewrite Ha, Ha', Hb, Hb', Hf, Hp1, Hp2, Hd1, Hd2, Hs1, Hs2, Hl1, Hl2,
    Ht1, Ht2, Hh, Hg.
  by destruct (JS.ge (bmi data) 18.5%float).
Qed.

Lemma zero_score_no_risk data : rawScore data = 0 -> no_risk data.
Proof.
  rewrite rawScore_sum. intros H.
  assert (Hz : points data ageFactor = 0 /\ points data bmiFactor = 0
    /\ points data familyHistoryFactor = 0
    /\ points data physicalActivityFactor = 0 /\ points data dietFactor = 0
    /\ points data smokingFactor = 0 /\ points data alcoholFactor = 0
    /\ points data stressFactor = 0 /\ points data hypertensionFactor = 0
    /\ points data genderFactor = 0).
  { assert (0 <= points data ageFactor)
      by (destruct (points_ageFactor data) as [->|[->| ->]]; lia).
    assert (0 <= points data bmiFactor)
      by (destruct (points_bmiFactor data) as [->|[->| ->]]; lia).
    assert (0 <= points data familyHistoryFactor)
      by (destruct (points_familyHistoryFactor data) as [->| ->]; lia).
    assert (0 <= points data physicalActivityFactor)
      by (destruct (points_physicalActivityFactor data) as [->|[->| ->]]; lia).
    assert (0 <= points data dietFactor)
      by (destruct (points_dietFactor data) as [->|[->| ->]]; lia).
    assert (0 <= points data smokingFactor)
      by (destruct (points_smokingFactor data) as [->|[->| ->]]; lia).
    assert (0 <= points data alcoholFactor)
      by (destruct (points_alcoholFactor data) as [->|[->| ->]]; lia).
    assert (0 <= points data stressFactor)
      by (destruct (points_stressFactor data) as [->|[->| ->]]; lia).
    assert (0 <= points data hypertensionFactor)
      by (destruct (points_hypertensionFactor data) as [->| ->]; lia).
    assert (0 <= points data genderFactor)
      by (destruct (points_genderFactor data) as [->| ->]; lia).
    generalize dependent (points data ageFactor).
    generalize dependent (points data bmiFactor).
    generalize dependent (points data familyHistoryFactor).
    generalize dependent (points data physicalActivityFactor).
    generalize dependent (points data dietFactor).
    generalize dependent (points data smokingFactor).
    generalize dependent (points data alcoholFactor).
    generalize dependent (points data stressFactor).
    generalize dependent (points data hypertensionFactor).
    generalize dependent (points data genderFactor).
    intros; lia. }
  clear H.
  destruct Hz as (Ha & Hb & Hf & Hp & Hd & Hs & Hl & Ht & Hh & Hg).
  unfold points in *.
  unfold no_risk. repeat split.
  - unfold ageFactor in Ha.
    destruct (JS.ge (age data) 45%float) eqn:E45; [discriminate Ha|].
    by destruct (JS.ge (age data) 35%float).
  - unfold bmiFactor in Hb.
    destruct (JS.ge (bmi data) 30%float); [discriminate Hb|].
    by destruct (JS.ge (bmi data) 25%float).
  - intros E. unfold familyHistoryFactor in Hf. by rewrite E in Hf.
  - intros E. unfold physicalActivityFactor in Hp. by rewrite E in Hp.
  - intros E. unfold physicalActivityFactor in Hp. by rewrite E in Hp.
  - intros E. unfold dietFactor in Hd. by rewrite E in Hd.
  - intros E. unfold dietFactor in Hd. by rewrite E in Hd.
  - intros E. unfold smokingFactor in Hs. by rewrite E in Hs.
  - intros E. unfold smokingFactor in Hs. by rewrite E in Hs.
  - intros E. unfold alcoholFactor in Hl. by rewrite E in Hl.
  - intros E. unfold alcoholFactor in Hl. by rewrite E in Hl.
  - intros E. unfold stressFactor in Ht. by rewrite E in Ht.
  - intros E. unfold stressFactor in Ht. by rewrite E in Ht.
  - intros E. unfold hypertensionFactor in Hh. by rewrite E in Hh.
  - intros E. unfold genderFactor in Hg. by rewrite E in Hg.
Qed.

Lemma no_risk_zero data :
  no_risk data -> rawScore data = 0 /\ triggered data = [].
Proof.
  intros H. unfold rawScore, triggered. by rewrite (no_risk_run data H).
Qed.

(** X2: a profile on which no condition of the point table holds (age
    below 35, bmi below 25, and none of the scoring answers) gets raw
    score 0, tier Low, 0 percent, and just the two general recommendations
    of the Low tier. *)
Theorem no_risk_result data :
  no_risk data ->
  rawScore data = 0
  /\ DP.riskLevel (calculateDiabetesRisk data) = Low
  /\ DP.riskPercentage (calculateDiabetesRisk data) = 0
  /\ DP.recommendations (calculateDiabetesRisk data)
     = ["Maintain your current healthy lifestyle habits";
        "Continue regular health check-ups every 2-3 years"].
Proof.
  intros H. destruct (no_risk_zero data H) as [Hs Ht].
  rewrite calculateDiabetesRisk_level, calculateDiabetesRisk_percentage,
    recommendations_layout_aux, Hs, Ht.
  repeat split.
Qed.

Lemma no_risk_result_witness :
  rawScore healthy = 0
  /\ DP.riskLevel (calculateDiabetesRisk healthy) = Low
  /\ DP.riskPercentage (calculateDiabetesRisk healthy) = 0
  /\ DP.recommendations (calculateDiabetesRisk healthy)
     = ["Maintain your current healthy lifestyle habits";
        "Continue regular health check-ups every 2-3 years"].
Proof.
  apply (no_risk_result healthy).
  unfold no_risk. repeat split; (reflexivity || discriminate).
Defined.

(** X3: the raw score is 0 for no other profile: it is 0 exactly when no
    condition of the point table holds. *)
Theorem zero_score_iff_no_risk data : rawScore data = 0 <-> no_risk data.
Proof.
  split; [apply zero_score_no_risk|]. intros H. by apply no_risk_zero.
Qed.

(** ** The rule engine: tier and percentage together *)

(** X4: tier and percentage never disagree: a Low result reports at most
    25 percent, a Medium result 26 to 50, a High result 51 to 95. *)
Theorem tier_percentage_coherent data :
  match DP.riskLevel (calculateDiabetesRisk data) with
  | Low => 0 <= DP.riskPercentage (calculateDiabetesRisk data) <= 25
  | Medium => 26 <= DP.riskPercentage (calculateDiabetesRisk data) <= 50
  | High => 51 <= DP.riskPercentage (calculateDiabetesRisk data) <= 95
  end.
Proof.
  rewrite calculateDiabetesRisk_level, calculateDiabetesRisk_percentage.
  pose proof (by_enumeration
    (fun s => match levelOf s with
              | Low => (0 <=? percentageOf s) && (percentageOf s <=? 25)
              | Medium => (26 <=? percentageOf s) && (percentageOf s <=? 50)
              | High => (51 <=? percentageOf s) && (percentageOf s <=? 95)
              end)) as H.
  specialize (H ltac:(vm_compute; reflexivity) _ (rawScore_range data)).
  cbv beta in H.
  destruct (levelOf (rawScore data));
    apply andb_true_iff in H as [H1 H2];
    apply Z.leb_le in H1, H2; lia.
Qed.

Lemma percentageOf_step s :
  0 <= s <= 136 -> percentageOf s <= percentageOf (s + 1).
Proof.
  intros Hs.
  pose proof (by_enumeration
    (fun s => (s =? 137) || (percentageOf s <=? percentageOf (s + 1)))) as H.
  specialize (H ltac:(vm_compute; reflexivity) s ltac:(lia)).
  apply orb_true_iff in H as [H|H]; [apply Z.eqb_eq in H; lia|].
  by apply Z.leb_le.
Qed.

Lemma percentageOf_monotone s t :
  0 <= s -> s <= t -> t <= 137 -> percentageOf s <= percentageOf t.
Proof.
  intros H0 Hst Ht.
  replace t with (s + Z.of_nat (Z.to_nat (t - s))) in * by lia.
  induction (Z.to_nat (t - s)) as [|k IH].
  - rewrite Z.add_0_r. lia.
  - etransitivity; [apply IH; lia|].
    replace (s + Z.of_nat (S k)) with (s + Z.of_nat k + 1) by lia.
    apply percentageOf_step. lia.
Qed.

(** X5: the percentage never goes down when the raw score goes up. *)
Theorem percentage_monotone d1 d2 :
  rawScore d1 <= rawScore d2 ->
  DP.riskPercentage (calculateDiabetesRisk d1)
  <= DP.riskPercentage (calculateDiabetesRisk d2).
Proof.
  intros H. rewrite !calculateDiabetesRisk_percentage.
  pose proof (rawScore_range d1). pose proof (rawScore_range d2).
  apply percentageOf_monotone; lia.
Qed.

Lemma percentage_monotone_witness :
  DP.riskPercentage (calculateDiabetesRisk score60)
  <= DP.riskPercentage (calculateDiabetesRisk score69).
Proof.
  apply (percentage_monotone score60 score69).
  vm_compute. discriminate.
Defined.

(** ** The rule engine: what the result does not depend on *)

Definition withSize (h w : number) (d : HealthData) : HealthData :=
  {| age := age d; gender := gender d; height := h; weight := w;
     bmi := bmi d; familyHistory := familyHistory d;
     physicalActivity := physicalActivity d; dietType := dietType d;
     smokingStatus := smokingStatus d; alcoholIntake := alcoholIntake d;
     stressLevel := stressLevel d; hypertension := hypertension d |}.

Definition withGender (g : string) (d : HealthData) : HealthData :=
  {| age := age d; gender := g; height := height d; weight := weight d;
     bmi := bmi d; familyHistory := familyHistory d;
     physicalActivity := physicalActivity d; dietType := dietType d;
     smokingStatus := smokingStatus d; alcoholIntake := alcoholIntake d;
     stressLevel := stressLevel d; hypertension := hypertension d |}.

(** X6: height and weight are not read: the rule engine and the
    orchestrator (on any outcome of the remote call) give the same result
    whatever these two fields hold; only the stored bmi counts. *)
Theorem height_weight_ignored h w data :
  calculateDiabetesRisk (withSize h w data) = calculateDiabetesRisk data
  /\ (forall remote,
        predictDiabetesRisk (withSize h w data) remote
        = predictDiabetesRisk data remote).
Proof.
  split; [reflexivity|].
  intros [|[] [[]| |]]; reflexivity.
Qed.

(** X7: gender only moves the score: a male profile scores exactly 2
    more than the same profile with any other gender, and the factors
    (of the rule engine and of the trained path) and the
    factor-triggered recommendations are the same. *)
Theorem gender_only_shifts_score g data :
  g <> "Male" ->
  rawScore (withGender "Male" data) = rawScore (withGender g data) + 2
  /\ DP.factors (calculateDiabetesRisk (withGender "Male" data))
     = DP.factors (calculateDiabetesRisk (withGender g data))
  /\ triggered (withGender "Male" data) = triggered (withGender g data)
  /\ generateFactors (withGender "Male" data)
     = generateFactors (withGender g data).
Proof.
  intros Hg. apply String.eqb_neq in Hg.
  rewrite !calculateDiabetesRisk_factors, !factors_concat, !rawScore_sum,
    !triggered_concat.
  unfold points, records, advice.
  unfold ageFactor, bmiFactor, familyHistoryFactor, physicalActivityFactor,
    dietFactor, smokingFactor, alcoholFactor, stressFactor,
    hypertensionFactor, genderFactor, withGender.
  cbn [age gender bmi familyHistory physicalActivity dietType smokingStatus
       alcoholIntake stressLevel hypertension].
  rewrite Hg, String.eqb_refl.
  repeat split.
  change (riskScore (score_add 2 init)) with 2.
  change (riskScore (skip init)) with 0.
  lia.
Qed.

Lemma gender_only_shifts_score_witness :
  rawScore (withGender "Male" healthy)
  = rawScore (withGender "Female" healthy) + 2
  /\ DP.factors (calculateDiabetesRisk (withGender "Male" healthy))
     = DP.factors (calculateDiabetesRisk (withGender "Female" healthy))
  /\ triggered (withGender "Male" healthy)
     = triggered (withGender "Female" healthy)
  /\ generateFactors (withGender "Male" healthy)
     = generateFactors (withGender "Female" healthy).
Proof.
  apply (gender_only_shifts_score "Female" healthy). discriminate.
Defined.

(** ** The orchestrator: which branch answers *)

(** X8: the result is tagged trained exactly when the response is ok and
    its body is JSON other than [null]; in every other case in which the
    function returns, the result is, whole, the one of
    [useRuleBasedModel]; and it returns unless the response is ok and its
    body never completes. *)
Theorem model_used_trained_iff data remote :
  (modelUsed <$> predictDiabetesRisk data remote = fulfilled trained
   <-> exists body, remote = fetch_resolves true (parsed body) /\ body <> JNull)
  /\ (modelUsed <$> predictDiabetesRisk data remote = fulfilled rule_based
      <-> predictDiabetesRisk data remote = fulfilled (useRuleBasedModel data))
  /\ (remote <> fetch_resolves true stalled ->
      modelUsed <$> predictDiabetesRisk data remote = fulfilled trained
      \/ predictDiabetesRisk data remote = fulfilled (useRuleBasedModel data)).
Proof.
  split; [|split].
  3: {
    intros Hs.
    destruct remote as [|[] [body| |]]; simpl; auto; [|done].
    destruct body; simpl; auto. }
  all: destruct remote as [|[] [body| |]]; simpl;
    try (split; try done; intros (b & E & _); discriminate E).
  all: destruct body; simpl;
    (split;
     [ intros _; eexists; split; [reflexivity|discriminate]
     | intros _; reflexivity ])
    || (split;
        [ discriminate
        | intros E; apply (f_equal (fmap modelUsed)) in E; simpl in E;
          discriminate E ])
    || (split; try done; intros (body' & E & Hb); by inversion E; subst).
Qed.

(** ** The orchestrator: recommendations of the trained path *)

Definition urgentPair : list string :=
  ["Schedule an urgent consultation with your healthcare provider";
   "Request comprehensive diabetes screening including HbA1c and fasting glucose tests"].


Lemma generateRecommendations_urgent data level :
  is_string level "Low" = false -> is_string level "Medium" = false ->
  take 2 (generateRecommendations data level) = urgentPair.
Proof.
  intros H1 H2. unfold generateRecommendations. rewrite H1, H2.
  by destruct (JS.ge (bmi data) 25%float),
    (String.eqb (physicalActivity data) "Low"),
    (String.eqb (dietType data) "Unhealthy"),
    (String.eqb (smokingStatus data) "Smoker"),
    (String.eqb (stressLevel data) "High").
Qed.


(** X10: on an ok response whose body is an object, a riskLevel that is
    not the string "Low" or "Medium" (a missing member, [null], a number,
    any other string) is passed through as it is and gets the two urgent
    recommendations of the High tier. *)
Theorem unknown_level_gets_urgent_advice data members :
  is_string (member members "riskLevel") "Low" = false ->
  is_string (member members "riskLevel") "Medium" = false ->
  ModelPrediction.riskLevel
    <$> predictDiabetesRisk data (fetch_resolves true (parsed (JObject members)))
  = fulfilled (member members "riskLevel")
  /\ (fun result => take 2 (ModelPrediction.recommendations result))
       <$> predictDiabetesRisk data
             (fetch_resolves true (parsed (JObject members)))
     = fulfilled urgentPair.
Proof.
  intros H1 H2. rewrite predictDiabetesRisk_ok. split; [reflexivity|].
  change (fulfilled
            (take 2 (generateRecommendations data (member members "riskLevel")))
          = fulfilled urgentPair).
  f_equal. by apply generateRecommendations_urgent.
Qed.

Lemma unknown_level_gets_urgent_advice_witness :
  ModelPrediction.riskLevel
    <$> predictDiabetesRisk healthy
          (fetch_resolves true
             (parsed (JObject [("riskPercentage", JNumber 12%float)])))
  = fulfilled (member [("riskPercentage", JNumber 12%float)] "riskLevel")
  /\ (fun result => take 2 (ModelPrediction.recommendations result))
       <$> predictDiabetesRisk healthy
             (fetch_resolves true
                (parsed (JObject [("riskPercentage", JNumber 12%float)])))
     = fulfilled urgentPair.
Proof.
  apply (unknown_level_gets_urgent_advice healthy
           [("riskPercentage", JNumber 12%float)]); reflexivity.
Defined.

(** A body that is JSON but neither [null] nor an object. *)
Definition scalar_or_array (body : json) : bool :=
  match body with
  | JBool _ | JNumber _ | JString _ | JArray _ => true
  | JNull | JObject _ => false
  end.

(** X11: an ok response whose body is a boolean, a number, a string or an
    array is accepted as a trained answer: riskLevel and riskPercentage
    are [undefined], modelUsed is trained, and the recommendations start
    with the two urgent ones. *)
Theorem scalar_body_gives_undefined_fields data body :
  scalar_or_array body = true ->
  ModelPrediction.riskLevel
    <$> predictDiabetesRisk data (fetch_resolves true (parsed body))
  = fulfilled None
  /\ ModelPrediction.riskPercentage
       <$> predictDiabetesRisk data (fetch_resolves true (parsed body))
     = fulfilled None
  /\ modelUsed <$> predictDiabetesRisk data (fetch_resolves true (parsed body))
     = fulfilled trained
  /\ ModelPrediction.factors
       <$> predictDiabetesRisk data (fetch_resolves true (parsed body))
     = fulfilled (generateFactors data)
  /\ (fun result => take 2 (ModelPrediction.recommendations result))
       <$> predictDiabetesRisk data (fetch_resolves true (parsed body))
     = fulfilled urgentPair.
Proof.
  intros H.
  destruct body; try discriminate H;
    (repeat split;
     change (fulfilled (take 2 (generateRecommendations data None))
             = fulfilled urgentPair);
     f_equal; by apply generateRecommendations_urgent).
Qed.

Lemma scalar_body_gives_undefined_fields_witness :
  ModelPrediction.riskLevel
    <$> predictDiabetesRisk healthy
          (fetch_resolves true (parsed (JString "ok")))
  = fulfilled None
  /\ ModelPrediction.riskPercentage
       <$> predictDiabetesRisk healthy
             (fetch_resolves true (parsed (JString "ok")))
     = fulfilled None
  /\ modelUsed
       <$> predictDiabetesRisk healthy
             (fetch_resolves true (parsed (JString "ok")))
     = fulfilled trained
  /\ ModelPrediction.factors
       <$> predictDiabetesRisk healthy
             (fetch_resolves true (parsed (JString "ok")))
     = fulfilled (generateFactors healthy)
  /\ (fun result => take 2 (ModelPrediction.recommendations result))
       <$> predictDiabetesRisk healthy
             (fetch_resolves true (parsed (JString "ok")))
     = fulfilled urgentPair.
Proof.
  apply (scalar_body_gives_undefined_fields healthy (JString "ok")).
  reflexivity.
Defined.

(** X12: the fallback result is always well formed: its riskLevel is one
    of the strings "Low", "Medium", "High", its riskPercentage is a whole
    number from 0 to 95, it has nine factors, and its recommendations are
    the notice followed by 2 to 15 recommendations of the rule engine. *)
Theorem fallback_result_well_formed data :
  (exists l,
     ModelPrediction.riskLevel (useRuleBasedModel data) = Some (JString l)
     /\ l ∈ ["Low"; "Medium"; "High"])
  /\ (exists p,
        ModelPrediction.riskPercentage (useRuleBasedModel data)
        = Some (JNumber (of_Z p))
        /\ 0 <= p <= 95)
  /\ length (ModelPrediction.factors (useRuleBasedModel data)) = 9%nat
  /\ head (ModelPrediction.recommendations (useRuleBasedModel data))
     = Some "Prediction made using rule-based algorithm"
  /\ (3 <= length (ModelPrediction.recommendations (useRuleBasedModel data))
      <= 16)%nat.
Proof.
  unfold useRuleBasedModel; cbn [ModelPrediction.riskLevel
    ModelPrediction.riskPercentage ModelPrediction.factors
    ModelPrediction.recommendations].
  split.
  { eexists; split; [reflexivity|].
    destruct (DP.riskLevel (calculateDiabetesRisk data)); set_solver. }
  split.
  { eexists; split; [reflexivity|].
    rewrite calculateDiabetesRisk_percentage.
    apply percentageOf_range, rawScore_range. }
  split; [apply calculateDiabetesRisk_nine_factors|].
  split; [reflexivity|].
  rewrite recommendations_layout_aux. simpl. rewrite length_app. simpl.
  pose proof (triggered_length data). lia.
Qed.

(** ** The encodings: which profiles get the same codes *)

(** The values the form can store in the categorical fields (the union
    types of [HealthData]). *)
Definition formTyped (d : HealthData) : Prop :=
  gender d ∈ ["Male"; "Female"]
  /\ familyHistory d ∈ ["Yes"; "No"]
  /\ physicalActivity d ∈ ["Low"; "Moderate"; "High"]
  /\ dietType d ∈ ["Balanced"; "Unhealthy"; "Very Healthy"]
  /\ smokingStatus d ∈ ["Smoker"; "Non-Smoker"; "Former Smoker"]
  /\ alcoholIntake d ∈ ["Yes"; "No"; "Occasional"]
  /\ stressLevel d ∈ ["Low"; "Medium"; "High"]
  /\ hypertension d ∈ ["Yes"; "No"].

(** Checking, by running the encoder [f] on a vocabulary, that two of its
    values with the same code are related by [ok]. *)
Definition same_entry (a b : entry) : bool :=
  match a, b with
  | num x, num y => PrimFloat.Leibniz.eqb x y
  | inherited k, inherited k' => String.eqb k k'
  | _, _ => false
  end.

Lemma same_entry_refl a : same_entry a a = true.
Proof.
  destruct a; simpl.
  - by apply FloatAxioms.Leibniz.eqb_spec.
  - apply String.eqb_refl.
Qed.

Definition codes_separate (f : string -> entry) (ok : string -> string -> bool)
    (vocabulary : list string) : bool :=
  forallb
    (fun a =>
       forallb
         (fun b => ok a b || negb (same_entry (f a) (f b)))
         vocabulary)
    vocabulary.

Lemma codes_separate_sound f ok vocabulary a b :
  codes_separate f ok vocabulary = true ->
  a ∈ vocabulary -> b ∈ vocabulary -> f a = f b -> ok a b = true.
Proof.
  unfold codes_separate. rewrite forallb_forall.
  intros H Ha Hb E.
  apply list_elem_of_In in Ha, Hb.
  specialize (H a Ha). rewrite forallb_forall in H. specialize (H b Hb).
  apply orb_true_iff in H as [H|H]; [exact H|].
  apply negb_true_iff in H.
  rewrite E, same_entry_refl in H. discriminate H.
Qed.

(** X13: the encoding of [useTrainedModel] loses nothing on the values of
    the form: two profiles with form values and the same feature vector
    have the same age, bmi and categorical answers. *)
Theorem client_encoding_injective d1 d2 :
  formTyped d1 -> formTyped d2 ->
  useTrainedModel_features d1 = useTrainedModel_features d2 ->
  age d1 = age d2 /\ bmi d1 = bmi d2
  /\ gender d1 = gender d2 /\ familyHistory d1 = familyHistory d2
  /\ physicalActivity d1 = physicalActivity d2 /\ dietType d1 = dietType d2
  /\ smokingStatus d1 = smokingStatus d2
  /\ alcoholIntake d1 = alcoholIntake d2
  /\ stressLevel d1 = stressLevel d2 /\ hypertension d1 = hypertension d2.
Proof.
  intros (G1 & F1 & P1 & D1 & S1 & A1 & T1 & H1)
         (G2 & F2 & P2 & D2 & S2 & A2 & T2 & H2) E.
  unfold useTrainedModel_features, csvData in E.
  cbn [age gender bmi familyHistory physicalActivity dietType smokingStatus
       alcoholIntake stressLevel hypertension] in E.
  injection E as Ea Eg Eb Ef Ep Ed Es El Et Eh.
  repeat split; try assumption; apply String.eqb_eq.
  - by apply (codes_separate_sound
                (fun v => ModelPrediction.code ModelPrediction.genderMap v)
                String.eqb ["Male"; "Female"]).
  - by apply (codes_separate_sound
                (fun v => ModelPrediction.code ModelPrediction.binaryMap v)
                String.eqb ["Yes"; "No"]).
  - by apply (codes_separate_sound
                (fun v => ModelPrediction.code ModelPrediction.activityMap v)
                String.eqb ["Low"; "Moderate"; "High"]).
  - by apply (codes_separate_sound
                (fun v => ModelPrediction.codeAt ModelPrediction.dietMap
                            (ModelPrediction.remap
                               ModelPrediction.formToCsvMap_dietType v))
                String.eqb ["Balanced"; "Unhealthy"; "Very Healthy"]).
  - by apply (codes_separate_sound
                (fun v => ModelPrediction.codeAt ModelPrediction.smokingMap
                            (ModelPrediction.remap
                               ModelPrediction.formToCsvMap_smokingStatus v))
                String.eqb ["Smoker"; "Non-Smoker"; "Former Smoker"]).
  - by apply (codes_separate_sound
                (fun v => ModelPrediction.codeAt ModelPrediction.alcoholMap
                            (ModelPrediction.remap
                               ModelPrediction.formToCsvMap_alcoholIntake v))
                String.eqb ["Yes"; "No"; "Occasional"]).
  - by apply (codes_separate_sound
                (fun v => ModelPrediction.code ModelPrediction.stressMap v)
                String.eqb ["Low"; "Medium"; "High"]).
  - by apply (codes_separate_sound
                (fun v => ModelPrediction.code ModelPrediction.binaryMap v)
                String.eqb ["Yes"; "No"]).
Qed.

Lemma formTyped_healthy : formTyped healthy.
Proof. unfold formTyped. repeat split; set_solver. Qed.

Lemma formTyped_score69 : formTyped score69.
Proof. unfold formTyped. repeat split; set_solver. Qed.

(** Two profiles that differ (in height and weight) and get the same
    feature vector. *)
Definition tallHealthy : HealthData := withSize 182%float 73%float healthy.

Lemma client_encoding_injective_witness :
  healthy <> tallHealthy
  /\ formTyped healthy /\ formTyped tallHealthy
  /\ useTrainedModel_features healthy = useTrainedModel_features tallHealthy
  /\ age healthy = age tallHealthy /\ bmi healthy = bmi tallHealthy
  /\ gender healthy = gender tallHealthy
  /\ familyHistory healthy = familyHistory tallHealthy
  /\ physicalActivity healthy = physicalActivity tallHealthy
  /\ dietType healthy = dietType tallHealthy
  /\ smokingStatus healthy = smokingStatus tallHealthy
  /\ alcoholIntake healthy = alcoholIntake tallHealthy
  /\ stressLevel healthy = stressLevel tallHealthy
  /\ hypertension healthy = hypertension tallHealthy.
Proof.
  assert (H1 : formTyped healthy) by apply formTyped_healthy.
  assert (H2 : formTyped tallHealthy)
    by (unfold formTyped; repeat split; set_solver).
  assert (E : useTrainedModel_features healthy
              = useTrainedModel_features tallHealthy) by reflexivity.
  split.
  { intros H. apply (f_equal (fun d => PrimFloat.eqb (height d) 165%float)) in H.
    vm_compute in H. discriminate H. }
  split; [exact H1|]. split; [exact H2|]. split; [exact E|].
  exact (client_encoding_injective healthy tallHealthy H1 H2 E).
Defined.

(** Both levels of activity that the serving script encodes as 0. *)
Definition same_or_low_moderate (a b : string) : bool :=
  String.eqb a b
  || ((String.eqb a "Low" || String.eqb a "Moderate")
      && (String.eqb b "Low" || String.eqb b "Moderate")).

(** X14: the encoding of [/api/predict] separates the form values of
    every categorical field but physical activity: two profiles with form
    values and the same feature vector (under the same statistics) have
    the same gender, family history, diet, smoking, alcohol, stress and
    hypertension answers, and the same activity unless both are "Low" or
    "Moderate". *)
Theorem server_encoding_injective_but_activity st d1 d2 :
  formTyped d1 -> formTyped d2 ->
  Server.predictFeatures st d1 = Server.predictFeatures st d2 ->
  gender d1 = gender d2 /\ familyHistory d1 = familyHistory d2
  /\ same_or_low_moderate (physicalActivity d1) (physicalActivity d2) = true
  /\ dietType d1 = dietType d2
  /\ smokingStatus d1 = smokingStatus d2
  /\ alcoholIntake d1 = alcoholIntake d2
  /\ stressLevel d1 = stressLevel d2 /\ hypertension d1 = hypertension d2.
Proof.
  intros (G1 & F1 & P1 & D1 & S1 & A1 & T1 & H1)
         (G2 & F2 & P2 & D2 & S2 & A2 & T2 & H2) E.
  unfold Server.predictFeatures in E.
  injection E as Ea Eg Eb Ef Ep Ed Es El Et Eh.
  split; [apply String.eqb_eq|]. 
  { by apply (codes_separate_sound
                (fun v => Server.code Server.genderMap v)
                String.eqb ["Male"; "Female"]). }
  split; [apply String.eqb_eq|].
  { by apply (codes_separate_sound
                (fun v => Server.code Server.binaryMap v)
                String.eqb ["Yes"; "No"]). }
  split.
  { by apply (codes_separate_sound
                (fun v => Server.code Server.activityMap v)
                same_or_low_moderate ["Low"; "Moderate"; "High"]). }
  split; [apply String.eqb_eq|].
  { by apply (codes_separate_sound
                (fun v => Server.codeAt Server.dietMap
                            (Server.remap Server.formToCsvMap_dietType v))
                String.eqb ["Balanced"; "Unhealthy"; "Very Healthy"]). }
  split; [apply String.eqb_eq|].
  { by apply (codes_separate_sound
                (fun v => Server.codeAt Server.smokingMap
                            (Server.remap Server.formToCsvMap_smokingStatus v))
                String.eqb ["Smoker"; "Non-Smoker"; "Former Smoker"]). }
  split; [apply String.eqb_eq|].
  { by apply (codes_separate_sound
                (fun v => Server.codeAt Server.alcoholMap
                            (Server.remap Server.formToCsvMap_alcoholIntake v))
                String.eqb ["Yes"; "No"; "Occasional"]). }
  split; apply String.eqb_eq.
  { by apply (codes_separate_sound
                (fun v => Server.code Server.stressMap v)
                String.eqb ["Low"; "Medium"; "High"]). }
  { by apply (codes_separate_sound
                (fun v => Server.code Server.binaryMap v)
                String.eqb ["Yes"; "No"]). }
Qed.

Definition unitStats : Server.Stats :=
  {| Server.ageMean := 0%float; Server.ageStd := 1%float;
     Server.bmiMean := 0%float; Server.bmiStd := 1%float;
     Server.cholesterolMean := 0%float; Server.cholesterolStd := 1%float;
     Server.fastingSugarMean := 0%float; Server.fastingSugarStd := 1%float;
     Server.hba1cMean := 0%float; Server.hba1cStd := 1%float;
     Server.heartRateMean := 0%float; Server.heartRateStd := 1%float;
     Server.waistHipRatioMean := 0%float;
     Server.waistHipRatioStd := 1%float |}.

(** [score69] with a low instead of a moderate activity. *)
Definition score79 : HealthData :=
  withCategories "Yes" "Low" "No" "Medium" "No"
    (withAge 50%float (withBmi 31%float healthy)).

Lemma server_encoding_injective_but_activity_witness :
  gender score69 = gender score79
  /\ familyHistory score69 = familyHistory score79
  /\ same_or_low_moderate (physicalActivity score69) (physicalActivity score79)
     = true
  /\ dietType score69 = dietType score79
  /\ smokingStatus score69 = smokingStatus score79
  /\ alcoholIntake score69 = alcoholIntake score79
  /\ stressLevel score69 = stressLevel score79
  /\ hypertension score69 = hypertension score79.
Proof.
  apply (server_encoding_injective_but_activity unitStats score69 score79).
  - apply formTyped_score69.
  - unfold formTyped. repeat split; set_solver.
  - reflexivity.
Defined.

(** ** The client-side dataset processor *)

Section ClientProcessor.

Variable Math_pow : number -> number -> number.
Variable Math_exp : number -> number.

Lemma client_processRows data : forall acc,
  fold_left DatasetProcessor.processRow data acc
  = (acc.1 ++ map DatasetProcessor.feature data,
     acc.2 ++ map DatasetProcessor.label data).
Proof.
  induction data as [|row rest IH]; intros [fs ls]; simpl.
  - by rewrite !app_nil_r.
  - rewrite IH. simpl. by rewrite <- !app_assoc.
Qed.

(** The label of a cell: 1 for "Yes", what is inherited for a name of
    [Object.prototype], 0 for anything else. *)
Definition labelOf (cell : string) : entry :=
  if String.eqb cell "Yes" then num 1%float
  else if isPrototypeKey cell then inherited cell
  else num 0%float.

Lemma client_label_exact row :
  DatasetProcessor.label row = labelOf (DatasetProcessor.Diabetes row).
Proof.
  unfold DatasetProcessor.label, DatasetProcessor.code, read, labelOf,
    DatasetProcessor.binaryMap.
  destruct (String.eqb_spec (DatasetProcessor.Diabetes row) "Yes")
    as [-> | Hy]; [reflexivity|].
  rewrite lookup_insert_ne by congruence.
  destruct (decide (DatasetProcessor.Diabetes row = "No")) as [-> | Hn];
    [reflexivity|].
  rewrite lookup_singleton_ne by congruence.
  by destruct (isPrototypeKey (DatasetProcessor.Diabetes row)).
Qed.

(** X15: the client-side [processData] throws on an empty dataset and on
    any other keeps every row: the result has one feature vector of ten
    entries (one per feature name) and one label per row, in order, with
    no validity filter, and totalSamples is the number of rows.  The
    label is 1 for the cell "Yes", 0 for any other cell that does not
    name a property of Object.prototype, and for a cell that does, what
    is found there, which is not a number. *)
Theorem client_processData_keeps_rows :
  DatasetProcessor.processData Math_pow [] = None
  /\ forall row rows,
       exists p,
         DatasetProcessor.processData Math_pow (row :: rows) = Some p
         /\ DatasetProcessor.features p
            = map DatasetProcessor.feature (row :: rows)
         /\ Forall (fun f => length f = length (DatasetProcessor.featureNames p))
              (DatasetProcessor.features p)
         /\ Forall2
              (fun r l => l = labelOf (DatasetProcessor.Diabetes r))
              (row :: rows) (DatasetProcessor.labels p)
         /\ Forall2
              (fun r l =>
                 isPrototypeKey (DatasetProcessor.Diabetes r) = false ->
                 l = num 1%float \/ l = num 0%float)
              (row :: rows) (DatasetProcessor.labels p)
         /\ DatasetProcessor.totalSamples (DatasetProcessor.statistics p)
            = Z.of_nat (length (row :: rows)).
Proof.
  split; [reflexivity|].
  intros row rows. unfold DatasetProcessor.processData.
  replace (Z.of_nat (length (row :: rows)) =? 0) with false
    by (symmetry; apply Z.eqb_neq; simpl; lia).
  eexists; split; [reflexivity|].
  cbn [DatasetProcessor.features DatasetProcessor.labels
       DatasetProcessor.featureNames DatasetProcessor.statistics
       DatasetProcessor.totalSamples].
  rewrite client_processRows. cbn [fst snd app].
  repeat split.
  - apply Forall_forall. intros f Hf.
    apply list_elem_of_In, in_map_iff in Hf as (r & <- & _). reflexivity.
  - apply Forall2_fmap_r, Forall_Forall2_diag, Forall_forall.
    intros r _; simpl. apply client_label_exact.
  - apply Forall2_fmap_r, Forall_Forall2_diag, Forall_forall.
    intros r _; simpl. rewrite client_label_exact. unfold labelOf.
    intros ->. destruct (String.eqb _ _); auto.
Qed.

(** The weights of a model after some iterations. *)
Lemma client_iterations_length n features labels learningRate k :
  length
    (DatasetProcessor.weights
       (Nat.iter k
          (DatasetProcessor.iteration Math_exp n features labels learningRate)
          {| DatasetProcessor.weights := replicate n 0%float;
             DatasetProcessor.bias := 0%float |}))
  = n.
Proof.
  destruct k as [|k]; simpl.
  - apply length_replicate.
  - by rewrite length_map, length_seq.
Qed.

(** X16: the client-side [trainModel] throws on an empty set of samples;
    on any other it returns as many weights as the first sample has
    features, whatever the number of iterations, and with no iteration
    the weights and the bias are all zero. *)
Theorem client_trainModel_shape :
  (forall labels learningRate iterations,
     DatasetProcessor.trainModel Math_exp [] labels learningRate iterations
     = None)
  /\ (forall first rest labels learningRate iterations,
        exists model,
          DatasetProcessor.trainModel Math_exp (first :: rest) labels
            learningRate iterations = Some model
          /\ length (DatasetProcessor.weights model) = length first)
  /\ (forall first rest labels learningRate,
        DatasetProcessor.trainModel Math_exp (first :: rest) labels
          learningRate 0
        = Some {| DatasetProcessor.weights := replicate (length first) 0%float;
                  DatasetProcessor.bias := 0%float |}).
Proof.
  split; [reflexivity|]. split; [|reflexivity].
  intros first rest labels learningRate iterations.
  eexists; split; [reflexivity|].
  apply client_iterations_length.
Qed.

End ClientProcessor.

(** ** The two copies of the classifier *)

Section TwoCopies.

Variable Math_exp : number -> number.

(** A model of the serving script, read as a model of the client. *)
Definition clientModel (m : Server.Model) : DatasetProcessor.Model :=
  {| DatasetProcessor.weights := Server.weights m;
     DatasetProcessor.bias := Server.bias m |}.

Definition clientGradient (g : Server.Gradient) : DatasetProcessor.Gradient :=
  {| DatasetProcessor.totalError := Server.totalError g;
     DatasetProcessor.gradientWeights := Server.gradientWeights g;
     DatasetProcessor.gradientBias := Server.gradientBias g |}.

Lemma weightedSum_same features weights : forall idx sum,
  Server.weightedSum idx sum features weights
  = DatasetProcessor.weightedSum idx sum features weights.
Proof.
  induction features as [|f rest IH]; intros idx sum; simpl; [done|].
  apply IH.
Qed.

Lemma predict_same features m :
  Server.predict Math_exp features m
  = DatasetProcessor.predict Math_exp features (clientModel m).
Proof.
  unfold Server.predict, DatasetProcessor.predict, Server.sigmoid,
    DatasetProcessor.sigmoid.
  by rewrite weightedSum_same.
Qed.

Lemma sampleStep_same n features labels m g i :
  clientGradient (Server.sampleStep Math_exp n features labels m g i)
  = DatasetProcessor.sampleStep Math_exp n features labels (clientModel m)
      (clientGradient g) i.
Proof.
  unfold Server.sampleStep, DatasetProcessor.sampleStep, clientGradient,
    Server.sigmoid, DatasetProcessor.sigmoid; simpl.
  by rewrite weightedSum_same.
Qed.

Lemma samples_same n features labels m (indices : list nat) : forall g,
  clientGradient
    (fold_left (Server.sampleStep Math_exp n features labels m) indices g)
  = fold_left
      (DatasetProcessor.sampleStep Math_exp n features labels (clientModel m))
      indices (clientGradient g).
Proof.
  induction indices as [|i rest IH]; intros g; simpl; [done|].
  by rewrite IH, sampleStep_same.
Qed.

Lemma iteration_same n features labels learningRate m :
  clientModel (Server.iteration Math_exp n features labels learningRate m)
  = DatasetProcessor.iteration Math_exp n features labels learningRate
      (clientModel m).
Proof.
  unfold Server.iteration, DatasetProcessor.iteration.
  pose proof (samples_same n features labels m (List.seq 0 (length features))
    {| Server.totalError := 0%float;
       Server.gradientWeights := replicate n 0%float;
       Server.gradientBias := 0%float |}) as E.
  unfold clientGradient at 2 in E. cbn [Server.totalError
    Server.gradientWeights Server.gradientBias] in E.
  rewrite <- E. reflexivity.
Qed.

Lemma iterations_same n features labels learningRate k m :
  clientModel
    (Nat.iter k (Server.iteration Math_exp n features labels learningRate) m)
  = Nat.iter k
      (DatasetProcessor.iteration Math_exp n features labels learningRate)
      (clientModel m).
Proof.
  induction k as [|k IH]; simpl; [done|].
  by rewrite iteration_same, IH.
Qed.

(** X17: the two copies of the classifier agree: on the same samples,
    learning rate and number of iterations, [trainLogisticRegression] of
    the serving script and [trainModel] of the client fail together or
    return the same weights and bias, and the two [predict] give the same
    probability for the same model. *)
Theorem classifier_copies_agree :
  (forall features labels learningRate iterations,
     clientModel <$>
       Server.trainLogisticRegression Math_exp features labels learningRate
         iterations
     = DatasetProcessor.trainModel Math_exp features labels learningRate
         iterations)
  /\ (forall features model,
        Server.predict Math_exp features model
        = DatasetProcessor.predict Math_exp features (clientModel model)).
Proof.
  split; [|apply predict_same].
  intros [|first rest] labels learningRate iterations; simpl; [done|].
  by rewrite iterations_same.
Qed.

End TwoCopies.

(** ** NaN in double arithmetic *)

Lemma Prim2SF_inj x y : Prim2SF x = Prim2SF y -> x = y.
Proof.
  intros H. rewrite <- (SF2Prim_Prim2SF x), <- (SF2Prim_Prim2SF y).
  by rewrite H.
Qed.

Lemma isNaN_nan x : isNaN x = true <-> x = PrimFloat.nan.
Proof.
  split; [|by intros ->].
  unfold isNaN. rewrite FloatAxioms.eqb_spec. intros H.
  apply Prim2SF_inj. change (Prim2SF PrimFloat.nan) with S754_nan.
  destruct (Prim2SF x) as [s|s| |s m e]; unfold SFeqb in H; simpl in H;
    try done.
  - by destruct s.
  - rewrite Z.compare_refl, Pos.compare_cont_refl in H. by destruct s.
Qed.

Ltac nan_absorbs spec :=
  intros; apply Prim2SF_inj; rewrite spec;
  change (Prim2SF PrimFloat.nan) with S754_nan;
  match goal with
  | |- context [Prim2SF ?y] => by destruct (Prim2SF y)
  end.

Lemma add_nan_l y : PrimFloat.add PrimFloat.nan y = PrimFloat.nan.
Proof. nan_absorbs FloatAxioms.add_spec. Qed.
Lemma add_nan_r x : PrimFloat.add x PrimFloat.nan = PrimFloat.nan.
Proof. nan_absorbs FloatAxioms.add_spec. Qed.
Lemma sub_nan_l y : PrimFloat.sub PrimFloat.nan y = PrimFloat.nan.
Proof. nan_absorbs FloatAxioms.sub_spec. Qed.
Lemma sub_nan_r x : PrimFloat.sub x PrimFloat.nan = PrimFloat.nan.
Proof. nan_absorbs FloatAxioms.sub_spec. Qed.
Lemma mul_nan_l y : PrimFloat.mul PrimFloat.nan y = PrimFloat.nan.
Proof. nan_absorbs FloatAxioms.mul_spec. Qed.
Lemma mul_nan_r x : PrimFloat.mul x PrimFloat.nan = PrimFloat.nan.
Proof. nan_absorbs FloatAxioms.mul_spec. Qed.
Lemma div_nan_l y : PrimFloat.div PrimFloat.nan y = PrimFloat.nan.
Proof. nan_absorbs FloatAxioms.div_spec. Qed.
Lemma div_nan_r x : PrimFloat.div x PrimFloat.nan = PrimFloat.nan.
Proof. nan_absorbs FloatAxioms.div_spec. Qed.

(** ** Training on a sample that holds NaN *)

Section Poisoning.

Variable Math_exp : number -> number.

(** [Math.exp(NaN)] is [NaN]. *)
Hypothesis exp_nan : Math_exp PrimFloat.nan = PrimFloat.nan.

(** The model whose weights and bias are all [NaN]. *)
Definition nanModel (n : nat) : Server.Model :=
  {| Server.weights := replicate n PrimFloat.nan; Server.bias := PrimFloat.nan |}.

Definition nanGradient (n : nat) : Server.Gradient :=
  {| Server.totalError := PrimFloat.nan;
     Server.gradientWeights := replicate n PrimFloat.nan;
     Server.gradientBias := PrimFloat.nan |}.

Lemma sigmoid_nan : Server.sigmoid Math_exp PrimFloat.nan = PrimFloat.nan.
Proof.
  unfold Server.sigmoid.
  change (PrimFloat.opp PrimFloat.nan) with PrimFloat.nan.
  by rewrite exp_nan, add_nan_r, div_nan_r.
Qed.

Lemma weightedSum_nan_sum features weights : forall idx,
  Server.weightedSum idx PrimFloat.nan features weights = PrimFloat.nan.
Proof.
  induction features as [|f rest IH]; intros idx; simpl; [done|].
  by rewrite add_nan_l.
Qed.

Lemma weightedSum_nan_feature features weights : forall idx sum,
  PrimFloat.nan ∈ features ->
  Server.weightedSum idx sum features weights = PrimFloat.nan.
Proof.
  induction features as [|f rest IH]; intros idx sum H; simpl.
  - by apply elem_of_nil in H.
  - apply elem_of_cons in H as [<- | H].
    + by rewrite mul_nan_l, add_nan_r, weightedSum_nan_sum.
    + by apply IH.
Qed.

Lemma at_index_replicate_nan n j :
  at_index (replicate n PrimFloat.nan) j = PrimFloat.nan.
Proof.
  unfold at_index. revert j.
  induction n as [|n IH]; intros [|j]; simpl; auto.
Qed.

Lemma map_seq_const {A} (x : A) n : forall start,
  map (fun _ => x) (List.seq start n) = replicate n x.
Proof.
  induction n as [|n IH]; intros start; simpl; [done|]. by rewrite IH.
Qed.

(** The logit of the sample [i] under the model [m]. *)
Definition logit (features : list (list number)) (m : Server.Model) (i : nat)
  : number :=
  PrimFloat.add
    (Server.weightedSum 0 0%float (nth i features []) (Server.weights m))
    (Server.bias m).

Lemma sampleStep_nan_logit n features labels m g i :
  logit features m i = PrimFloat.nan ->
  Server.sampleStep Math_exp n features labels m g i = nanGradient n.
Proof.
  unfold logit, Server.sampleStep, nanGradient. intros ->.
  rewrite sigmoid_nan, sub_nan_l, mul_nan_l, !add_nan_r.
  f_equal. etransitivity; [|apply (map_seq_const PrimFloat.nan n 0)].
  apply map_ext. intros j. by rewrite mul_nan_l, add_nan_r.
Qed.

Lemma sampleStep_nan_gradient n features labels m i :
  Server.sampleStep Math_exp n features labels m (nanGradient n) i
  = nanGradient n.
Proof.
  unfold Server.sampleStep, nanGradient; simpl.
  rewrite !add_nan_l. f_equal.
  etransitivity; [|apply (map_seq_const PrimFloat.nan n 0)].
  apply map_ext. intros j. by rewrite at_index_replicate_nan, add_nan_l.
Qed.

Lemma samples_nan_gradient n features labels m (indices : list nat) :
  fold_left (Server.sampleStep Math_exp n features labels m) indices
    (nanGradient n)
  = nanGradient n.
Proof.
  induction indices as [|i rest IH]; simpl; [done|].
  by rewrite sampleStep_nan_gradient.
Qed.

Lemma samples_nan_logit n features labels m (indices : list nat) i : forall g,
  i ∈ indices -> logit features m i = PrimFloat.nan ->
  fold_left (Server.sampleStep Math_exp n features labels m) indices g
  = nanGradient n.
Proof.
  induction indices as [|j rest IH]; intros g Hi Hz; simpl.
  - by apply elem_of_nil in Hi.
  - apply elem_of_cons in Hi as [<- | Hi].
    + by rewrite sampleStep_nan_logit, samples_nan_gradient.
    + by apply IH.
Qed.

Lemma iteration_nan_logit n features labels learningRate m i :
  (i < length features)%nat -> logit features m i = PrimFloat.nan ->
  Server.iteration Math_exp n features labels learningRate m = nanModel n.
Proof.
  intros Hi Hz. unfold Server.iteration, nanModel.
  rewrite (samples_nan_logit n features labels m _ i); [|
    apply list_elem_of_In, in_seq; lia | exact Hz].
  cbn [Server.gradientWeights Server.gradientBias nanGradient].
  rewrite mul_nan_r, div_nan_l, sub_nan_r. f_equal.
  etransitivity; [|apply (map_seq_const PrimFloat.nan n 0)].
  apply map_ext. intros j.
  by rewrite at_index_replicate_nan, mul_nan_r, div_nan_l, sub_nan_r.
Qed.

Lemma logit_nan_row features m i row :
  features !! i = Some row -> PrimFloat.nan ∈ row ->
  logit features m i = PrimFloat.nan.
Proof.
  intros Hi Hrow. unfold logit.
  rewrite (nth_lookup_Some _ _ _ _ Hi).
  by rewrite weightedSum_nan_feature, add_nan_l.
Qed.

(** X18: one sample that holds a [NaN] (a cell normalised with a zero
    standard deviation, say) spoils the whole training: after at least
    one iteration every weight and the bias are [NaN], whatever the other
    samples, the labels and the learning rate. *)
Theorem training_poisoned_by_nan first rest labels learningRate k row :
  row ∈ first :: rest -> PrimFloat.nan ∈ row ->
  Server.trainLogisticRegression Math_exp (first :: rest) labels learningRate
    (S k)
  = Some (nanModel (length first)).
Proof.
  intros Hrow Hnan.
  apply list_elem_of_lookup in Hrow as [i Hi].
  unfold Server.trainLogisticRegression. f_equal. simpl Nat.iter.
  apply (iteration_nan_logit _ _ _ _ _ i).
  - by apply lookup_lt_Some in Hi.
  - by apply (logit_nan_row _ _ _ row).
Qed.

(** A model of [NaN]s gives [NaN] as the probability of every input. *)
Lemma predict_nanModel n features :
  Server.predict Math_exp features (nanModel n) = PrimFloat.nan.
Proof.
  unfold Server.predict, nanModel; simpl.
  by rewrite add_nan_r, sigmoid_nan.
Qed.

End Poisoning.

(** ** The serving script at start-up *)

(** [P] holds of [fuel] consecutive integers from [z] on. *)
Fixpoint all_from (P : Z -> bool) (fuel : nat) (z : Z) : bool :=
  match fuel with
  | O => true
  | S f => P z && all_from P f (z + 1)
  end.

Lemma all_from_sound P fuel : forall z x,
  all_from P fuel z = true -> z <= x < z + Z.of_nat fuel -> P x = true.
Proof.
  induction fuel as [|f IH]; intros z x H Hx; [lia|].
  simpl in H. apply andb_true_iff in H as [Hz H].
  destruct (decide (x = z)) as [-> | Hne]; [exact Hz|].
  apply (IH (z + 1)); [exact H|lia].
Qed.

#[local] Set Warnings "-inexact-float".

(** The split index of [trainModel], [Math.floor(n * 0.8)], is the whole
    part of 4n/5 for up to 10000 samples. *)
Lemma splitIndex_exact (n : nat) :
  Z.of_nat n <= 10000 ->
  Math_floor (PrimFloat.mul (of_Z (Z.of_nat n)) 0.8%float)
  = 4 * Z.of_nat n / 5.
Proof.
  intros Hn. apply Z.eqb_eq.
  apply (all_from_sound
           (fun z => Math_floor (PrimFloat.mul (of_Z z) 0.8%float) =? 4 * z / 5)
           (Z.to_nat 10001) 0); [vm_compute; reflexivity|].
  rewrite Z2Nat.id; lia.
Qed.

Section StartUp.

Variable Math_pow : number -> number -> number.
Variable Math_exp : number -> number.

Lemma processData_result rows :
  Server.features (Server.processData Math_pow rows).1
  = map (Server.feature (Server.statsOf Math_pow (Server.firstPass rows)))
      (List.filter valid rows)
  /\ Server.labels (Server.processData Math_pow rows).1
     = map Server.label (List.filter valid rows)
  /\ Server.stats (Server.processData Math_pow rows).1
     = Server.statsOf Math_pow (Server.firstPass rows).
Proof.
  unfold Server.processData, Server.secondPass; simpl.
  by rewrite secondPass_from.
Qed.

Lemma server_iterations_length n features labels learningRate k :
  length
    (Server.weights
       (Nat.iter k (Server.iteration Math_exp n features labels learningRate)
          {| Server.weights := replicate n 0%float;
             Server.bias := 0%float |}))
  = n.
Proof.
  destruct k as [|k]; simpl.
  - apply length_replicate.
  - by rewrite length_map, length_seq.
Qed.

Lemma train_nonempty first rest labels learningRate k :
  exists model,
    Server.trainLogisticRegression Math_exp (first :: rest) labels
      learningRate k = Some model
    /\ length (Server.weights model) = length first.
Proof.
  eexists; split; [reflexivity|]. apply server_iterations_length.
Qed.

(** What [trainModel] leaves when the training split is empty. *)
Lemma trainModel_few_rows rows s :
  (length (List.filter valid rows) <= 1)%nat ->
  Server.trainModel Math_pow Math_exp (Server.load_resolves rows) s
  = Some {| Server.dataset := rows;
            Server.trainedModel := Server.trainedModel s;
            Server.modelAccuracy := Server.modelAccuracy s;
            Server.normalizationStats :=
              Some (Server.statsOf Math_pow (Server.firstPass rows)) |}.
Proof.
  intros Hn.
  destruct (processData_result rows) as (Ef & El & Es).
  unfold Server.trainModel. rewrite Ef, El, Es.
  unfold Server.lengthOf. rewrite length_map.
  rewrite splitIndex_exact by lia.
  replace (Z.to_nat (4 * Z.of_nat (length (List.filter valid rows)) / 5))
    with 0%nat.
  - by rewrite !take_0.
  - rewrite Z.div_small by lia. reflexivity.
Qed.

(** X19: when the csv parser reports an error, [loadDataset] rejects and
    [trainModel] leaves the state as it was; when the file cannot be
    read, the process ends; when the dataset has at most one valid row,
    the training set is empty, [trainLogisticRegression] throws, and the
    script goes on with the dataset and the statistics set but without a
    model and without an accuracy. *)
Theorem trainModel_without_model rows s :
  (length (List.filter valid rows) <= 1)%nat ->
  Server.trainModel Math_pow Math_exp Server.load_rejects s = Some s
  /\ Server.trainModel Math_pow Math_exp Server.read_error s = None
  /\ Server.trainModel Math_pow Math_exp (Server.load_resolves rows) s
     = Some {| Server.dataset := rows;
               Server.trainedModel := Server.trainedModel s;
               Server.modelAccuracy := Server.modelAccuracy s;
               Server.normalizationStats :=
                 Some (Server.statsOf Math_pow (Server.firstPass rows)) |}.
Proof.
  intros Hn. split; [reflexivity|]. split; [reflexivity|].
  by apply trainModel_few_rows.
Qed.

Lemma take_map_cons {A B} (f : A -> B) k r l :
  take (S k) (map f (r :: l)) = f r :: take k (map f l).
Proof. reflexivity. Qed.

(** X20: with 2 to 10000 valid rows [trainModel] trains on the first
    4n/5 of them (rounded down, at least one) and keeps the rest, at
    least one, for the accuracy; the model it stores has 15 weights, and
    the dataset, the statistics and an accuracy are stored with it. *)
Theorem trainModel_with_model rows s :
  2 <= Z.of_nat (length (List.filter valid rows)) <= 10000 ->
  let n := length (List.filter valid rows) in
  let k := Z.to_nat (4 * Z.of_nat n / 5) in
  let st := Server.statsOf Math_pow (Server.firstPass rows) in
  (1 <= k < n)%nat
  /\ exists model accuracy,
       Server.trainLogisticRegression Math_exp
         (map (map toNumber)
            (take k (map (Server.feature st) (List.filter valid rows))))
         (map toNumber (take k (map Server.label (List.filter valid rows))))
         0.01%float 2000
       = Some model
       /\ length (Server.weights model) = 15%nat
       /\ Server.trainModel Math_pow Math_exp (Server.load_resolves rows) s
          = Some {| Server.dataset := rows;
                    Server.trainedModel := Some model;
                    Server.modelAccuracy := Some accuracy;
                    Server.normalizationStats := Some st |}.
Proof.
  intros Hn n k st.
  assert (Hk : (1 <= k < n)%nat).
  { subst k n. split.
    - apply Nat2Z.inj_le. rewrite Z2Nat.id by (apply Z.div_pos; lia).
      apply Z.div_le_lower_bound; lia.
    - apply Nat2Z.inj_lt. rewrite Z2Nat.id by (apply Z.div_pos; lia).
      apply Z.div_lt_upper_bound; lia. }
  split; [exact Hk|].
  destruct (processData_result rows) as (Ef & El & Es).
  unfold Server.trainModel. rewrite Ef, El, Es.
  unfold Server.lengthOf. rewrite !length_map.
  rewrite splitIndex_exact by lia.
  fold n. fold k. fold st.
  destruct (List.filter valid rows) as [|r l] eqn:El'; [simpl in n; lia|].
  destruct k as [|k'] eqn:Ek; [lia|].
  rewrite !take_map_cons, !map_cons.
  destruct (train_nonempty (map toNumber (Server.feature st r))
              (map (map toNumber) (take k' (map (Server.feature st) l)))
              (toNumber (Server.label r)
               :: map toNumber (take k' (map Server.label l)))
              0.01%float 2000) as (model & Em & Hm).
  rewrite Em. exists model. eexists. repeat split. exact Hm.
Qed.

(** ** The serving script behind the orchestrator *)

(** Without the statistics or without the model the handler sends a 500
    with an error message. *)
Lemma predictHandler_not_ready s data :
  Server.normalizationStats s = None \/ Server.trainedModel s = None ->
  exists error,
    Server.predictHandler Math_exp s data
    = {| Server.status := 500; Server.body := Server.Failure error |}.
Proof.
  unfold Server.predictHandler.
  intros [H|H]; rewrite H; [by eexists|].
  destruct (Server.normalizationStats s); by eexists.
Qed.

(** The orchestrator answers a 500 with the rule-based result. *)
Lemma failure_means_fallback data error :
  predictDiabetesRisk data
    (Wire.delivered
       {| Server.status := 500; Server.body := Server.Failure error |})
  = fulfilled (useRuleBasedModel data).
Proof. reflexivity. Qed.

(** X21: while the serving script has no statistics or no model, its
    answer to [/api/predict] is a 500, and the orchestrator that receives
    it returns the rule-based result. *)
Theorem server_not_ready_means_fallback s data :
  Server.normalizationStats s = None \/ Server.trainedModel s = None ->
  Server.status (Server.predictHandler Math_exp s data) = 500
  /\ predictDiabetesRisk data
       (Wire.delivered (Server.predictHandler Math_exp s data))
     = fulfilled (useRuleBasedModel data).
Proof.
  intros H. destruct (predictHandler_not_ready s data H) as [error E].
  rewrite E. split; [reflexivity|]. apply failure_means_fallback.
Qed.

(** X22: once the serving script has statistics and a model, its answer
    is accepted by the orchestrator as a trained result whose riskLevel
    is "Low", "Medium" or "High" and whose riskPercentage is a finite
    number or, when the rounded percentage is not finite, [null]; the
    factors are those of [generateFactors]. *)
Theorem server_answer_accepted s data st model :
  Server.normalizationStats s = Some st ->
  Server.trainedModel s = Some model ->
  exists result,
    predictDiabetesRisk data
      (Wire.delivered (Server.predictHandler Math_exp s data))
    = fulfilled result
    /\ modelUsed result = trained
    /\ (exists l, ModelPrediction.riskLevel result = Some (JString l)
                  /\ l ∈ ["Low"; "Medium"; "High"])
    /\ (ModelPrediction.riskPercentage result = Some JNull
        \/ exists x, ModelPrediction.riskPercentage result = Some (JNumber x)
                     /\ isFinite x = true)
    /\ ModelPrediction.factors result = generateFactors data.
Proof.
  intros Hs Hm.
  unfold Server.predictHandler. rewrite Hs, Hm.
  unfold Wire.delivered, Wire.jsonOfBody.
  cbn [Server.status Server.body].
  change ((200 <=? 200) && (200 <? 300)) with true.
  rewrite predictDiabetesRisk_ok.
  eexists; split; [reflexivity|].
  cbn [modelUsed ModelPrediction.riskLevel ModelPrediction.riskPercentage
       ModelPrediction.factors].
  split; [reflexivity|]. split.
  { eexists; split; [reflexivity|].
    unfold Server.levelOfProbability.
    repeat match goal with
           | |- context [if ?b then _ else _] => destruct b
           end; set_solver. }
  split; [|reflexivity].
  set (p := Math_round_number _).
  change (member _ "riskPercentage") with (Some (Wire.jsonOfNumber p)).
  unfold Wire.jsonOfNumber, isFinite.
  destruct (Prim2SF p) eqn:Ep; eauto.
  right. eexists. split; [reflexivity|]. by rewrite Ep.
Qed.

(** X23: a start-up whose load is rejected, or that loads at most one
    valid row, leaves a service that answers every request with a 500;
    a start-up that cannot read the file leaves no process, and the
    connection is refused.  In each case every assessment gets the
    rule-based result. *)
Theorem failed_startup_means_fallback loaded data :
  match loaded with
  | Server.load_resolves rows => (length (List.filter valid rows) <= 1)%nat
  | Server.load_rejects | Server.read_error => True
  end ->
  predictDiabetesRisk data
    (Wire.answered (Server.predictHandler Math_exp)
       (Server.trainModel Math_pow Math_exp loaded Server.initialState)
       data)
  = fulfilled (useRuleBasedModel data).
Proof.
  intros H.
  destruct loaded as [rows| |]; [|..].
  - rewrite (trainModel_few_rows rows Server.initialState H).
    unfold Wire.answered.
    destruct (predictHandler_not_ready
                {| Server.dataset := rows;
                   Server.trainedModel :=
                     Server.trainedModel Server.initialState;
                   Server.modelAccuracy :=
                     Server.modelAccuracy Server.initialState;
                   Server.normalizationStats :=
                     Some (Server.statsOf Math_pow (Server.firstPass rows)) |}
                data) as [error E]; [by right|].
    rewrite E. apply failure_means_fallback.
  - reflexivity.
  - reflexivity.
Qed.

Section WithExpNaN.

Hypothesis exp_nan : Math_exp PrimFloat.nan = PrimFloat.nan.

(** X24: a service whose model holds only [NaN] (the outcome of training
    on a sample with a [NaN]) answers every request with riskLevel "High"
    and a riskPercentage that is written as [null]; the orchestrator
    returns both as a trained result. *)
Theorem nan_model_answers_high s data st n :
  Server.normalizationStats s = Some st ->
  Server.trainedModel s = Some (nanModel n) ->
  exists result,
    predictDiabetesRisk data
      (Wire.delivered (Server.predictHandler Math_exp s data))
    = fulfilled result
    /\ modelUsed result = trained
    /\ ModelPrediction.riskLevel result = Some (JString "High")
    /\ ModelPrediction.riskPercentage result = Some JNull.
Proof.
  intros Hs Hm.
  unfold Server.predictHandler. rewrite Hs, Hm.
  rewrite (predict_nanModel Math_exp exp_nan).
  unfold Wire.delivered, Wire.jsonOfBody.
  cbn [Server.status Server.body].
  change ((200 <=? 200) && (200 <? 300)) with true.
  rewrite predictDiabetesRisk_ok.
  eexists. repeat split.
Qed.

End WithExpNaN.

End StartUp.

(** ** Instances *)

(** A stand-in for [Math.exp] and one for [Math.pow] (exact for the
    exponent 2, the only one the scripts use): the instances below need
    no more of them. *)
Definition expStandIn (x : number) : number := PrimFloat.add 1 x.
Definition powStandIn (x _ : number) : number := PrimFloat.mul x x.

Lemma expStandIn_nan : expStandIn PrimFloat.nan = PrimFloat.nan.
Proof. reflexivity. Qed.

Definition oneRow : list Server.Row := [sampleRow 50%float 22%float].

Definition zeroModel : Server.Model :=
  {| Server.weights := replicate 15 0%float; Server.bias := 0%float |}.

Definition readyState (model : Server.Model) : Server.State :=
  {| Server.dataset := sameAge;
     Server.trainedModel := Some model;
     Server.modelAccuracy := Some 1%float;
     Server.normalizationStats := Some unitStats |}.

Lemma training_poisoned_by_nan_witness :
  [1%float; PrimFloat.nan] ∈ [[1%float; PrimFloat.nan]; [0%float; 2%float]]
  /\ PrimFloat.nan ∈ [1%float; PrimFloat.nan]
  /\ Server.trainLogisticRegression expStandIn
       [[1%float; PrimFloat.nan]; [0%float; 2%float]] [1%float; 0%float]
       0.01%float 1
     = Some (nanModel 2).
Proof.
  assert (H1 : [1%float; PrimFloat.nan]
               ∈ [[1%float; PrimFloat.nan]; [0%float; 2%float]])
    by (left).
  assert (H2 : PrimFloat.nan ∈ [1%float; PrimFloat.nan])
    by (right; left).
  split; [exact H1|]. split; [exact H2|].
  exact (training_poisoned_by_nan expStandIn expStandIn_nan
           [1%float; PrimFloat.nan] [[0%float; 2%float]] [1%float; 0%float]
           0.01%float 0 [1%float; PrimFloat.nan] H1 H2).
Defined.

Lemma trainModel_without_model_witness :
  (length (List.filter valid oneRow) <= 1)%nat
  /\ Server.trainedModel
       <$> Server.trainModel powStandIn expStandIn (Server.load_resolves oneRow)
             Server.initialState
     = Some None.
Proof.
  assert (H : (length (List.filter valid oneRow) <= 1)%nat)
    by (vm_compute; lia).
  split; [exact H|].
  exact (f_equal (fmap Server.trainedModel)
           (proj2 (proj2
              (trainModel_without_model powStandIn expStandIn oneRow
                 Server.initialState H)))).
Defined.

Lemma trainModel_with_model_witness :
  2 <= Z.of_nat (length (List.filter valid sameAge)) <= 10000
  /\ exists model,
       Server.trainedModel
         <$> Server.trainModel powStandIn expStandIn
               (Server.load_resolves sameAge) Server.initialState
       = Some (Some model)
       /\ length (Server.weights model) = 15%nat.
Proof.
  assert (H : 2 <= Z.of_nat (length (List.filter valid sameAge)) <= 10000)
    by (vm_compute; split; discriminate).
  split; [exact H|].
  destruct (trainModel_with_model powStandIn expStandIn sameAge
              Server.initialState H)
    as (_ & model & accuracy & _ & Hw & Hm).
  exists model. split; [|exact Hw].
  exact (f_equal (fmap Server.trainedModel) Hm).
Defined.

Lemma server_not_ready_means_fallback_witness :
  (Server.normalizationStats Server.initialState = None
   \/ Server.trainedModel Server.initialState = None)
  /\ predictDiabetesRisk score69
       (Wire.delivered
          (Server.predictHandler expStandIn Server.initialState score69))
     = fulfilled (useRuleBasedModel score69).
Proof.
  assert (H : Server.normalizationStats Server.initialState = None
              \/ Server.trainedModel Server.initialState = None)
    by (left; reflexivity).
  split; [exact H|].
  exact (proj2 (server_not_ready_means_fallback expStandIn
                  Server.initialState score69 H)).
Defined.

Lemma server_answer_accepted_witness :
  Server.normalizationStats (readyState zeroModel) = Some unitStats
  /\ Server.trainedModel (readyState zeroModel) = Some zeroModel
  /\ modelUsed
       <$> predictDiabetesRisk score69
             (Wire.delivered
                (Server.predictHandler expStandIn (readyState zeroModel)
                   score69))
     = fulfilled trained.
Proof.
  split; [reflexivity|]. split; [reflexivity|].
  destruct (server_answer_accepted expStandIn (readyState zeroModel)
              score69 unitStats zeroModel eq_refl eq_refl)
    as (result & E & Hm & _).
  rewrite E. exact (f_equal fulfilled Hm).
Defined.

Lemma failed_startup_means_fallback_witness :
  (length (List.filter valid oneRow) <= 1)%nat
  /\ predictDiabetesRisk score69
       (Wire.answered (Server.predictHandler expStandIn)
          (Server.trainModel powStandIn expStandIn
             (Server.load_resolves oneRow) Server.initialState)
          score69)
     = fulfilled (useRuleBasedModel score69).
Proof.
  assert (H : (length (List.filter valid oneRow) <= 1)%nat)
    by (vm_compute; lia).
  split; [exact H|].
  exact (failed_startup_means_fallback powStandIn expStandIn
           (Server.load_resolves oneRow) score69 H).
Defined.

Lemma nan_model_answers_high_witness :
  Server.normalizationStats (readyState (nanModel 15)) = Some unitStats
  /\ Server.trainedModel (readyState (nanModel 15)) = Some (nanModel 15)
  /\ ModelPrediction.riskLevel
       <$> predictDiabetesRisk score69
             (Wire.delivered
                (Server.predictHandler expStandIn (readyState (nanModel 15))
                   score69))
     = fulfilled (Some (JString "High")).
Proof.
  split; [reflexivity|]. split; [reflexivity|].
  destruct (nan_model_answers_high expStandIn expStandIn_nan
              (readyState (nanModel 15)) score69 unitStats 15 eq_refl eq_refl)
    as (result & E & _ & Hl & _).
  rewrite E. exact (f_equal fulfilled Hl).
Defined.
